(** * Mastodon -> BlueSky reposter: media normalisation and sync loop

    A shallow embedding of the four drafts of the reposting script:

    - [Repost]    : src/repost.js
    - [Part000]   : src/unnamed/part_000 (in-memory buffers, RichText)
    - [Part001a]  : src/unnamed/part_001, lines 1-245 (temp files, sharp, ffmpeg)
    - [Part001b]  : src/unnamed/part_001, lines 246-519 (temp files, RichText)

    The script is sequential: every [await] is followed immediately by its
    continuation, so asynchronous calls are modelled as ordinary calls in a
    state-and-exception monad over the [World] the script can observe. *)

From stdpp Require Import base list strings gmap.
From Equations Require Import Equations.
From Stdlib Require Import ZArith Lia Strings.Byte Strings.Ascii.

Local Open Scope Z_scope.

(** ** JavaScript values and string built-ins *)

Module JS.

(** A string-valued property that may be absent ([undefined]). *)
Definition value := option string.

(** Truthiness of a string-or-undefined value: [undefined] and [''] are falsy. *)
Definition truthy (v : value) : bool :=
  match v with
  | Some s => negb (String.eqb s "")
  | None => false
  end.

(** [a || b] *)
Definition or (a b : value) : value := if truthy a then a else b.

(** [s.endsWith(suffix)] *)
Definition endsWith (s suffix : string) : bool :=
  String.prefix (String.rev suffix) (String.rev s).

(** [s.startsWith(p)] *)
Definition startsWith (s p : string) : bool := String.prefix p s.

(** Scan of a reversed string for the regular expression [/\.[^/.]+$/]:
    the number of trailing characters that are neither a dot nor a slash, and
    what precedes the dot that stops them (still reversed). *)
Fixpoint ext_scan (r : string) : option (nat * string) :=
  match r with
  | EmptyString => None
  | String c r' =>
      if Ascii.eqb c "."%char then Some (O, r')
      else if Ascii.eqb c "/"%char then None
      else match ext_scan r' with
           | Some (n, rest) => Some (S n, rest)
           | None => None
           end
  end.

(** [s.replace(/\.[^/.]+$/, repl)]: the match, when there is one, is the last
    dot of [s] together with a non-empty slash-free rest. *)
Definition replace_ext (s repl : string) : string :=
  match ext_scan (String.rev s) with
  | Some (S _, rest) => String.rev rest +:+ repl
  | _ => s
  end.

(** [s.trim()], over the white space of ASCII *)
Fixpoint trimStart (s : string) : string :=
  match s with
  | EmptyString => EmptyString
  | String c s' => if Ascii.is_space c then trimStart s' else s
  end.

Definition trim (s : string) : string :=
  String.rev (trimStart (String.rev (trimStart s))).

(** [s.length] *)
Definition length (s : string) : Z := Z.of_nat (String.length s).

End JS.

Infix "|||" := JS.or (at level 50, left associativity).

(** ** Constants of the script *)

Definition BLUESKY_IMAGE_MAX_SIZE : Z := 1024 * 1024.
Definition BLUESKY_VIDEO_MAX_SIZE : Z := 100 * 1024 * 1024.
Definition BLUESKY_MAX_CHARS : Z := 300.

(** ** Data *)

(** A Node [Buffer]. *)
Definition Buffer := list byte.

(** [buffer.length] *)
Definition blen (b : Buffer) : Z := Z.of_nat (length b).

(** A Mastodon media attachment, as read by the script. *)
Record Media := {
  media_id : string;
  media_type : string;
  media_url : string;
}.

(** A Mastodon status.  [other] holds the string properties that only line 120
    of repost.js reads, by name. *)
Record Post := {
  post_id : string;
  content : JS.value;
  spoiler_text : JS.value;
  text : JS.value;
  other : gmap string string;
  media_attachments : list Media;
}.

(** What [agent.uploadBlob(data, { encoding })] hands back: a reference to the
    uploaded bytes under the declared encoding. *)
Record Blob := {
  blob_data : Buffer;
  blob_encoding : string;
}.

(** The [embed] of a post, by its [$type]. *)
Inductive Embed :=
| EmbedImages (images : list Blob)      (* app.bsky.embed.images *)
| EmbedVideo (video : Blob)             (* app.bsky.embed.media / media#video *)
| EmbedExternal (thumb : Blob).         (* app.bsky.embed.external *)

(** A facet computed by [RichText.detectFacets]. *)
Record Facet := {
  byteStart : Z;
  byteEnd : Z;
  target : string;
}.

Record RichText := {
  rt_text : string;
  rt_facets : list Facet;
}.

(** The argument of [agent.post]. *)
Record PostRequest := {
  req_text : JS.value;
  req_facets : option (list Facet);
  req_embed : option Embed;
}.

(** Lines written to the console. *)
Inductive LogLine :=
| LogNoNewPosts
| LogReposted (id : string)
| LogNoText (id : string)
| LogTooLong (id : string)
| LogVideoTooLarge
| LogSkippedVideoMarked (id : string)
| LogImageSkipped
| LogImageTooBig
| LogVideoTooBig (path : string)
| LogMediaSkipped (filename : string)
| LogFfmpegError (path : string)
| LogMediaError (id : string)
| LogPostError (id : string)
| LogFatal.

(** Number of images and of videos an embed carries. *)
Definition embed_images (e : option Embed) : list Blob :=
  match e with
  | Some (EmbedImages imgs) => imgs
  | _ => []
  end.

Definition embed_videos (e : option Embed) : list Blob :=
  match e with
  | Some (EmbedVideo v) => [v]
  | _ => []
  end.

(** ** External collaborators *)

(** Libraries whose answer depends on their arguments only.  An [option]
    result is [None] when the call throws. *)
Class Libs := {
  (** [(await sharp(buffer).metadata()).format]: a format name whenever
      [metadata()] resolves *)
  sharp_metadata_format : Buffer -> option string;
  (** [await sharp(buffer).jpeg({ quality }).toBuffer()], and [.jpeg()] when
      the quality is [None] *)
  sharp_jpeg : option Z -> Buffer -> option Buffer;
  (** the one ffmpeg profile of [processVideo] run on the bytes of the input
      file; [None] is the ['error'] event *)
  ffmpeg_transcode : Buffer -> option Buffer;
  (** [html.replace(/https?:\/\/(www\.)?(twitter\.com|x\.com)\/[^\s<]+/gi, '')] *)
  strip_twitter_urls : string -> string;
  (** [new JSDOM(html).window.document.body.textContent || ''] *)
  jsdom_text_content : string -> string;
  (** [path.extname], [path.join] and [os.tmpdir()] of Node *)
  path_extname : string -> string;
  path_join : string -> string -> string;
  os_tmpdir : string;
}.

(** The network as one run of the script meets it. *)
Record Env := {
  (** the statuses request of [fetchMastodonPosts]; [None]: it throws *)
  mastodon_statuses : option (list Post);
  (** the body behind a media URL; [None]: [fetch] fails or [!res.ok] *)
  media_body : string -> option Buffer;
  (** [agent.login] succeeds *)
  bsky_login : bool;
  (** [agent.uploadBlob(data, { encoding })] succeeds *)
  bsky_upload : Buffer -> string -> bool;
  (** [agent.post(request)] succeeds *)
  bsky_post : PostRequest -> bool;
  (** [rt.detectFacets(agent)] on a text; [None]: it throws *)
  bsky_facets : string -> option (list Facet);
}.

(** ** The state the script acts on *)

Record World := {
  (** files by path (the temp media directory) *)
  files : gmap string Buffer;
  (** the module-level [postedIds] array *)
  postedIds : list string;
  (** posted_ids.json: [None] when it is missing or does not parse *)
  posted_ids_file : option (list string);
  (** posts created on BlueSky, oldest first *)
  feed : list PostRequest;
  (** console lines, oldest first *)
  console : list LogLine;
}.

Definition set_files (f : gmap string Buffer → gmap string Buffer) (w : World) : World :=
  {| files := f (files w); postedIds := postedIds w;
     posted_ids_file := posted_ids_file w; feed := feed w; console := console w |}.

Definition set_postedIds (f : list string → list string) (w : World) : World :=
  {| files := files w; postedIds := f (postedIds w);
     posted_ids_file := posted_ids_file w; feed := feed w; console := console w |}.

Definition set_posted_ids_file (v : option (list string)) (w : World) : World :=
  {| files := files w; postedIds := postedIds w;
     posted_ids_file := v; feed := feed w; console := console w |}.

Definition set_feed (f : list PostRequest → list PostRequest) (w : World) : World :=
  {| files := files w; postedIds := postedIds w;
     posted_ids_file := posted_ids_file w; feed := f (feed w); console := console w |}.

Definition set_console (f : list LogLine → list LogLine) (w : World) : World :=
  {| files := files w; postedIds := postedIds w;
     posted_ids_file := posted_ids_file w; feed := feed w; console := f (console w) |}.

(** ** A state-and-exception monad *)

Inductive Outcome (A : Type) :=
| Returned (a : A)
| Thrown.
Arguments Returned {A} a.
Arguments Thrown {A}.

Definition M (A : Type) : Type := World → Outcome A * World.

Definition ret {A} (a : A) : M A := λ w, (Returned a, w).

Definition bind {A B} (m : M A) (k : A → M B) : M B :=
  λ w, match m w with
       | (Returned a, w') => k a w'
       | (Thrown, w') => (Thrown, w')
       end.

Definition throw {A} : M A := λ w, (Thrown, w).

(** [try { body } catch { handler }] *)
Definition try_catch {A} (body handler : M A) : M A :=
  λ w, match body w with
       | (Returned a, w') => (Returned a, w')
       | (Thrown, w') => handler w'
       end.

Definition get {A} (f : World → A) : M A := λ w, (Returned (f w), w).
Definition modify (f : World → World) : M unit := λ w, (Returned tt, f w).

(** An [option] that throws when it is [None]. *)
Definition lift {A} (o : option A) : M A :=
  match o with
  | Some a => ret a
  | None => throw
  end.

Notation "'do' x <- m ; k" := (bind m (λ x, k))
  (at level 10, x name, m at level 100, k at level 200).
Notation "'do' ' p <- m ; k" := (bind m (λ x, match x with p => k end))
  (at level 10, p pattern, m at level 100, k at level 200).
Notation "m >> k" := (bind m (λ _, k))
  (at level 100, k at level 200, right associativity).

(** [for (const x of xs) body] *)
Fixpoint for_of {X} (xs : list X) (body : X → M unit) : M unit :=
  match xs with
  | [] => ret tt
  | x :: rest => body x >> for_of rest body
  end.

(** A loop that threads the local variables [S] of its enclosing block. *)
Fixpoint for_of_with {X S} (xs : list X) (body : S → X → M S) (s : S) : M S :=
  match xs with
  | [] => ret s
  | x :: rest => do s' <- body s x; for_of_with rest body s'
  end.

(** ** Primitives over the world *)

Definition console_log (l : LogLine) : M unit :=
  modify (set_console (λ c, c ++ [l])).

(** [fs.readFileSync(path)] *)
Definition readFileSync (p : string) : M Buffer :=
  do f <- get files; lift (f !! p).

(** [fs.writeFileSync(path, data)] *)
Definition writeFileSync (p : string) (data : Buffer) : M unit :=
  modify (set_files (insert p data)).

(** [fs.statSync(path).size] *)
Definition statSync_size (p : string) : M Z :=
  do b <- readFileSync p; ret (blen b).

(** [fs.unlinkSync(path)] *)
Definition unlinkSync (p : string) : M unit :=
  do f <- get files;
  match f !! p with
  | Some _ => modify (set_files (delete p))
  | None => throw
  end.

(** Module start-up: [postedIds] is read from posted_ids.json, or [[]]. *)
Definition load_postedIds (w : World) : World :=
  set_postedIds (λ _, default [] (posted_ids_file w)) w.

(** [savePostedIds()]; the write of posted_ids.json is taken to succeed. *)
Definition savePostedIds : M unit :=
  do ids <- get postedIds; modify (set_posted_ids_file (Some ids)).

(** [postedIds.includes(id)] *)
Definition includes (ids : list string) (id : string) : bool :=
  bool_decide (id ∈ ids).

(** [agent.uploadBlob(data, { encoding })], returning [upload.data.blob] *)
Definition uploadBlob (env : Env) (data : Buffer) (encoding : string) : M Blob :=
  if bsky_upload env data encoding
  then ret {| blob_data := data; blob_encoding := encoding |}
  else throw.

(** [agent.post(request)] *)
Definition agent_post (env : Env) (r : PostRequest) : M unit :=
  if bsky_post env r then modify (set_feed (λ f, f ++ [r])) else throw.

(** ** The JPEG quality ladder

    The [while] loop of [processImageBuffer] (part_000, lines 62-68) and of
    [processImage] (part_001, lines 79-85 and 326-332), the same text in all
    three:
<<
    while (size > BLUESKY_IMAGE_MAX_SIZE && quality > 10) {
      buffer = await sharp(buffer).jpeg({ quality }).toBuffer();
      size = buffer.length;
      quality -= 10;
    }
>>
    Its result is the list of the attempts made, in order, each the quality
    handed to sharp with the length of the buffer sharp gave back ([None] when
    it threw), and the values of [buffer], [size] and [quality] on exit
    ([None] when the last attempt threw). *)

Section QualityLadder.
Context `{Libs}.

Equations? quality_loop (buffer : Buffer) (size quality : Z)
  : list (Z * option Z) * option (Buffer * Z * Z)
  by wf (Z.to_nat (quality - 10)) lt :=
quality_loop buffer size quality with
    decide (size > BLUESKY_IMAGE_MAX_SIZE ∧ quality > 10) => {
  | left _ with sharp_jpeg (Some quality) buffer => {
    | Some buffer' =>
        let r := quality_loop buffer' (blen buffer') (quality - 10) in
        ((quality, Some (blen buffer')) :: r.1, r.2)
    | None => ([(quality, None)], None) }
  | right _ => ([], Some (buffer, size, quality)) }.
Proof. lia. Qed.

End QualityLadder.

(** ** src/unnamed/part_000: buffers in memory *)

Module Part000.
Section Script.
Context `{Libs}.
Variable env : Env.

(** [downloadMediaBuffer(url)] *)
Definition downloadMediaBuffer (url : string) : M Buffer :=
  lift (media_body env url).

(** [processImageBuffer(buffer)], lines 47-77; [None] is [null]. *)
Definition processImageBuffer (buffer : Buffer) : M (option Buffer) :=
  do format <- lift (sharp_metadata_format buffer);
  do processedBuffer <-
    (if negb (String.eqb format "jpeg") && negb (String.eqb format "png")
     then lift (sharp_jpeg None buffer)
     else ret buffer);
  let size := blen processedBuffer in
  do processedBuffer <-
    (if bool_decide (size > BLUESKY_IMAGE_MAX_SIZE)
     then do '(b, _, _) <- lift (quality_loop processedBuffer size 90).2; ret b
     else ret processedBuffer);
  if bool_decide (blen processedBuffer > BLUESKY_IMAGE_MAX_SIZE)
  then console_log LogImageTooBig >> ret None
  else ret (Some processedBuffer).

(** [fetchMastodonPosts()] *)
Definition fetchMastodonPosts : M (list Post) :=
  lift (mastodon_statuses env).

(** [mastodonToRichText(agent, html)], lines 89-99; [None] is [null]. *)
Definition mastodonToRichText (html : JS.value) : M (option RichText) :=
  match html with
  | Some h =>
      if JS.truthy html then
        let text := jsdom_text_content (strip_twitter_urls h) in
        let text := JS.trim text in
        do facets <- lift (bsky_facets env text);
        ret (Some {| rt_text := text; rt_facets := facets |})
      else ret None
  | None => ret None
  end.

(** [postToBlueSky(agent, richText, imageBuffers, videoBuffer)], lines 102-137 *)
Definition postToBlueSky (richText : RichText) (imageBuffers : list Buffer)
    (videoBuffer : option Buffer) : M unit :=
  do embed <-
    match videoBuffer with
    | Some vb =>
        do videoUpload <- uploadBlob env vb "video/mp4";
        ret (Some (EmbedVideo videoUpload))
    | None =>
        if bool_decide (Z.of_nat (length imageBuffers) > 0) then
          do uploaded <- for_of_with imageBuffers
              (λ uploaded buffer,
                 do upload <- uploadBlob env buffer "image/jpeg";
                 ret (uploaded ++ [upload])) [];
          ret (Some (EmbedImages uploaded))
        else ret None
    end;
  agent_post env {| req_text := Some (rt_text richText);
                    req_facets := Some (rt_facets richText);
                    req_embed := embed |}.

(** The locals of the per-post block, lines 165-167. *)
Record Locals := {
  imageBuffers : list Buffer;
  videoBuffer : option Buffer;
  skipDueToVideo : bool;
}.

(** One turn of the attachment loop, lines 170-192. *)
Definition process_media (post : Post) (l : Locals) (media : Media) : M Locals :=
  try_catch
    (if String.eqb (media_type media) "image" then
       do buffer <- downloadMediaBuffer (media_url media);
       do processedBuffer <- processImageBuffer buffer;
       match processedBuffer with
       | Some pb =>
           ret {| imageBuffers := imageBuffers l ++ [pb];
                  videoBuffer := videoBuffer l;
                  skipDueToVideo := skipDueToVideo l |}
       | None => console_log LogImageSkipped >> ret l
       end
     else if String.eqb (media_type media) "video" then
       do buffer <- downloadMediaBuffer (media_url media);
       if bool_decide (blen buffer > BLUESKY_VIDEO_MAX_SIZE) then
         console_log LogVideoTooLarge >>
         ret {| imageBuffers := imageBuffers l;
                videoBuffer := videoBuffer l;
                skipDueToVideo := true |}
       else
         ret {| imageBuffers := imageBuffers l;
                videoBuffer := Some buffer;
                skipDueToVideo := skipDueToVideo l |}
     else ret l)
    (console_log (LogMediaError (post_id post)) >> ret l).

(** [postedIds.push(post.id); savePostedIds();] *)
Definition mark_posted (post : Post) : M unit :=
  modify (set_postedIds (λ ids, ids ++ [post_id post])) >> savePostedIds.

(** The body of the [try] of the per-post loop, lines 154-208. *)
Definition process_post (post : Post) : M unit :=
  do richText <- mastodonToRichText
                   (content post ||| spoiler_text post ||| text post ||| Some "");
  match richText with
  | None => console_log (LogNoText (post_id post))
  | Some rt =>
      if String.eqb (rt_text rt) "" then console_log (LogNoText (post_id post))
      else if bool_decide (JS.length (rt_text rt) > BLUESKY_MAX_CHARS) then
        console_log (LogTooLong (post_id post))
      else
        do l <- for_of_with (media_attachments post) (process_media post)
                  {| imageBuffers := []; videoBuffer := None;
                     skipDueToVideo := false |};
        if skipDueToVideo l then
          mark_posted post >>
          console_log (LogSkippedVideoMarked (post_id post))
        else
          postToBlueSky rt (imageBuffers l) (videoBuffer l) >>
          mark_posted post >>
          console_log (LogReposted (post_id post))
  end.

(** One turn of the per-post loop: the [try] and its [catch], lines 153-211. *)
Definition handle_post (post : Post) : M unit :=
  try_catch (process_post post) (console_log (LogPostError (post_id post))).

(** [newPosts], line 143 *)
Definition newPosts (posts : list Post) (ids : list string) : list Post :=
  rev (List.filter (λ post, negb (includes ids (post_id post))) posts).

(** The main block, lines 139-217.  The result is the exit code of the
    process: [1] after [process.exit(1)], [0] otherwise. *)
Definition main : M Z :=
  try_catch
    (do posts <- fetchMastodonPosts;
     do ids <- get postedIds;
     let newPosts := newPosts posts ids in
     if bool_decide (length newPosts = 0%nat) then
       console_log LogNoNewPosts >> ret 0
     else
       lift (if bsky_login env then Some tt else None) >>
       for_of newPosts handle_post >>
       ret 0)
    (console_log LogFatal >> ret 1).

End Script.
End Part000.

(** ** src/unnamed/part_001: temp files, sharp and ffmpeg

    [downloadMedia], [processImage] and [processVideo] have the same text in
    both halves of the file (lines 48-126 and 295-373). *)

Module Part001.
Section Script.
Context `{Libs}.
Variable env : Env.

Definition TEMP_MEDIA_DIR : string := path_join os_tmpdir "mastodon_media".

(** [downloadMedia(url, filename)].  The response body is written to the
    file in one step; a failed request throws before the file is opened. *)
Definition downloadMedia (url filename : string) : M string :=
  do body <- lift (media_body env url);
  let filePath := path_join TEMP_MEDIA_DIR filename in
  writeFileSync filePath body >> ret filePath.

(** [processImage(inputPath)]; [None] is [null]. *)
Definition processImage (inputPath : string) : M (option string) :=
  do buffer <- readFileSync inputPath;
  do format <- lift (sharp_metadata_format buffer);
  do '(outputPath, buffer) <-
    (if negb (String.eqb format "jpeg") && negb (String.eqb format "png")
     then
       let outputPath := JS.replace_ext inputPath ".jpg" in
       do buffer <- lift (sharp_jpeg None buffer);
       writeFileSync outputPath buffer >> ret (outputPath, buffer)
     else ret (inputPath, buffer));
  let size := blen buffer in
  (if bool_decide (size > BLUESKY_IMAGE_MAX_SIZE)
   then do '(b, _, _) <- lift (quality_loop buffer size 90).2;
        writeFileSync outputPath b
   else ret tt) >>
  do final <- statSync_size outputPath;
  if bool_decide (final > BLUESKY_IMAGE_MAX_SIZE)
  then console_log LogImageTooBig >> ret None
  else ret (Some outputPath).

(** [processVideo(inputPath)]: ffmpeg reads the input file and, on ['end'],
    has written the output file; [None] is [null]. *)
Definition processVideo (inputPath : string) : M (option string) :=
  let outputPath := JS.replace_ext inputPath "_bsky.mp4" in
  do f <- get files;
  match f !! inputPath ≫= ffmpeg_transcode with
  | Some out =>
      writeFileSync outputPath out >>
      do size <- statSync_size outputPath;
      if bool_decide (size > BLUESKY_VIDEO_MAX_SIZE)
      then console_log (LogVideoTooBig inputPath) >>
           unlinkSync outputPath >> ret None
      else ret (Some outputPath)
  | None => console_log (LogFfmpegError inputPath) >> ret None
  end.

(** The file name of an attachment, lines 201-202 and 476-477. *)
Definition media_filename (post : Post) (media : Media) : string :=
  let ext :=
    if String.eqb (media_type media) "video" then ".mp4"
    else let e := path_extname (media_url media) in
         if String.eqb e "" then ".jpg" else e in
  post_id post +:+ "_" +:+ media_id media +:+ ext.

(** One turn of the attachment loop, lines 200-223 and 475-498.  The push
    onto [mediaFiles] survives a throw of the [unlinkSync] that ends the
    [try] block, so that last statement is caught on its own. *)
Definition process_media (post : Post) (mediaFiles : list string) (media : Media)
  : M (list string) :=
  do '(mediaFiles, stale) <-
    try_catch
      (let filename := media_filename post media in
       do filePath <- downloadMedia (media_url media) filename;
       do processedPath <-
         (if String.eqb (media_type media) "image" then processImage filePath
          else if String.eqb (media_type media) "video" then processVideo filePath
          else ret None);
       do mediaFiles <-
         (match processedPath with
          | Some p =>
              if JS.truthy processedPath then ret (mediaFiles ++ [p])
              else console_log (LogMediaSkipped filename) >> ret mediaFiles
          | None => console_log (LogMediaSkipped filename) >> ret mediaFiles
          end);
       ret (mediaFiles,
            if JS.truthy processedPath && negb (bool_decide (processedPath = Some filePath))
            then Some filePath else None))
      (console_log (LogMediaError (post_id post)) >> ret (mediaFiles, None));
  match stale with
  | Some filePath =>
      try_catch (unlinkSync filePath) (console_log (LogMediaError (post_id post))) >>
      ret mediaFiles
  | None => ret mediaFiles
  end.

(** [postedIds.push(post.id); savePostedIds();] *)
Definition mark_posted (post : Post) : M unit :=
  modify (set_postedIds (λ ids, ids ++ [post_id post])) >> savePostedIds.

End Script.
End Part001.

(** *** Lines 1-245 *)

Module Part001a.
Section Script.
Context `{Libs}.
Variable env : Env.

Definition mimeType (file : string) : string :=
  if JS.endsWith file ".mp4" then "video/mp4"
  else if JS.endsWith file ".png" then "image/png"
  else "image/jpeg".

(** [postToBlueSky(agent, text, mediaFiles)], lines 137-179 *)
Definition postToBlueSky (text : JS.value) (mediaFiles : list string) : M unit :=
  do embed <-
    (if bool_decide (Z.of_nat (length mediaFiles) > 0) then
       do '(uploaded, embed) <- for_of_with mediaFiles
           (λ '(uploaded, embed) file,
              do data <- readFileSync file;
              let mimeType := mimeType file in
              do upload <- uploadBlob env data mimeType;
              if JS.startsWith mimeType "image/" then
                ret (uploaded ++ [upload], embed)
              else if String.eqb mimeType "video/mp4" then
                ret (uploaded, Some (EmbedExternal upload))
              else ret (uploaded, embed))
           ([], None);
       if bool_decide (Z.of_nat (length uploaded) > 0)
       then ret (Some (EmbedImages uploaded))
       else ret embed
     else ret None);
  agent_post env {| req_text := text; req_facets := None; req_embed := embed |}.

(** The body of the [try] of the per-post loop, lines 195-236. *)
Definition process_post (post : Post) : M unit :=
  let text := content post ||| spoiler_text post ||| text post ||| Some "" in
  do mediaFiles <- for_of_with (media_attachments post)
                     (Part001.process_media env post) [];
  postToBlueSky text mediaFiles >>
  Part001.mark_posted post >>
  for_of mediaFiles unlinkSync >>
  console_log (LogReposted (post_id post)).

(** One turn of the per-post loop: the [try] and its [catch], lines 194-239. *)
Definition handle_post (post : Post) : M unit :=
  try_catch (process_post post) (console_log (LogPostError (post_id post))).

(** The main block, lines 181-245; the result is the exit code. *)
Definition main : M Z :=
  try_catch
    (do posts <- lift (mastodon_statuses env);
     do ids <- get postedIds;
     let newPosts := List.filter (λ post, negb (includes ids (post_id post))) posts in
     if bool_decide (length newPosts = 0%nat) then
       console_log LogNoNewPosts >> ret 0
     else
       lift (if bsky_login env then Some tt else None) >>
       for_of (rev newPosts) handle_post >>
       ret 0)
    (console_log LogFatal >> ret 1).

End Script.
End Part001a.

(** *** Lines 246-519 *)

Module Part001b.
Section Script.
Context `{Libs}.
Variable env : Env.

(** [postToBlueSky(agent, richText, mediaFiles)], lines 398-444 *)
Definition postToBlueSky (richText : RichText) (mediaFiles : list string) : M unit :=
  let imageFiles := List.filter (λ f, negb (JS.endsWith f ".mp4")) mediaFiles in
  let videoFiles := List.filter (λ f, JS.endsWith f ".mp4") mediaFiles in
  do embed <-
    match videoFiles with
    | videoPath :: _ =>
        do videoData <- readFileSync videoPath;
        do videoUpload <- uploadBlob env videoData "video/mp4";
        ret (Some (EmbedVideo videoUpload))
    | [] =>
        if bool_decide (Z.of_nat (length imageFiles) > 0) then
          do uploaded <- for_of_with imageFiles
              (λ uploaded file,
                 do data <- readFileSync file;
                 let mimeType :=
                   if JS.endsWith file ".png" then "image/png" else "image/jpeg" in
                 do upload <- uploadBlob env data mimeType;
                 ret (uploaded ++ [upload])) [];
          ret (Some (EmbedImages uploaded))
        else ret None
    end;
  agent_post env {| req_text := Some (rt_text richText);
                    req_facets := Some (rt_facets richText);
                    req_embed := embed |}.

(** [mastodonToRichText], lines 385-395, and [newPosts], line 450, have the
    text of part_000. *)
Definition mastodonToRichText := Part000.mastodonToRichText env.
Definition newPosts := Part000.newPosts.

(** The body of the [try] of the per-post loop, lines 461-511. *)
Definition process_post (post : Post) : M unit :=
  do richText <- mastodonToRichText
                   (content post ||| spoiler_text post ||| text post ||| Some "");
  match richText with
  | None => console_log (LogNoText (post_id post))
  | Some rt =>
      if String.eqb (rt_text rt) "" then console_log (LogNoText (post_id post))
      else if bool_decide (JS.length (rt_text rt) > BLUESKY_MAX_CHARS) then
        console_log (LogTooLong (post_id post))
      else
        do mediaFiles <- for_of_with (media_attachments post)
                           (Part001.process_media env post) [];
        postToBlueSky rt mediaFiles >>
        Part001.mark_posted post >>
        for_of mediaFiles unlinkSync >>
        console_log (LogReposted (post_id post))
  end.

Definition handle_post (post : Post) : M unit :=
  try_catch (process_post post) (console_log (LogPostError (post_id post))).

(** The main block, lines 446-520; the result is the exit code. *)
Definition main : M Z :=
  try_catch
    (do posts <- lift (mastodon_statuses env);
     do ids <- get postedIds;
     let newPosts := newPosts posts ids in
     if bool_decide (length newPosts = 0%nat) then
       console_log LogNoNewPosts >> ret 0
     else
       lift (if bsky_login env then Some tt else None) >>
       for_of newPosts handle_post >>
       ret 0)
    (console_log LogFatal >> ret 1).

End Script.
End Part001b.

(** ** src/repost.js *)

Module Repost.
Section Script.
Context `{Libs}.
Variable env : Env.

Definition TEMP_MEDIA_DIR : string := path_join os_tmpdir "mastodon_media".

(** [downloadMedia(url, filename)], lines 48-59 *)
Definition downloadMedia (url filename : string) : M string :=
  do body <- lift (media_body env url);
  let filePath := path_join TEMP_MEDIA_DIR filename in
  writeFileSync filePath body >> ret filePath.

Definition mimeType (file : string) : string :=
  if JS.endsWith file ".mp4" then "video/mp4"
  else if JS.endsWith file ".png" then "image/png"
  else "image/jpeg".

(** [postToBlueSky(agent, text, mediaFiles)], lines 72-98 *)
Definition postToBlueSky (text : JS.value) (mediaFiles : list string) : M unit :=
  do embed <-
    (if bool_decide (Z.of_nat (length mediaFiles) > 0) then
       do uploaded <- for_of_with mediaFiles
           (λ uploaded file,
              do data <- readFileSync file;
              do upload <- uploadBlob env data (mimeType file);
              ret (uploaded ++ [upload])) [];
       ret (Some (EmbedImages uploaded))
     else ret None);
  agent_post env {| req_text := text; req_facets := None; req_embed := embed |}.

(** The [text] constant of line 120, which nothing reads. *)
Definition line120_text (post : Post) : JS.value :=
  content post ||| spoiler_text post ||| text post ||| other post !! "status"
  ||| other post !! "summary" ||| other post !! "caption" ||| content post
  ||| other post !! "plain" ||| other post !! "body" ||| other post !! "note"
  ||| other post !! "description" ||| other post !! "title"
  ||| other post !! "display_name" ||| other post !! "name"
  ||| other post !! "username" ||| other post !! "handle"
  ||| Some (post_id post) ||| Some "".

Definition media_filename (post : Post) (media : Media) : string :=
  let ext :=
    if String.eqb (media_type media) "video" then ".mp4"
    else let e := path_extname (media_url media) in
         if String.eqb e "" then ".jpg" else e in
  post_id post +:+ "_" +:+ media_id media +:+ ext.

(** One turn of the attachment loop, lines 125-134. *)
Definition process_media (post : Post) (mediaFiles : list string) (media : Media)
  : M (list string) :=
  try_catch
    (let filename := media_filename post media in
     do filePath <- downloadMedia (media_url media) filename;
     ret (mediaFiles ++ [filePath]))
    (console_log (LogMediaError (post_id post)) >> ret mediaFiles).

(** The body of the [try] of the per-post loop, lines 120-149. *)
Definition process_post (post : Post) : M unit :=
  let text' := line120_text post in
  do mediaFiles <- for_of_with (media_attachments post) (process_media post) [];
  postToBlueSky (content post ||| spoiler_text post ||| text post) mediaFiles >>
  modify (set_postedIds (λ ids, ids ++ [post_id post])) >>
  savePostedIds >>
  for_of mediaFiles unlinkSync >>
  console_log (LogReposted (post_id post)).

Definition handle_post (post : Post) : M unit :=
  try_catch (process_post post) (console_log (LogPostError (post_id post))).

(** The main block, lines 101-158; the result is the exit code. *)
Definition main : M Z :=
  try_catch
    (do posts <- lift (mastodon_statuses env);
     do ids <- get postedIds;
     let newPosts := List.filter (λ post, negb (includes ids (post_id post))) posts in
     if bool_decide (length newPosts = 0%nat) then
       console_log LogNoNewPosts >> ret 0
     else
       lift (if bsky_login env then Some tt else None) >>
       for_of (rev newPosts) handle_post >>
       ret 0)
    (console_log LogFatal >> ret 1).

End Script.
End Repost.

(** * Notions used by the properties *)

(** The qualities the loop can try from 90: down to 20, the last one above
    the floor of 10. *)
Definition quality_ladder : list Z := [90; 80; 70; 60; 50; 40; 30; 20].

(** [n] qualities from [q] downwards in steps of 10. *)
Fixpoint ladder (q : Z) (n : nat) : list Z :=
  match n with
  | O => []
  | S n' => q :: ladder (q - 10) n'
  end.

(** The formats BlueSky takes. *)
Definition allowed_format `{Libs} (b : Buffer) : Prop :=
  sharp_metadata_format b = Some "jpeg" ∨ sharp_metadata_format b = Some "png".

(** What sharp's JPEG encoder gives back is a JPEG. *)
Definition sharp_encodes_jpeg `{Libs} : Prop :=
  ∀ q b b', sharp_jpeg q b = Some b' → sharp_metadata_format b' = Some "jpeg".

(** A request whose video, if it has one, is within the limit. *)
Definition video_within_limit (r : PostRequest) : Prop :=
  ∀ v, v ∈ embed_videos (req_embed r) → blen (blob_data v) ≤ BLUESKY_VIDEO_MAX_SIZE.

(** A process start: the console is empty and [postedIds] is loaded. *)
Definition boot (w : World) : World :=
  set_console (λ _, []) (load_postedIds w).

(** The post a console line decides, for the lines that close the handling
    of a post. *)
Definition line_post (l : LogLine) : option string :=
  match l with
  | LogReposted id | LogNoText id | LogTooLong id
  | LogSkippedVideoMarked id | LogPostError id => Some id
  | _ => None
  end.

Definition is_post_error (l : LogLine) : bool :=
  match l with
  | LogPostError _ => true
  | _ => false
  end.

(** The plain text the scripts with a text guard derive from a post. *)
Definition plain_text `{Libs} (post : Post) : option string :=
  match content post ||| spoiler_text post ||| text post ||| Some "" with
  | Some h =>
      if JS.truthy (Some h)
      then Some (JS.trim (jsdom_text_content (strip_twitter_urls h)))
      else None
  | None => None
  end.

(** The text guard rejects the post: no text, or more than 300 characters. *)
Definition text_rejected `{Libs} (post : Post) : Prop :=
  match plain_text post with
  | Some t => t = "" ∨ JS.length t > BLUESKY_MAX_CHARS
  | None => True
  end.

(** Lines that do not close the handling of a post. *)
Definition quiet (lines : list LogLine) : Prop :=
  Forall (λ l, line_post l = None) lines.

(** From [w] to [w'] the ledger and the feed are untouched and the console
    only got lines about media. *)
Definition quietly (w w' : World) : Prop :=
  postedIds w' = postedIds w ∧ posted_ids_file w' = posted_ids_file w ∧
  feed w' = feed w ∧ ∃ lines, console w' = console w ++ lines ∧ quiet lines.

(** The ledger, in memory and on disk, is the same in [w'] as in [w]. *)
Definition ledger_same (w w' : World) : Prop :=
  postedIds w' = postedIds w ∧ posted_ids_file w' = posted_ids_file w.

(** From [w] to [w'] the identifier was pushed and the file rewritten. *)
Definition committed (id : string) (w w' : World) : Prop :=
  postedIds w' = postedIds w ++ [id] ∧ posted_ids_file w' = Some (postedIds w').

(** posted_ids.json holds what [postedIds] holds. *)
Definition synced (w : World) : Prop :=
  default [] (posted_ids_file w) = postedIds w.

(** The post a console line reports as reposted. *)
Definition reposted_id (l : LogLine) : option string :=
  match l with
  | LogReposted id => Some id
  | _ => None
  end.

Definition video_ok (l : Part000.Locals) : Prop :=
  ∀ b, Part000.videoBuffer l = Some b → blen b ≤ BLUESKY_VIDEO_MAX_SIZE.

(** The embed [postToBlueSky] of part_000 builds from its arguments. *)
Definition part000_embed (imgs : list Buffer) (vid : option Buffer) : option Embed :=
  match vid with
  | Some vb => Some (EmbedVideo {| blob_data := vb; blob_encoding := "video/mp4" |})
  | None =>
      match imgs with
      | [] => None
      | _ => Some (EmbedImages
               ((λ b, {| blob_data := b; blob_encoding := "image/jpeg" |}) <$> imgs))
      end
  end.

(** Every path of [mediaFiles] holds, byte for byte, the body behind the
    URL of one of the attachments. *)
Definition holds_downloads (env : Env) (medias : list Media) (mediaFiles : list string)
    (w : World) : Prop :=
  ∀ f, f ∈ mediaFiles →
    ∃ m b, m ∈ medias ∧ media_body env (media_url m) = Some b ∧ files w !! f = Some b.

(** The blobs the upload loop of [Repost.postToBlueSky] makes of files. *)
Definition uploads_of (w : World) (mimeType : string → string)
    (mediaFiles : list string) (blobs : list Blob) : Prop :=
  Forall2 (λ f blob, files w !! f = Some (blob_data blob) ∧
                     blob_encoding blob = mimeType f) mediaFiles blobs.

(** BlueSky takes every upload and every post. *)
Definition accepting (env : Env) : Prop :=
  (∀ data encoding, bsky_upload env data encoding = true) ∧
  (∀ r, bsky_post env r = true).

(** What repost.js sends for a post: the text of line 138, no facets, and
    an images embed whose blobs are attachment bodies as downloaded. *)
Definition repost_request (env : Env) (post : Post) (r : PostRequest) : Prop :=
  req_text r = content post ||| spoiler_text post ||| text post ∧
  req_facets r = None ∧
  embed_videos (req_embed r) = [] ∧
  ∀ blob, blob ∈ embed_images (req_embed r) →
    ∃ m, m ∈ media_attachments post ∧
         media_body env (media_url m) = Some (blob_data blob).

(** The claim as the specification states it: after a first run that
    completes, a second run over the same fetched posts, started from the
    ledger the first one left, adds nothing to the feed. *)
Definition rerun_publishes_nothing (main : Env → M Z) : Prop :=
  ∀ env1 env2 w,
    mastodon_statuses env2 = mastodon_statuses env1 →
    (main env1 (boot w)).1 = Returned 0 →
    feed (main env2 (boot (main env1 (boot w)).2)).2
      = feed (main env1 (boot w)).2.

(** The post with its remaining properties replaced. *)
Definition with_other (post : Post) (o : gmap string string) : Post :=
  {| post_id := post_id post; content := content post;
     spoiler_text := spoiler_text post; text := text post;
     other := o; media_attachments := media_attachments post |}.

Definition is_mp4 (f : string) : bool := JS.endsWith f ".mp4".

(** [mimeType] of part_001, lines 423-425. *)
Definition image_mime (f : string) : string :=
  if JS.endsWith f ".png" then "image/png" else "image/jpeg".

(** What the loop of [Part001a.postToBlueSky] has in [uploaded] and [embed]
    after the files [done]. *)
Definition part001a_loop_inv (w : World) (done : list string)
    (s : list Blob * option Embed) : Prop :=
  uploads_of w Part001a.mimeType (List.filter (λ f, negb (is_mp4 f)) done) s.1 ∧
  match List.filter is_mp4 done with
  | [] => s.2 = None
  | _ => ∃ t, s.2 = Some (EmbedExternal t) ∧ blob_encoding t = "video/mp4"
  end.

(** ** A small concrete world, for examples *)

Module Fixture.

(** Formats by the first byte; JPEG output shrinks with the quality. *)
Definition magic (b : Buffer) : option string :=
  match b with
  | x :: _ =>
      if Byte.eqb x xff then Some "jpeg"
      else if Byte.eqb x x89 then Some "png"
      else if Byte.eqb x x47 then Some "gif"
      else None
  | [] => None
  end.

Definition encode_jpeg (q : option Z) (b : Buffer) : option Buffer :=
  match magic b with
  | Some _ =>
      Some (xff :: take (Z.to_nat (blen b * default 80 q / 100)) (tail b))
  | None => None
  end.

Definition extname (s : string) : string :=
  match JS.ext_scan (String.rev s) with
  | Some (S n, _) => "." +:+ String.substring (String.length s - S n) (S n) s
  | _ => ""
  end.

#[export] Instance libs : Libs := {|
  sharp_metadata_format := magic;
  sharp_jpeg := encode_jpeg;
  ffmpeg_transcode := λ b, Some (take (length b / 2) b);
  strip_twitter_urls := λ s, s;
  jsdom_text_content := λ s, s;
  path_extname := extname;
  path_join := λ a b, a +:+ "/" +:+ b;
  os_tmpdir := "/tmp";
|}.

(** The same libraries with a JPEG encoder that cannot shrink anything. *)
Definition stubborn : Libs := {|
  sharp_metadata_format := magic;
  sharp_jpeg := λ _ b, Some b;
  ffmpeg_transcode := λ b, Some b;
  strip_twitter_urls := λ s, s;
  jsdom_text_content := λ s, s;
  path_extname := extname;
  path_join := λ a b, a +:+ "/" +:+ b;
  os_tmpdir := "/tmp";
|}.

(** A JPEG one byte over the image limit. *)
Definition oversized_jpeg : Buffer := repeat xff (Z.to_nat (BLUESKY_IMAGE_MAX_SIZE + 1)).

Definition jpeg_bytes : Buffer := [xff; xd8; xff; xe0].
Definition gif_bytes : Buffer := [x47; x49; x46; x38].
Definition mp4_bytes : Buffer := [x66; x74; x79; x70].

(** A network where everything succeeds. *)
Definition online (posts : list Post) (media : gmap string Buffer) : Env := {|
  mastodon_statuses := Some posts;
  media_body := λ url, media !! url;
  bsky_login := true;
  bsky_upload := λ _ _, true;
  bsky_post := λ _, true;
  bsky_facets := λ _, Some [];
|}.

(** The same network while BlueSky rejects every post. *)
Definition rejecting (posts : list Post) (media : gmap string Buffer) : Env := {|
  mastodon_statuses := Some posts;
  media_body := λ url, media !! url;
  bsky_login := true;
  bsky_upload := λ _ _, true;
  bsky_post := λ _, false;
  bsky_facets := λ _, Some [];
|}.

Definition fresh : World := {|
  files := ∅; postedIds := []; posted_ids_file := None; feed := []; console := [];
|}.

Definition text_post (id body : string) : Post := {|
  post_id := id; content := Some body; spoiler_text := None; text := None;
  other := ∅; media_attachments := [];
|}.

Definition one_post : list Post := [text_post "1" "hello"].

(** A post whose text is white space only. *)
Definition blank_post : Post := text_post "7" "   ".

(** Three posts as the API lists them, newest first. *)
Definition three_posts : list Post :=
  [text_post "3" "T3"; text_post "2" "T2"; text_post "1" "T1"].

Definition image (id url : string) : Media :=
  {| media_id := id; media_type := "image"; media_url := url |}.

Definition video (id url : string) : Media :=
  {| media_id := id; media_type := "video"; media_url := url |}.

Definition six_images : list Buffer :=
  [[xff; x01]; [xff; x02]; [xff; x03]; [xff; x04]; [xff; x05]; [xff; x06]].

Definition hello : RichText := {| rt_text := "hello"; rt_facets := [] |}.

(** One image file and one video file in the temp directory. *)
Definition mixed_files : World :=
  set_files (λ _, {[ "/tmp/1_2.jpg" := jpeg_bytes; "/tmp/1_3.mp4" := mp4_bytes ]}) fresh.

(** A post with one video attachment. *)
Definition video_post : Post := {|
  post_id := "5"; content := Some "watch"; spoiler_text := None; text := None;
  other := ∅; media_attachments := [video "50" "http://m/v.mp4"];
|}.

(** A post whose attachment is declared an image but is no image. *)
Definition unreadable_post : Post := {|
  post_id := "6"; content := Some "look"; spoiler_text := None; text := None;
  other := ∅; media_attachments := [image "51" "http://m/x.bin"];
|}.

(** A post with no text field at all, one image and one video. *)
Definition bare_post : Post := {|
  post_id := "9"; content := None; spoiler_text := None; text := None;
  other := {[ "username" := "bob" ]};
  media_attachments := [image "90" "http://m/a.gif"; video "91" "http://m/v.mov"];
|}.

Definition bare_media : gmap string Buffer :=
  {[ "http://m/a.gif" := gif_bytes; "http://m/v.mov" := mp4_bytes ]}.

(** A video of one byte more than BlueSky takes. *)
Definition huge_video : Buffer := repeat x00 (Z.to_nat (BLUESKY_VIDEO_MAX_SIZE + 1)).

(** A network where every media URL answers with that video. *)
Definition huge_video_net : Env := {|
  mastodon_statuses := Some [Fixture.video_post];
  media_body := λ _, Some huge_video;
  bsky_login := true;
  bsky_upload := λ _ _, true;
  bsky_post := λ _, true;
  bsky_facets := λ _, Some [];
|}.

End Fixture.

(** * Notions used by the further properties *)

(** No character of the string is a dot or a slash: what [[^/.]+] matches. *)
Fixpoint plain_ext (s : string) : bool :=
  match s with
  | EmptyString => true
  | String c s' =>
      negb (Ascii.eqb c "."%char) && negb (Ascii.eqb c "/"%char) && plain_ext s'
  end.

(** The string has no dot. *)
Fixpoint dotless (s : string) : bool :=
  match s with
  | EmptyString => true
  | String c s' => negb (Ascii.eqb c "."%char) && dotless s'
  end.

(** What handling one post does, seen from outside: console lines about its
    media, then one closing line for the post; and either ledger and feed are
    as before, or the post is recorded and one request [sent] was published
    (or none, in the draft that [skips] a post for its video). *)
Definition settled (skips : bool) (rejected : Post → Prop)
    (sent : Post → PostRequest → Prop) (post : Post) (w w' : World) : Prop :=
  ∃ lines d,
    console w' = console w ++ lines ++ [d] ∧ quiet lines ∧
    line_post d = Some (post_id post) ∧
    ((ledger_same w w' ∧ feed w' = feed w ∧ reposted_id d = None ∧
      (is_post_error d = false → rejected post)) ∨
     (committed (post_id post) w w' ∧
      ((∃ r, feed w' = feed w ++ [r] ∧ sent post r) ∨
       (skips = true ∧ feed w' = feed w ∧ reposted_id d = None)))) ∧
    (rejected post → ledger_same w w' ∧ feed w' = feed w).

Definition settles (skips : bool) (rejected : Post → Prop)
    (sent : Post → PostRequest → Prop) (handle : Post → M unit) : Prop :=
  ∀ post w, ∃ w', handle post w = (Returned tt, w') ∧
                  settled skips rejected sent post w w'.

(** The text the four main blocks share, the per-post handler left open. *)
Definition run_with (env : Env) (handle : Post → M unit) : M Z :=
  try_catch
    (do posts <- lift (mastodon_statuses env);
     do ids <- get postedIds;
     let newPosts := Part000.newPosts posts ids in
     if bool_decide (length newPosts = 0%nat) then
       console_log LogNoNewPosts >> ret 0
     else
       lift (if bsky_login env then Some tt else None) >>
       for_of newPosts handle >>
       ret 0)
    (console_log LogFatal >> ret 1).

(** What part_000 sends, and for which posts: the cleaned text of a post
    that passes the text guard, with a video, if any, within the limit. *)
Definition part000_request `{Libs} (post : Post) (r : PostRequest) : Prop :=
  video_within_limit r ∧ req_text r = plain_text post ∧ ¬ text_rejected post.

(** What the first half of part_001 sends for a post: the text of line 195,
    no facets, never a video embed. *)
Definition part001a_request (post : Post) (r : PostRequest) : Prop :=
  req_text r = content post ||| spoiler_text post ||| text post ||| Some "" ∧
  req_facets r = None ∧ embed_videos (req_embed r) = [].

(** What the second half of part_001 sends, and for which posts: the
    cleaned text of a post that passes the text guard, with the facets
    detected on it. *)
Definition part001b_request `{Libs} (env : Env) (post : Post) (r : PostRequest) : Prop :=
  req_text r = plain_text post ∧ ¬ text_rejected post ∧
  ∃ t, plain_text post = Some t ∧ req_facets r = bsky_facets env t ∧
       is_Some (req_facets r).

(** The main blocks of the four drafts. *)
Definition mains `{Libs} : list (Env → M Z) :=
  [Repost.main; Part000.main; Part001a.main; Part001b.main].

(** The attachment is a video whose download succeeds with more than 100MB. *)
Definition oversized_video (env : Env) (m : Media) : bool :=
  String.eqb (media_type m) "video" &&
  match media_body env (media_url m) with
  | Some b => bool_decide (blen b > BLUESKY_VIDEO_MAX_SIZE)
  | None => false
  end.

(** The body of the attachment when it is a video within the limit whose
    download succeeds. *)
Definition usable_video (env : Env) (m : Media) : option Buffer :=
  if String.eqb (media_type m) "video" then
    match media_body env (media_url m) with
    | Some b => if bool_decide (blen b > BLUESKY_VIDEO_MAX_SIZE) then None else Some b
    | None => None
    end
  else None.

(** * Proof automation for monadic code *)

Ltac munfold :=
  repeat (progress unfold bind, lift, ret, throw, try_catch, get, modify,
    console_log, readFileSync, writeFileSync, statSync_size, unlinkSync,
    savePostedIds, uploadBlob, agent_post,
    set_files, set_console, set_feed, set_postedIds, set_posted_ids_file in *).

Ltac bool_hyps :=
  repeat match goal with
    | H : bool_decide _ = true |- _ => apply bool_decide_eq_true in H
    | H : bool_decide _ = false |- _ => apply bool_decide_eq_false in H
    end.

Ltac mcases := repeat (simplify_eq/=; case_match); simplify_eq/=.

(** Settles which line closed the post, then splits what is left. *)
Ltac post_case :=
  split; [reflexivity|]; split; [first [done | constructor]|];
  unfold ledger_same, committed; cbn; repeat split; auto.

(** Closes a [quietly] goal between a world and an explicit update of it. *)
Ltac quiet_frame :=
  repeat split; cbn;
  repeat rewrite <- app_assoc;
  first [ by (exists []; split; [by rewrite app_nil_r | constructor])
        | by (eexists; split; [reflexivity | repeat constructor]) ].

(** * Properties *)

(** ** The quality ladder (C9) *)

Section QualityLadderFacts.
Context `{Libs}.

Lemma quality_loop_stop buffer size quality :
  ¬ (size > BLUESKY_IMAGE_MAX_SIZE ∧ quality > 10) →
  quality_loop buffer size quality = ([], Some (buffer, size, quality)).
Proof.
  intros Hc. simp quality_loop.
  destruct (decide _) as [Hd|Hd]; [tauto | reflexivity].
Qed.

Lemma quality_loop_step buffer size quality buffer' :
  size > BLUESKY_IMAGE_MAX_SIZE → quality > 10 →
  sharp_jpeg (Some quality) buffer = Some buffer' →
  quality_loop buffer size quality =
    ((quality, Some (blen buffer')) :: (quality_loop buffer' (blen buffer') (quality - 10)).1,
     (quality_loop buffer' (blen buffer') (quality - 10)).2).
Proof.
  intros Hs Hq He.
  rewrite (quality_loop_equation_1 buffer size quality).
  destruct (decide _) as [Hd|Hd]; [|lia].
  cbn. rewrite He. reflexivity.
Qed.

Lemma quality_loop_throw buffer size quality :
  size > BLUESKY_IMAGE_MAX_SIZE → quality > 10 →
  sharp_jpeg (Some quality) buffer = None →
  quality_loop buffer size quality = ([(quality, None)], None).
Proof.
  intros Hs Hq He. simp quality_loop.
  destruct (decide _) as [Hd|Hd]; [|lia].
  cbn. rewrite He. reflexivity.
Qed.

(** What a run of the loop from any quality looks like. *)
Lemma quality_loop_inv (k : nat) : ∀ buffer size quality,
  quality ≤ 10 + 10 * Z.of_nat k →
  ∃ n : nat, (n ≤ k)%nat ∧
    (quality_loop buffer size quality).1.*1 = ladder quality n ∧
    (∀ i e, (quality_loop buffer size quality).1 !! i = Some e →
            (S i < length (quality_loop buffer size quality).1)%nat →
            ∃ s, e.2 = Some s ∧ s > BLUESKY_IMAGE_MAX_SIZE) ∧
    match (quality_loop buffer size quality).2 with
    | Some (_, size', quality') =>
        quality' = quality - 10 * Z.of_nat n ∧
        (size' ≤ BLUESKY_IMAGE_MAX_SIZE ∨ quality' ≤ 10)
    | None => ∃ q, last (quality_loop buffer size quality).1 = Some (q, None)
    end.
Proof.
  induction k as [|k IH]; intros buffer size quality Hq.
  - rewrite quality_loop_stop by lia. exists 0%nat. cbn.
    repeat split; [lia | | lia | lia]. intros i e Hi; destruct i; discriminate.
  - destruct (decide (size > BLUESKY_IMAGE_MAX_SIZE ∧ quality > 10)) as [[Hs Hg]|Hn].
    + destruct (sharp_jpeg (Some quality) buffer) as [buffer'|] eqn:He.
      * rewrite (quality_loop_step _ _ _ _ Hs Hg He).
        destruct (IH buffer' (blen buffer') (quality - 10)) as (n & Hn & Hl & Ht & Hr);
          [lia|].
        exists (S n). cbn [fst snd]. repeat split.
        -- lia.
        -- cbn. by rewrite Hl.
        -- intros [|i] e Hi Hlen; cbn in Hi, Hlen.
           ++ injection Hi as <-. cbn. eexists; split; [done|].
              destruct (decide (blen buffer' > BLUESKY_IMAGE_MAX_SIZE)) as [|Hle];
                [done|].
              rewrite quality_loop_stop in Hlen by lia. cbn in Hlen. lia.
           ++ apply (Ht i e Hi). lia.
        -- destruct (quality_loop buffer' (blen buffer') (quality - 10)).2
             as [[[b s] q]|]; cbn.
           ++ destruct Hr as [-> Hr]. split; [lia | done].
           ++ destruct Hr as [q Hr]. exists q.
              destruct (quality_loop buffer' (blen buffer') (quality - 10)).1;
                [discriminate | done].
      * rewrite (quality_loop_throw _ _ _ Hs Hg He). exists 1%nat. cbn.
        repeat split; [lia | | by eexists].
        intros [|i] e Hi Hlen; cbn in Hlen; lia.
    + rewrite quality_loop_stop by done. exists 0%nat. cbn.
      repeat split; [lia | | lia | lia]. intros i e Hi; destruct i; discriminate.
Qed.

(** The buffer on exit is the one the loop was entered with, or comes from
    the JPEG encoder. *)
Lemma quality_loop_buffer (k : nat) : ∀ buffer size quality b s q,
  quality ≤ 10 + 10 * Z.of_nat k →
  (quality_loop buffer size quality).2 = Some (b, s, q) →
  (b = buffer ∧ s = size ∧ ¬ (size > BLUESKY_IMAGE_MAX_SIZE ∧ quality > 10)) ∨
  (s = blen b ∧ ∃ q0 b0, sharp_jpeg (Some q0) b0 = Some b).
Proof.
  induction k as [|k IH]; intros buffer size quality b s q Hq.
  - rewrite quality_loop_stop by lia. cbn. intros [= <- <- <-]. left.
    repeat split; [done..|lia].
  - destruct (decide (size > BLUESKY_IMAGE_MAX_SIZE ∧ quality > 10)) as [[Hs Hg]|Hn].
    + destruct (sharp_jpeg (Some quality) buffer) as [buffer'|] eqn:He.
      * rewrite (quality_loop_step _ _ _ _ Hs Hg He). cbn [snd]. intros Hr.
        right.
        destruct (IH buffer' (blen buffer') (quality - 10) b s q) as [(-> & -> & _)|[-> Hx]];
          [lia | done | |]; (split; [done|]); eauto.
      * rewrite (quality_loop_throw _ _ _ Hs Hg He). discriminate.
    + rewrite quality_loop_stop by done. cbn. intros [= <- <- <-]. by left.
Qed.

End QualityLadderFacts.

Lemma ladder_90 (n : nat) : (n ≤ 8)%nat → ladder 90 n = take n quality_ladder.
Proof.
  intros Hn. do 9 (destruct n as [|n]; [reflexivity|]). lia.
Qed.


(** With an encoder that cannot shrink the image the loop walks the whole
    ladder and stops with the quality at the floor. *)
Example quality_loop_walks_the_ladder :
  (@quality_loop Fixture.stubborn Fixture.oversized_jpeg
     (blen Fixture.oversized_jpeg) 90).1
  = (λ q, (q, Some (BLUESKY_IMAGE_MAX_SIZE + 1))) <$> quality_ladder ∧
  (λ '(_, size, quality), (size, quality)) <$>
    (@quality_loop Fixture.stubborn Fixture.oversized_jpeg
       (blen Fixture.oversized_jpeg) 90).2
  = Some (BLUESKY_IMAGE_MAX_SIZE + 1, 10).
Proof. split; vm_compute; reflexivity. Qed.

(** A buffer within the limit: no attempt is made. *)
Example quality_loop_not_entered :
  (@quality_loop Fixture.libs Fixture.gif_bytes (blen Fixture.gif_bytes) 90).1 = [].
Proof. reflexivity. Qed.

Lemma bind_run {A B} (m : M A) (k : A → M B) (w : World) :
  bind m k w = match m w with
               | (Returned a, w') => k a w'
               | (Thrown, w') => (Thrown, w')
               end.
Proof. reflexivity. Qed.

Lemma bind_get {A B} (f : World → A) (k : A → M B) (w : World) :
  bind (get f) k w = k (f w) w.
Proof. reflexivity. Qed.

Lemma bind_ret {A B} (a : A) (k : A → M B) (w : World) :
  bind (ret a) k w = k a w.
Proof. reflexivity. Qed.

Lemma bind_throw {A B} (k : A → M B) (w : World) :
  bind throw k w = (Thrown, w).
Proof. reflexivity. Qed.

Lemma bind_modify {B} (f : World → World) (k : unit → M B) (w : World) :
  bind (modify f) k w = k tt (f w).
Proof. reflexivity. Qed.

Lemma try_catch_run {A} (body handler : M A) (w : World) :
  try_catch body handler w = match body w with
                             | (Returned a, w') => (Returned a, w')
                             | (Thrown, w') => handler w'
                             end.
Proof. reflexivity. Qed.

(** ** The image normaliser (C1) *)

Section ImageNormalizer.
Context `{Libs}.
Hypothesis Hjpeg : sharp_encodes_jpeg.

Lemma format_test_allowed (b : Buffer) (format : string) :
  sharp_metadata_format b = Some format →
  negb (String.eqb format "jpeg") && negb (String.eqb format "png") = false →
  allowed_format b.
Proof.
  intros Hf Ht. unfold allowed_format. rewrite Hf.
  destruct (String.eqb_spec format "jpeg") as [->|]; [by left|].
  destruct (String.eqb_spec format "png") as [->|]; [by right|done].
Qed.

Lemma processImageBuffer_bounds buffer w b w' :
  Part000.processImageBuffer buffer w = (Returned (Some b), w') →
  blen b ≤ BLUESKY_IMAGE_MAX_SIZE ∧ allowed_format b.
Proof.
  unfold Part000.processImageBuffer. munfold. intros Hrun. mcases.
  all: bool_hyps.
  all: split; [lia|].
  all: try (eapply format_test_allowed; eauto; fail).
  all: try (left; eapply Hjpeg; eauto; fail).
  all: match goal with
       | Hq : (quality_loop _ _ _).2 = Some _ |- _ =>
           apply (quality_loop_buffer 8) in Hq; [|lia];
           destruct Hq as [(-> & _ & Hn)|[_ (? & ? & Hq)]];
             [exfalso; lia | left; eapply Hjpeg; eauto]
       end.
Qed.

Lemma processImage_bounds inputPath w p w' :
  Part001.processImage inputPath w = (Returned (Some p), w') →
  ∃ b, files w' !! p = Some b ∧ blen b ≤ BLUESKY_IMAGE_MAX_SIZE ∧ allowed_format b.
Proof.
  unfold Part001.processImage. munfold. intros Hrun. mcases.
  all: bool_hyps.
  all: repeat match goal with
         | H : <[_:=_]> _ !! _ = Some _ |- _ =>
             rewrite lookup_insert_eq in H; injection H as <-
         end.
  all: eexists; split; [first [apply lookup_insert_eq | eassumption]|].
  all: split; [lia|].
  all: try (eapply format_test_allowed; eauto; fail).
  all: try (left; eapply Hjpeg; eauto; fail).
  all: match goal with
       | Hq : (quality_loop _ _ _).2 = Some _ |- _ =>
           apply (quality_loop_buffer 8) in Hq; [|lia];
           destruct Hq as [(-> & _ & Hn)|[_ (? & ? & Hq)]];
             [exfalso; lia | left; eapply Hjpeg; eauto]
       end.
Qed.

End ImageNormalizer.

Lemma fixture_sharp_encodes_jpeg : @sharp_encodes_jpeg Fixture.libs.
Proof.
  intros q b b'. cbn. unfold Fixture.encode_jpeg.
  destruct (Fixture.magic b); [|discriminate]. by intros [= <-].
Qed.

(** C1. When the image normaliser returns a buffer (part_000,
    [processImageBuffer]) or a path (part_001, [processImage]), the bytes
    returned, respectively the bytes of the file at that path, are at most
    [BLUESKY_IMAGE_MAX_SIZE] = 1 MiB long and their format is jpeg or png;
    so whenever no such buffer comes out the call has returned [null] (or
    thrown), never a buffer over the limit or in another format.  The format
    part rests on sharp's JPEG encoder producing JPEG. *)
Theorem image_normalizer_output_within_limits `{Libs} :
  sharp_encodes_jpeg →
  (∀ buffer w b w',
     Part000.processImageBuffer buffer w = (Returned (Some b), w') →
     blen b ≤ 1024 * 1024 ∧ allowed_format b) ∧
  (∀ inputPath w p w',
     Part001.processImage inputPath w = (Returned (Some p), w') →
     ∃ b, files w' !! p = Some b ∧ blen b ≤ 1024 * 1024 ∧ allowed_format b).
Proof.
  intros Hjpeg. split.
  - intros buffer w b w' Hrun.
    by apply (processImageBuffer_bounds Hjpeg) in Hrun.
  - intros inputPath w p w' Hrun.
    by apply (processImage_bounds Hjpeg) in Hrun.
Qed.

(** A GIF is re-encoded and returned as a JPEG within the limit. *)
Lemma image_normalizer_output_within_limits_witness :
  blen [xff; x49; x46; x38] ≤ 1024 * 1024 ∧
  @allowed_format Fixture.libs [xff; x49; x46; x38].
Proof.
  apply (proj1 (@image_normalizer_output_within_limits Fixture.libs
                  fixture_sharp_encodes_jpeg)
           Fixture.gif_bytes Fixture.fresh _ Fixture.fresh).
  reflexivity.
Defined.

(** An image that stays over the limit down to the floor is given up:
    [null] and a warning. *)
Example image_normalizer_gives_up :
  (@Part000.processImageBuffer Fixture.stubborn Fixture.oversized_jpeg Fixture.fresh).1
    = Returned None ∧
  console (@Part000.processImageBuffer Fixture.stubborn Fixture.oversized_jpeg
             Fixture.fresh).2 = [LogImageTooBig].
Proof. split; vm_compute; reflexivity. Qed.

Example string_builtins :
  JS.replace_ext "/tmp/mastodon_media/1_2.gif" ".jpg" = "/tmp/mastodon_media/1_2.jpg" ∧
  JS.replace_ext "/tmp/mastodon_media/1_3.mp4" "_bsky.mp4"
    = "/tmp/mastodon_media/1_3_bsky.mp4" ∧
  JS.replace_ext "/tmp/media.d/1_2" ".jpg" = "/tmp/media.d/1_2" ∧
  JS.replace_ext "/tmp/1_2." ".jpg" = "/tmp/1_2." ∧
  JS.endsWith "/tmp/1_3_bsky.mp4" ".mp4" = true ∧
  JS.endsWith "mp4" ".mp4" = false ∧
  JS.startsWith "image/png" "image/" = true ∧
  JS.trim "  a b  " = "a b" ∧
  (Some "" ||| None ||| Some "x") = Some "x" ∧
  (None ||| None ||| None) = None.
Proof. repeat split; reflexivity. Qed.

(** ** Frames: what a phase of the script leaves alone *)

Lemma quietly_refl w : quietly w w.
Proof.
  repeat split. exists []. split; [by rewrite app_nil_r | constructor].
Qed.

Lemma quietly_trans w1 w2 w3 : quietly w1 w2 → quietly w2 w3 → quietly w1 w3.
Proof.
  intros (Hi & Hf & Hd & l1 & Hc1 & Hq1) (Hi' & Hf' & Hd' & l2 & Hc2 & Hq2).
  repeat split; [congruence..|].
  exists (l1 ++ l2). split; [|by apply Forall_app].
  by rewrite Hc2, Hc1, app_assoc.
Qed.

Lemma quiet_line_post lines : quiet lines → omap line_post lines = [].
Proof.
  induction 1 as [|x l Hx _ IHl]; [done|]. cbn. by rewrite Hx.
Qed.

Lemma quiet_reposted_id lines : quiet lines → omap reposted_id lines = [].
Proof.
  induction 1 as [|x l Hx _ IHl]; [done|]. cbn. by destruct x.
Qed.

Lemma for_of_with_inv {X S} (body : S → X → M S) (I : S → World → Prop)
    (R : World → World → Prop) (xs : list X) :
  (∀ w, R w w) → (∀ w1 w2 w3, R w1 w2 → R w2 w3 → R w1 w3) →
  (∀ s x w, x ∈ xs → I s w →
     ∃ s' w', body s x w = (Returned s', w') ∧ R w w' ∧ I s' w') →
  ∀ s w, I s w →
    ∃ s' w', for_of_with xs body s w = (Returned s', w') ∧ R w w' ∧ I s' w'.
Proof.
  intros Hrefl Htrans.
  induction xs as [|x xs IH]; intros Hbody s w Hs; cbn.
  - exists s, w. auto.
  - destruct (Hbody s x w) as (s1 & w1 & Hrun & HR & Hs1); [by left | done |].
    destruct (IH (λ s x w Hx, Hbody s x w (list_elem_of_further _ _ _ Hx)) s1 w1 Hs1)
      as (s2 & w2 & Hrun2 & HR2 & Hs2).
    exists s2, w2. unfold bind. rewrite Hrun. eauto.
Qed.

(** ** part_000: the phases of one post *)

Section Part000Facts.
Context `{Libs}.
Variable env : Env.

Lemma part000_process_media_spec post l media w :
  video_ok l →
  ∃ l' w', Part000.process_media env post l media w = (Returned l', w') ∧
           quietly w w' ∧ video_ok l'.
Proof.
  intros Hl.
  unfold Part000.process_media, Part000.processImageBuffer,
    Part000.downloadMediaBuffer.
  munfold. repeat case_match; simplify_eq/=; bool_hyps.
  all: eexists _, _; split; [reflexivity|].
  all: split; [quiet_frame|].
  all: try done.
  all: intros b; cbn; intros [= <-]; lia.
Qed.

Lemma part000_media_loop_spec post medias l w :
  video_ok l →
  ∃ l' w', for_of_with medias (Part000.process_media env post) l w = (Returned l', w') ∧
           quietly w w' ∧ video_ok l'.
Proof.
  apply (for_of_with_inv _ (λ l _, video_ok l) quietly _ quietly_refl quietly_trans).
  intros s x w0 _ Hs. by apply part000_process_media_spec.
Qed.

Lemma part000_upload_loop imgs : ∀ acc w,
  ∃ o, for_of_with imgs
         (λ (uploaded : list Blob) (buffer : Buffer),
            do upload <- uploadBlob env buffer "image/jpeg"; ret (uploaded ++ [upload]))
         acc w = (o, w) ∧
       (o = Thrown ∨
        o = Returned
              (acc ++ ((λ b, {| blob_data := b; blob_encoding := "image/jpeg" |}) <$> imgs))).
Proof.
  induction imgs as [|b imgs IH]; intros acc w; cbn [for_of_with].
  - eexists. split; [reflexivity|]. right. cbn. by rewrite app_nil_r.
  - rewrite bind_run, bind_run. unfold uploadBlob.
    destruct (bsky_upload env b "image/jpeg"); cbn [ret throw].
    + destruct (IH (acc ++ [{| blob_data := b; blob_encoding := "image/jpeg" |}]) w)
        as (o & Hr & Ho).
      exists o. split; [exact Hr|].
      destruct Ho as [->| ->]; [by left|right]. cbn. by rewrite <- app_assoc.
    + eexists. split; [reflexivity|]. by left.
Qed.

Lemma part000_postToBlueSky_spec rt imgs vid w :
  ∃ o w', Part000.postToBlueSky env rt imgs vid w = (o, w') ∧
    postedIds w' = postedIds w ∧ posted_ids_file w' = posted_ids_file w ∧
    console w' = console w ∧ files w' = files w ∧
    ((o = Thrown ∧ feed w' = feed w) ∨
     (o = Returned tt ∧
      feed w' = feed w ++ [{| req_text := Some (rt_text rt);
                              req_facets := Some (rt_facets rt);
                              req_embed := part000_embed imgs vid |}])).
Proof.
  unfold Part000.postToBlueSky.
  destruct vid as [vb|].
  - munfold. cbn. repeat case_match; simplify_eq/=; eexists _, _;
      (split; [reflexivity|]); cbn; repeat split; auto.
  - unfold bind at 1.
    destruct imgs as [|b imgs].
    + cbn. munfold. repeat case_match; simplify_eq/=; eexists _, _;
        (split; [reflexivity|]); cbn; repeat split; auto.
    + rewrite bool_decide_eq_true_2 by (rewrite length_cons; lia).
      unfold bind at 1.
      destruct (part000_upload_loop (b :: imgs) [] w) as (o & Hr & [->| ->]);
        rewrite Hr.
      * eexists _, _. split; [reflexivity|]. repeat split; auto.
      * munfold. cbn. repeat case_match; simplify_eq/=; eexists _, _;
          (split; [reflexivity|]); cbn; repeat split; auto.
Qed.

Lemma part000_handle_post_spec post w :
  ∃ w' lines d, Part000.handle_post env post w = (Returned tt, w') ∧
    console w' = console w ++ lines ++ [d] ∧ quiet lines ∧
    match d with
    | LogPostError id =>
        id = post_id post ∧ ledger_same w w' ∧ feed w' = feed w
    | LogNoText id | LogTooLong id =>
        id = post_id post ∧ text_rejected post ∧ lines = [] ∧
        ledger_same w w' ∧ feed w' = feed w
    | LogSkippedVideoMarked id =>
        id = post_id post ∧ committed id w w' ∧ feed w' = feed w
    | LogReposted id =>
        id = post_id post ∧ committed id w w' ∧ ¬ text_rejected post ∧
        ∃ r, feed w' = feed w ++ [r] ∧ video_within_limit r ∧
             req_text r = plain_text post
    | _ => False
    end.
Proof.
  unfold Part000.handle_post, Part000.process_post, Part000.mastodonToRichText.
  unfold text_rejected, plain_text.
  rewrite try_catch_run, bind_run.
  destruct (content post ||| spoiler_text post ||| text post ||| Some "") as [h|].
  2:{ cbn. munfold. eexists _, [], _. split; [reflexivity|]. cbn. post_case. }
  destruct (JS.truthy (Some h)) eqn:Ht.
  2:{ cbn. munfold. eexists _, [], _. split; [reflexivity|]. cbn. post_case. }
  rewrite bind_run.
  destruct (bsky_facets env _) as [facets|]; cbn [lift ret throw].
  2:{ munfold. eexists _, [], _. split; [reflexivity|]. cbn. post_case. }
  cbn [rt_text rt_facets].
  destruct (String.eqb_spec (JS.trim (jsdom_text_content (strip_twitter_urls h))) "")
    as [He|He].
  { munfold. eexists _, [], _. split; [reflexivity|]. cbn. rewrite He. post_case. }
  destruct (bool_decide _) eqn:Hlen; bool_hyps.
  { munfold. eexists _, [], _. split; [reflexivity|]. cbn. post_case. }
  rewrite bind_run.
  destruct (part000_media_loop_spec post (media_attachments post)
              {| Part000.imageBuffers := []; Part000.videoBuffer := None;
                 Part000.skipDueToVideo := false |} w)
    as (l & w1 & Hloop & (Hi1 & Hf1 & Hd1 & lines & Hc1 & Hq1) & Hv); [done|].
  rewrite Hloop.
  destruct (Part000.skipDueToVideo l).
  { unfold Part000.mark_posted. munfold. eexists _, lines, _.
    split; [reflexivity|]. cbn. rewrite Hc1, Hi1, Hd1, <- app_assoc.
    post_case. }
  rewrite bind_run.
  destruct (part000_postToBlueSky_spec
              {| rt_text := JS.trim (jsdom_text_content (strip_twitter_urls h));
                 rt_facets := facets |}
              (Part000.imageBuffers l) (Part000.videoBuffer l) w1)
    as (o & w2 & Hpost & Hi2 & Hf2 & Hc2 & _ & [[-> Hd2]|[-> Hd2]]); rewrite Hpost.
  { munfold. eexists _, lines, _. split; [reflexivity|]. cbn.
    rewrite Hc2, Hc1, Hi2, Hi1, Hf2, Hf1, Hd2, Hd1, <- app_assoc.
    post_case. }
  unfold Part000.mark_posted. munfold. eexists _, lines, _.
  split; [reflexivity|]. cbn.
  rewrite Hc2, Hc1, Hi2, Hi1, Hd2, Hd1, <- app_assoc.
  post_case.
  - intros [?|?]; [done|lia].
  - eexists. split; [reflexivity|]. split; [|done].
    intros v. unfold part000_embed. cbn.
    destruct (Part000.videoBuffer l) as [vb|] eqn:Hvb.
    + cbn. intros ->%list_elem_of_singleton. cbn. by apply Hv.
    + destruct (Part000.imageBuffers l); cbn; by intros ?%elem_of_nil.
Qed.

Lemma part000_loop_spec ps : ∀ w,
  ∃ w' lines new published,
    for_of ps (Part000.handle_post env) w = (Returned tt, w') ∧
    console w' = console w ++ lines ∧
    omap line_post lines = post_id <$> ps ∧
    feed w' = feed w ++ new ∧ Forall video_within_limit new ∧
    (published `sublist_of` ps ∧
     req_text <$> new = plain_text <$> published ∧
     omap reposted_id lines = post_id <$> published) ∧
    (∀ id, id ∈ postedIds w → id ∈ postedIds w') ∧
    (synced w → synced w') ∧
    (Forall (λ l, is_post_error l = false) lines →
     ∀ p, p ∈ ps → post_id p ∈ postedIds w' ∨ text_rejected p).
Proof.
  induction ps as [|p ps IH]; intros w; cbn [for_of].
  - exists w, [], [], []. rewrite !app_nil_r. repeat split; auto.
    intros _ p Hp. by apply elem_of_nil in Hp.
  - destruct (part000_handle_post_spec p w) as (w1 & l1 & d & Hrun & Hc & Hq & Hd).
    destruct (IH w1)
      as (w2 & l2 & new & pub & Hrun2 & Hc2 & Hl2 & Hf2 & Hv2 & (Hsub & Htx & Hrp)
          & Hi2 & Hs2 & Hp2).
    rewrite bind_run, Hrun.
    assert (Hd' : line_post d = Some (post_id p) ∧
                  (∀ id, id ∈ postedIds w → id ∈ postedIds w1) ∧
                  (synced w → synced w1) ∧
                  (∃ n1 pub1, feed w1 = feed w ++ n1 ∧ Forall video_within_limit n1 ∧
                     pub1 `sublist_of` [p] ∧
                     req_text <$> n1 = plain_text <$> pub1 ∧
                     omap reposted_id [d] = post_id <$> pub1) ∧
                  (is_post_error d = false → post_id p ∈ postedIds w1 ∨ text_rejected p)).
    { unfold synced, ledger_same, committed in *.
      destruct d; try done; cbn.
      - destruct Hd as (-> & [Hi Hf] & Hn & r & Hr & Hv & Ht).
        repeat split; auto.
        + intros id ?. rewrite Hi. apply elem_of_app. by left.
        + by rewrite Hf.
        + exists [r], [p]. cbn. rewrite Ht. repeat split; auto.
        + intros _. left. rewrite Hi. apply elem_of_app. right. by left.
      - destruct Hd as (-> & Hr & _ & [Hi Hf] & Hfeed).
        repeat split; auto; try congruence.
        exists [], []. rewrite app_nil_r. repeat split; auto. by apply sublist_nil_l.
      - destruct Hd as (-> & Hr & _ & [Hi Hf] & Hfeed).
        repeat split; auto; try congruence.
        exists [], []. rewrite app_nil_r. repeat split; auto. by apply sublist_nil_l.
      - destruct Hd as (-> & [Hi Hf] & Hfeed).
        repeat split; auto.
        + intros id ?. rewrite Hi. apply elem_of_app. by left.
        + by rewrite Hf.
        + exists [], []. rewrite app_nil_r. repeat split; auto. by apply sublist_nil_l.
        + intros _. left. rewrite Hi. apply elem_of_app. right. by left.
      - destruct Hd as (-> & [Hi Hf] & Hfeed).
        repeat split; auto; try congruence.
        exists [], []. rewrite app_nil_r. repeat split; auto. by apply sublist_nil_l. }
    destruct Hd' as (Hlp & Hi1 & Hs1 & (n1 & pub1 & Hf1 & Hv1 & Hsub1 & Htx1 & Hrp1) & Hp1).
    exists w2, ((l1 ++ [d]) ++ l2), (n1 ++ new), (pub1 ++ pub).
    split; [done|]. split; [by rewrite Hc2, Hc, !app_assoc|].
    split.
    { rewrite !omap_app, Hl2, quiet_line_post by done. cbn. by rewrite Hlp. }
    split; [by rewrite Hf2, Hf1, app_assoc|].
    split; [by apply Forall_app|].
    split.
    { split; [by apply (sublist_app _ [p])|].
      split; [by rewrite !fmap_app, Htx1, Htx|].
      rewrite !omap_app, quiet_reposted_id, Hrp1, Hrp, fmap_app by done. done. }
    split; [auto|]. split; [auto|].
    intros Hne q [->|Hq']%elem_of_cons.
    + apply Forall_app in Hne as [Hne _]. apply Forall_app in Hne as [_ Hne].
      rewrite Forall_singleton in Hne.
      destruct (Hp1 Hne) as [?|?]; auto.
    + apply Forall_app in Hne as [_ Hne]. auto.
Qed.

Lemma part000_rejected_loop ps : ∀ w,
  Forall text_rejected ps →
  feed (for_of ps (Part000.handle_post env) w).2 = feed w.
Proof.
  induction ps as [|p ps IH]; intros w Hps; [done|].
  apply Forall_cons in Hps as [Hp Hps].
  cbn [for_of]. rewrite bind_run.
  destruct (part000_handle_post_spec p w) as (w1 & l1 & d & Hrun & Hc & Hq & Hd).
  rewrite Hrun, IH by done.
  destruct d; try done; intuition congruence.
Qed.

End Part000Facts.

(** ** repost.js: the phases of one post *)

Section RepostFacts.
Context `{Libs}.
Variable env : Env.

Lemma repost_process_media_spec post medias mediaFiles media w :
  media ∈ medias → holds_downloads env medias mediaFiles w →
  ∃ mediaFiles' w',
    Repost.process_media env post mediaFiles media w = (Returned mediaFiles', w') ∧
    quietly w w' ∧ holds_downloads env medias mediaFiles' w'.
Proof.
  intros Hm Hinv. unfold Repost.process_media, Repost.downloadMedia. munfold.
  destruct (media_body env (media_url media)) as [body|] eqn:Hb; cbn.
  - eexists _, _. split; [reflexivity|]. split; [quiet_frame|].
    intros f Hf; cbn.
    set (path := path_join Repost.TEMP_MEDIA_DIR (Repost.media_filename post media)).
    destruct (decide (f = path)) as [->|Hne].
    + rewrite lookup_insert_eq. eauto.
    + rewrite lookup_insert_ne by done.
      apply elem_of_app in Hf as [Hf|Hf]; [by apply Hinv|].
      by apply list_elem_of_singleton in Hf.
  - eexists _, _. split; [reflexivity|]. split; [quiet_frame|]. exact Hinv.
Qed.

Lemma repost_media_loop_spec post w :
  ∃ mediaFiles w',
    for_of_with (media_attachments post) (Repost.process_media env post) [] w
      = (Returned mediaFiles, w') ∧
    quietly w w' ∧ holds_downloads env (media_attachments post) mediaFiles w'.
Proof.
  apply (for_of_with_inv _ (holds_downloads env (media_attachments post)) quietly _
           quietly_refl quietly_trans).
  - intros s x w0 Hx Hs. by apply repost_process_media_spec.
  - intros f Hf. by apply elem_of_nil in Hf.
Qed.

Lemma upload_files_loop (mime : string → string) mediaFiles : ∀ acc w,
  ∃ o, for_of_with mediaFiles
         (λ (uploaded : list Blob) (file : string),
            do data <- readFileSync file;
            do upload <- uploadBlob env data (mime file);
            ret (uploaded ++ [upload]))
         acc w = (o, w) ∧
       (o = Thrown ∨
        ∃ blobs, o = Returned (acc ++ blobs) ∧
                 uploads_of w mime mediaFiles blobs) ∧
       (accepting env → (∀ f, f ∈ mediaFiles → is_Some (files w !! f)) → o ≠ Thrown).
Proof.
  induction mediaFiles as [|f fs IH]; intros acc w; cbn [for_of_with].
  - eexists. split; [reflexivity|]. split; [|done].
    right. exists []. rewrite app_nil_r. split; [done|constructor].
  - rewrite bind_run. unfold readFileSync at 1. rewrite !bind_run. unfold get at 1.
    destruct (files w !! f) as [data|] eqn:Hf; cbn [lift ret throw].
    2:{ eexists. split; [reflexivity|]. split; [by left|].
        intros _ Hall. destruct (Hall f) as [? Hx]; [by left|congruence]. }
    unfold uploadBlob at 1.
    destruct (bsky_upload env data (mime f)) eqn:Hup; cbn [ret throw].
    2:{ eexists. split; [reflexivity|]. split; [by left|].
        intros [Hacc _]. by rewrite Hacc in Hup. }
    destruct (IH (acc ++ [{| blob_data := data; blob_encoding := mime f |}]) w)
      as (o & Hr & Ho & Hacc).
    exists o. split; [exact Hr|]. split.
    + destruct Ho as [->|(blobs & -> & Hb)]; [by left|right].
      eexists (_ :: blobs). rewrite <- app_assoc. split; [done|].
      constructor; [done|exact Hb].
    + intros Ha Hall. apply Hacc; [done|]. intros g Hg. apply Hall. by right.
Qed.

Lemma repost_postToBlueSky_spec text mediaFiles w :
  ∃ o w', Repost.postToBlueSky env text mediaFiles w = (o, w') ∧
    ledger_same w w' ∧ console w' = console w ∧ files w' = files w ∧
    ((o = Thrown ∧ feed w' = feed w) ∨
     (o = Returned tt ∧
      ∃ blobs, uploads_of w Repost.mimeType mediaFiles blobs ∧
        feed w' = feed w ++
          [{| req_text := text; req_facets := None;
              req_embed := match mediaFiles with
                           | [] => None
                           | _ => Some (EmbedImages blobs)
                           end |}])) ∧
    (accepting env → (∀ f, f ∈ mediaFiles → is_Some (files w !! f)) → o = Returned tt).
Proof.
  unfold Repost.postToBlueSky. rewrite bind_run.
  destruct mediaFiles as [|f fs].
  - rewrite bool_decide_eq_false_2 by (cbn; lia).
    cbn [ret]. unfold agent_post. destruct (bsky_post env _) eqn:Hp; munfold; cbn.
    + eexists _, _. split; [reflexivity|]. cbn. repeat split; auto.
      right. split; [done|]. exists []. split; [constructor|done].
    + eexists _, _. split; [reflexivity|]. cbn. repeat split; auto.
      intros [_ Hacc]. by rewrite Hacc in Hp.
  - rewrite bool_decide_eq_true_2 by (rewrite length_cons; lia).
    rewrite bind_run.
    destruct (upload_files_loop Repost.mimeType (f :: fs) [] w) as (o & Hr & Ho & Hacc).
    rewrite Hr.
    destruct Ho as [->|(blobs & -> & Hb)].
    + eexists _, _. split; [reflexivity|]. repeat split; auto.
      intros Ha Hall. by destruct (Hacc Ha Hall).
    + cbn [ret app]. unfold agent_post.
      destruct (bsky_post env _) eqn:Hp; munfold; cbn.
      * eexists _, _. split; [reflexivity|]. cbn. repeat split; auto.
        right. split; [done|]. by exists blobs.
      * eexists _, _. split; [reflexivity|]. cbn. repeat split; auto.
        intros [_ Hp']. by rewrite Hp' in Hp.
Qed.

Lemma unlink_loop_frame fs : ∀ w,
  ∃ o w', for_of fs unlinkSync w = (o, w') ∧
    ledger_same w w' ∧ feed w' = feed w ∧ console w' = console w.
Proof.
  induction fs as [|f fs IH]; intros w; cbn [for_of].
  - eexists _, _. split; [reflexivity|]. by repeat split.
  - rewrite bind_run. unfold unlinkSync at 1. rewrite bind_run. unfold get at 1.
    destruct (files w !! f); cbn.
    + destruct (IH (set_files (delete f) w)) as (o & w' & Hr & Hl & Hf & Hc).
      unfold modify. rewrite Hr. by eexists _, _.
    + eexists _, _. split; [reflexivity|]. by repeat split.
Qed.

Lemma repost_handle_post_spec post w :
  ∃ w' lines d, Repost.handle_post env post w = (Returned tt, w') ∧
    console w' = console w ++ lines ++ [d] ∧ quiet lines ∧
    ((d = LogPostError (post_id post) ∧ ledger_same w w' ∧ feed w' = feed w) ∨
     ((d = LogReposted (post_id post) ∨ d = LogPostError (post_id post)) ∧
      committed (post_id post) w w' ∧
      ∃ r, feed w' = feed w ++ [r] ∧ repost_request env post r)) ∧
    (accepting env → ∃ r, feed w' = feed w ++ [r] ∧ repost_request env post r).
Proof.
  unfold Repost.handle_post, Repost.process_post. cbv zeta.
  rewrite try_catch_run, bind_run.
  destruct (repost_media_loop_spec post w)
    as (mf & w1 & Hloop & (Hi1 & Hf1 & Hd1 & lines & Hc1 & Hq1) & Hdl).
  rewrite Hloop, bind_run.
  destruct (repost_postToBlueSky_spec
              (content post ||| spoiler_text post ||| text post) mf w1)
    as (o & w2 & Hpost & [Hi2 Hf2] & Hc2 & Hfs2 & Hres & Hacc).
  rewrite Hpost.
  assert (Hex : ∀ f, f ∈ mf → is_Some (files w1 !! f)).
  { intros f Hf. destruct (Hdl f Hf) as (m & b & _ & _ & ->). by eexists. }
  destruct Hres as [[-> Hd2]|(-> & blobs & Hb & Hd2)].
  { munfold. eexists _, lines, _. split; [reflexivity|]. cbn.
    rewrite Hc2, Hc1, <- app_assoc. split; [reflexivity|]. split; [done|].
    split.
    - left. unfold ledger_same. repeat split; cbn; congruence.
    - intros Ha. by specialize (Hacc Ha Hex). }
  assert (Hreq : repost_request env post
            {| req_text := content post ||| spoiler_text post ||| text post;
               req_facets := None;
               req_embed := match mf with [] => None | _ :: _ => Some (EmbedImages blobs) end |}).
  { repeat split; [by destruct mf|]. cbn.
    intros blob Hblob.
    assert (Hin : blob ∈ blobs) by (by destruct mf; [apply elem_of_nil in Hblob|]).
    clear Hblob. unfold uploads_of in Hb.
    apply list_elem_of_lookup in Hin as [i Hi].
    destruct (Forall2_lookup_r _ _ _ _ _ Hb Hi) as (f & Hf & Hfile & _).
    destruct (Hdl f) as (m & b & Hm & Hbody & Hfb).
    { apply list_elem_of_lookup. eauto. }
    exists m. split; [done|]. congruence. }
  rewrite bind_run. unfold modify at 1. cbv beta iota.
  unfold savePostedIds. rewrite !bind_run. unfold get at 1. cbv beta iota.
  unfold modify at 1. cbv beta iota. rewrite bind_run.
  match goal with
  | |- context [for_of mf unlinkSync ?w0] =>
      destruct (unlink_loop_frame mf w0) as (o & w3 & Hun & [Hi3 Hf3] & Hd3 & Hc3)
  end.
  rewrite Hun. cbn in Hi3, Hf3, Hd3, Hc3.
  assert (Hcom : committed (post_id post) w w3).
  { unfold committed. rewrite Hi3, Hf3. split; congruence. }
  assert (Hfeed : feed w3 = feed w ++
            [{| req_text := content post ||| spoiler_text post ||| text post;
                req_facets := None;
                req_embed := match mf with [] => None | _ :: _ => Some (EmbedImages blobs) end |}])
    by congruence.
  destruct o as [[]|]; munfold.
  - eexists _, lines, _. split; [reflexivity|]. cbn.
    rewrite Hc3, Hc2, Hc1, <- app_assoc. split; [reflexivity|]. split; [done|].
    split; [right|]; eauto 10.
  - eexists _, lines, _. split; [reflexivity|]. cbn.
    rewrite Hc3, Hc2, Hc1, <- app_assoc. split; [reflexivity|]. split; [done|].
    split; [right|]; eauto 10.
Qed.

End RepostFacts.

Section RepostLoop.
Context `{Libs}.
Variable env : Env.

Lemma repost_loop_spec ps : ∀ w,
  ∃ w' lines new published,
    for_of ps (Repost.handle_post env) w = (Returned tt, w') ∧
    console w' = console w ++ lines ∧
    omap line_post lines = post_id <$> ps ∧
    feed w' = feed w ++ new ∧
    (published `sublist_of` ps ∧ Forall2 (repost_request env) published new) ∧
    (∀ id, id ∈ postedIds w → id ∈ postedIds w') ∧
    (synced w → synced w') ∧
    (Forall (λ l, is_post_error l = false) lines →
     ∀ p, p ∈ ps → post_id p ∈ postedIds w') ∧
    (accepting env → published = ps).
Proof.
  induction ps as [|p ps IH]; intros w; cbn [for_of].
  - exists w, [], [], []. rewrite !app_nil_r. repeat split; auto.
    intros _ p Hp. by apply elem_of_nil in Hp.
  - destruct (repost_handle_post_spec env p w)
      as (w1 & l1 & d & Hrun & Hc & Hq & Hd & Hacc).
    destruct (IH w1)
      as (w2 & l2 & new & pub & Hrun2 & Hc2 & Hl2 & Hf2 & (Hsub & Hreq) & Hi2 & Hs2
          & Hp2 & Hacc2).
    rewrite bind_run, Hrun.
    assert (Hd' : line_post d = Some (post_id p) ∧
                  (∀ id, id ∈ postedIds w → id ∈ postedIds w1) ∧
                  (synced w → synced w1) ∧
                  (∃ n1 pub1, feed w1 = feed w ++ n1 ∧ pub1 `sublist_of` [p] ∧
                     Forall2 (repost_request env) pub1 n1 ∧
                     (accepting env → pub1 = [p])) ∧
                  (is_post_error d = false → post_id p ∈ postedIds w1)).
    { unfold synced, ledger_same, committed in *.
      destruct Hd as [(-> & [Hi Hf] & Hfeed)|(Hd & [Hi Hf] & r & Hr & Hrq)].
      - cbn. repeat split; auto; try congruence.
        exists [], []. rewrite app_nil_r. repeat split; auto.
        + by apply sublist_nil_l.
        + intros Ha. destruct (Hacc Ha) as (r & Hr & _).
          rewrite Hfeed in Hr. apply (f_equal length) in Hr.
          rewrite length_app in Hr. cbn in Hr. lia.
      - repeat split.
        + by destruct Hd as [-> | ->].
        + intros id ?. rewrite Hi. apply elem_of_app. by left.
        + by rewrite Hf.
        + exists [r], [p]. repeat split; auto.
        + intros _. rewrite Hi. apply elem_of_app. right. by left. }
    destruct Hd' as (Hlp & Hi1 & Hs1 & (n1 & pub1 & Hf1 & Hsub1 & Hreq1 & Hacc1) & Hp1).
    exists w2, ((l1 ++ [d]) ++ l2), (n1 ++ new), (pub1 ++ pub).
    split; [done|]. split; [by rewrite Hc2, Hc, !app_assoc|].
    split.
    { rewrite !omap_app, Hl2, quiet_line_post by done. cbn. by rewrite Hlp. }
    split; [by rewrite Hf2, Hf1, app_assoc|].
    split.
    { split; [by apply (sublist_app _ [p])|]. by apply Forall2_app. }
    split; [auto|]. split; [auto|]. split.
    { intros Hne q [->|Hq']%elem_of_cons.
      + apply Forall_app in Hne as [Hne _]. apply Forall_app in Hne as [_ Hne].
        rewrite Forall_singleton in Hne. auto.
      + apply Forall_app in Hne as [_ Hne]. auto. }
    intros Ha. by rewrite Hacc1, Hacc2.
Qed.

End RepostLoop.

(** ** Whole runs *)

Section Runs.
Context `{Libs}.

(** A run of part_000 either is fatal and changes neither feed nor ledger,
    or handles the new posts in the order of [newPosts]. *)
Lemma part000_main_cases env w :
  (∃ w', Part000.main env w = (Returned 1, w') ∧
         (mastodon_statuses env = None ∨ bsky_login env = false) ∧
         feed w' = feed w ∧ ledger_same w w') ∨
  (∃ posts w' lines new,
     mastodon_statuses env = Some posts ∧
     Part000.main env w = (Returned 0, w') ∧
     console w' = console w ++ lines ∧
     omap line_post lines = post_id <$> Part000.newPosts posts (postedIds w) ∧
     feed w' = feed w ++ new ∧ Forall video_within_limit new ∧
     (∃ published,
        published `sublist_of` Part000.newPosts posts (postedIds w) ∧
        req_text <$> new = plain_text <$> published ∧
        omap reposted_id lines = post_id <$> published) ∧
     (∀ id, id ∈ postedIds w → id ∈ postedIds w') ∧
     (synced w → synced w') ∧
     (Forall (λ l, is_post_error l = false) lines →
      ∀ p, p ∈ Part000.newPosts posts (postedIds w) →
           post_id p ∈ postedIds w' ∨ text_rejected p)).
Proof.
  unfold Part000.main, Part000.fetchMastodonPosts.
  rewrite try_catch_run.
  destruct (mastodon_statuses env) as [posts|] eqn:Hfetch; cbn [lift].
  2:{ left. munfold. eexists. split; [reflexivity|]. by repeat split; auto. }
  rewrite bind_ret, bind_get. cbv zeta.
  destruct (Part000.newPosts posts (postedIds w)) as [|p ps] eqn:Hnew.
  - right. rewrite bool_decide_eq_true_2 by done. munfold.
    exists posts. eexists _, [LogNoNewPosts], []. cbn.
    rewrite app_nil_r, Hnew. cbn. repeat split; auto.
    + by exists [].
    + intros _ q Hq. by apply elem_of_nil in Hq.
  - rewrite bool_decide_eq_false_2 by done.
    destruct (bsky_login env) eqn:Hlogin; cbn [lift].
    2:{ left. rewrite bind_throw. munfold. eexists. split; [reflexivity|].
        by repeat split; auto. }
    rewrite bind_ret, bind_run.
    destruct (part000_loop_spec env (p :: ps) w)
      as (w' & lines & new & pub & Hrun & Hc & Hl & Hf & Hv & Hpub & Hi & Hs & Hp).
    rewrite Hrun. right. exists posts, w', lines, new.
    rewrite Hnew. cbn [ret]. repeat split; auto. by exists pub.
Qed.

(** When the text guard rejects every new post, a run publishes nothing. *)
Lemma part000_main_rejected env w posts :
  mastodon_statuses env = Some posts →
  Forall text_rejected (Part000.newPosts posts (postedIds w)) →
  feed (Part000.main env w).2 = feed w.
Proof.
  intros Hfetch Hrej.
  unfold Part000.main, Part000.fetchMastodonPosts.
  rewrite try_catch_run, Hfetch. cbn [lift].
  rewrite bind_ret, bind_get. cbv zeta.
  pose proof (part000_rejected_loop env _ w Hrej) as Hloop.
  destruct (Part000.newPosts posts (postedIds w)) as [|p ps] eqn:Hnew.
  - rewrite bool_decide_eq_true_2 by done. by munfold.
  - rewrite bool_decide_eq_false_2 by done.
    destruct (bsky_login env); cbn [lift]; [|by rewrite bind_throw; munfold].
    rewrite bind_ret, bind_run.
    destruct (for_of (p :: ps) (Part000.handle_post env) w) as [[[]|] w'];
      [done|].
    by munfold.
Qed.

Lemma repost_main_cases env w :
  (∃ w', Repost.main env w = (Returned 1, w') ∧
         (mastodon_statuses env = None ∨ bsky_login env = false) ∧
         feed w' = feed w ∧ ledger_same w w') ∨
  (∃ posts w' lines new,
     mastodon_statuses env = Some posts ∧
     Repost.main env w = (Returned 0, w') ∧
     console w' = console w ++ lines ∧
     omap line_post lines = post_id <$> Part000.newPosts posts (postedIds w) ∧
     feed w' = feed w ++ new ∧
     (∃ published,
        published `sublist_of` Part000.newPosts posts (postedIds w) ∧
        Forall2 (repost_request env) published new ∧
        (accepting env → published = Part000.newPosts posts (postedIds w))) ∧
     (∀ id, id ∈ postedIds w → id ∈ postedIds w') ∧
     (synced w → synced w') ∧
     (Forall (λ l, is_post_error l = false) lines →
      ∀ p, p ∈ Part000.newPosts posts (postedIds w) → post_id p ∈ postedIds w')).
Proof.
  unfold Repost.main.
  rewrite try_catch_run.
  destruct (mastodon_statuses env) as [posts|] eqn:Hfetch; cbn [lift].
  2:{ left. munfold. eexists. split; [reflexivity|]. by repeat split; auto. }
  rewrite bind_ret, bind_get. cbv zeta.
  unfold Part000.newPosts.
  destruct (List.filter _ posts) as [|p ps] eqn:Hnew.
  - right. rewrite bool_decide_eq_true_2 by done. munfold.
    exists posts. eexists _, [LogNoNewPosts], []. cbn.
    rewrite app_nil_r, Hnew. cbn. repeat split; auto.
    + exists []. repeat split; auto.
    + intros _ q Hq. by apply elem_of_nil in Hq.
  - rewrite bool_decide_eq_false_2 by done.
    destruct (bsky_login env) eqn:Hlogin; cbn [lift].
    2:{ left. rewrite bind_throw. munfold. eexists. split; [reflexivity|].
        by repeat split; auto. }
    rewrite bind_ret, bind_run.
    destruct (repost_loop_spec env (rev (p :: ps)) w)
      as (w' & lines & new & pub & Hrun & Hc & Hl & Hf & (Hsub & Hreq) & Hi & Hs
          & Hp & Hacc).
    rewrite Hrun. right. exists posts, w', lines, new.
    rewrite Hnew. cbn [ret]. repeat split; auto. by exists pub.
Qed.

End Runs.

Lemma elem_of_newPosts (posts : list Post) (ids : list string) (p : Post) :
  p ∈ Part000.newPosts posts ids ↔ p ∈ posts ∧ post_id p ∉ ids.
Proof.
  unfold Part000.newPosts, includes.
  rewrite list_elem_of_In, <- in_rev, filter_In, <- list_elem_of_In.
  rewrite negb_true_iff, bool_decide_eq_false. done.
Qed.

Lemma boot_synced w : synced (boot w).
Proof. reflexivity. Qed.

Lemma boot_of_synced w :
  synced w → postedIds (boot w) = postedIds w.
Proof. intros Hs. exact Hs. Qed.

(** ** Ordering (C8) *)



Example three_posts_published_in_time_order :
  req_text <$> feed (@Part000.main Fixture.libs
                       (Fixture.online Fixture.three_posts ∅) (boot Fixture.fresh)).2
    = [Some "T1"; Some "T2"; Some "T3"] ∧
  req_text <$> feed (@Repost.main Fixture.libs
                       (Fixture.online Fixture.three_posts ∅) (boot Fixture.fresh)).2
    = [Some "T1"; Some "T2"; Some "T3"].
Proof. split; reflexivity. Qed.

(** ** Idempotence of the sync run (C3) *)

Lemma repost_main_nothing_new `{Libs} env w posts :
  mastodon_statuses env = Some posts →
  Part000.newPosts posts (postedIds w) = [] →
  Repost.main env w = (Returned 0, set_console (λ c, c ++ [LogNoNewPosts]) w).
Proof.
  intros Hfetch Hnew. unfold Repost.main.
  rewrite try_catch_run, Hfetch. cbn [lift]. rewrite bind_ret, bind_get. cbv zeta.
  unfold Part000.newPosts in Hnew.
  apply (f_equal (@rev Post)) in Hnew. rewrite rev_involutive in Hnew. cbn in Hnew.
  rewrite Hnew. rewrite bool_decide_eq_true_2 by done. reflexivity.
Qed.


Example rerun_after_failed_publish_trace :
  (@Part000.main Fixture.libs (Fixture.rejecting Fixture.one_post ∅)
     (boot Fixture.fresh)).1 = Returned 0 ∧
  console (@Part000.main Fixture.libs (Fixture.rejecting Fixture.one_post ∅)
             (boot Fixture.fresh)).2 = [LogPostError "1"] ∧
  req_text <$> feed
    (@Part000.main Fixture.libs (Fixture.online Fixture.one_post ∅)
       (boot (@Part000.main Fixture.libs (Fixture.rejecting Fixture.one_post ∅)
                (boot Fixture.fresh)).2)).2 = [Some "hello"].
Proof. repeat split; reflexivity. Qed.



(** ** Per-post failure isolation (C7) *)



(** ** The text guard (C6) *)

Section TextGuard.
Context `{Libs}.
Variable env : Env.

(** A post the text guard rejects is closed with one console line and
    nothing else changes; the same proof serves both scripts, whose guards
    have the same text. *)
Lemma part000_text_rejected post w :
  text_rejected post →
  ∃ d, Part000.handle_post env post w
         = (Returned tt, set_console (λ c, c ++ [d]) w) ∧
       d ∈ [LogNoText (post_id post); LogTooLong (post_id post);
            LogPostError (post_id post)].
Proof.
  unfold text_rejected, plain_text, Part000.handle_post, Part000.process_post,
    Part000.mastodonToRichText.
  intros Hrej. rewrite try_catch_run, bind_run.
  destruct (content post ||| spoiler_text post ||| text post ||| Some "") as [h|].
  2:{ eexists. split; [reflexivity|]. by repeat first [left | right]. }
  destruct (JS.truthy (Some h)).
  2:{ eexists. split; [reflexivity|]. by repeat first [left | right]. }
  rewrite bind_run.
  destruct (bsky_facets env _) as [facets|]; cbn [lift ret throw rt_text].
  2:{ eexists. split; [reflexivity|]. by repeat first [left | right]. }
  destruct (String.eqb_spec (JS.trim (jsdom_text_content (strip_twitter_urls h))) "")
    as [He|He].
  { eexists. split; [reflexivity|]. by repeat first [left | right]. }
  destruct Hrej as [?|Hlen]; [done|].
  rewrite bool_decide_eq_true_2 by done.
  eexists. split; [reflexivity|]. by repeat first [left | right].
Qed.

Lemma part001b_text_rejected post w :
  text_rejected post →
  ∃ d, Part001b.handle_post env post w
         = (Returned tt, set_console (λ c, c ++ [d]) w) ∧
       d ∈ [LogNoText (post_id post); LogTooLong (post_id post);
            LogPostError (post_id post)].
Proof.
  unfold text_rejected, plain_text, Part001b.handle_post, Part001b.process_post,
    Part001b.mastodonToRichText, Part000.mastodonToRichText.
  intros Hrej. rewrite try_catch_run, bind_run.
  destruct (content post ||| spoiler_text post ||| text post ||| Some "") as [h|].
  2:{ eexists. split; [reflexivity|]. by repeat first [left | right]. }
  destruct (JS.truthy (Some h)).
  2:{ eexists. split; [reflexivity|]. by repeat first [left | right]. }
  rewrite bind_run.
  destruct (bsky_facets env _) as [facets|]; cbn [lift ret throw rt_text].
  2:{ eexists. split; [reflexivity|]. by repeat first [left | right]. }
  destruct (String.eqb_spec (JS.trim (jsdom_text_content (strip_twitter_urls h))) "")
    as [He|He].
  { eexists. split; [reflexivity|]. by repeat first [left | right]. }
  destruct Hrej as [?|Hlen]; [done|].
  rewrite bool_decide_eq_true_2 by done.
  eexists. split; [reflexivity|]. by repeat first [left | right].
Qed.

End TextGuard.




(** ** The video normaliser (C2) *)

Lemma processVideo_spec `{Libs} inputPath w :
  ∃ r w', Part001.processVideo inputPath w = (Returned r, w') ∧
    match r with
    | Some p => ∃ b, files w' !! p = Some b ∧ blen b ≤ BLUESKY_VIDEO_MAX_SIZE
    | None => True
    end.
Proof.
  unfold Part001.processVideo. cbv zeta. rewrite bind_get.
  destruct (files w !! inputPath ≫= ffmpeg_transcode) as [out|].
  2:{ eexists _, _. split; [reflexivity|done]. }
  unfold writeFileSync. rewrite bind_modify.
  unfold statSync_size, readFileSync. rewrite bind_run, bind_run, bind_get.
  cbn [set_files files]. rewrite lookup_insert_eq. cbn [lift ret].
  destruct (bool_decide (blen out > BLUESKY_VIDEO_MAX_SIZE)) eqn:Hsize; bool_hyps.
  - unfold console_log, unlinkSync. rewrite bind_modify, bind_run, bind_get.
    cbn [set_console set_files files]. rewrite lookup_insert_eq.
    eexists _, _. split; [reflexivity|done].
  - eexists _, _. split; [reflexivity|]. cbn.
    exists out. rewrite lookup_insert_eq. split; [done|lia].
Qed.

(** A transcoded file over the limit is deleted and [null] comes back. *)
Lemma processVideo_oversized `{Libs} inputPath w b out :
  files w !! inputPath = Some b → ffmpeg_transcode b = Some out →
  blen out > BLUESKY_VIDEO_MAX_SIZE →
  ∃ w', Part001.processVideo inputPath w = (Returned None, w') ∧
        files w' !! JS.replace_ext inputPath "_bsky.mp4" = None.
Proof.
  intros Hin Hout Hbig.
  unfold Part001.processVideo. cbv zeta. rewrite bind_get, Hin. cbn [mbind option_bind].
  rewrite Hout.
  unfold writeFileSync. rewrite bind_modify.
  unfold statSync_size, readFileSync. rewrite bind_run, bind_run, bind_get.
  cbn [set_files files]. rewrite lookup_insert_eq. cbn [lift ret].
  rewrite bool_decide_eq_true_2 by done.
  unfold console_log, unlinkSync. rewrite bind_modify, bind_run, bind_get.
  cbn [set_console set_files files]. rewrite lookup_insert_eq.
  eexists. split; [reflexivity|]. cbn. apply lookup_delete_eq.
Qed.

(** A raw video over the limit sets [skipDueToVideo] and leaves [videoBuffer]
    as it was (part_000, lines 182-184). *)
Lemma part000_oversized_video_sets_skip `{Libs} env post l media w b :
  media_type media = "video" → media_body env (media_url media) = Some b →
  blen b > BLUESKY_VIDEO_MAX_SIZE →
  Part000.process_media env post l media w
  = (Returned {| Part000.imageBuffers := Part000.imageBuffers l;
                 Part000.videoBuffer := Part000.videoBuffer l;
                 Part000.skipDueToVideo := true |},
     set_console (λ c, c ++ [LogVideoTooLarge]) w).
Proof.
  intros Hty Hbody Hbig.
  unfold Part000.process_media, Part000.downloadMediaBuffer.
  rewrite Hty, Hbody. cbn [String.eqb Ascii.eqb Bool.eqb lift].
  rewrite try_catch_run, bind_ret, bool_decide_eq_true_2 by done.
  reflexivity.
Qed.

(** C2. [processVideo] (part_001) always resolves, and when it resolves to a
    path the file at that path is at most [BLUESKY_VIDEO_MAX_SIZE] = 100 MiB
    long, otherwise it resolves to [null]; in part_000 the attachment loop
    leaves in [videoBuffer] only a buffer within that limit, and every post a
    run of part_000 adds to the feed carries a video within the limit, if it
    carries one. *)
Theorem video_normalizer_never_passes_oversized `{Libs} :
  (∀ inputPath w,
     ∃ r w', Part001.processVideo inputPath w = (Returned r, w') ∧
       match r with
       | Some p => ∃ b, files w' !! p = Some b ∧ blen b ≤ 100 * 1024 * 1024
       | None => True
       end) ∧
  (∀ env post w,
     ∃ l w', for_of_with (media_attachments post) (Part000.process_media env post)
               {| Part000.imageBuffers := []; Part000.videoBuffer := None;
                  Part000.skipDueToVideo := false |} w = (Returned l, w') ∧
             ∀ b, Part000.videoBuffer l = Some b → blen b ≤ 100 * 1024 * 1024) ∧
  (∀ env w,
     ∃ new, feed (Part000.main env w).2 = feed w ++ new ∧
            Forall video_within_limit new).
Proof.
  split; [exact processVideo_spec|]. split.
  - intros env post w.
    destruct (part000_media_loop_spec env post (media_attachments post)
                {| Part000.imageBuffers := []; Part000.videoBuffer := None;
                   Part000.skipDueToVideo := false |} w)
      as (l & w' & Hloop & _ & Hv); [done|].
    by exists l, w'.
  - intros env w.
    destruct (part000_main_cases env w)
      as [(w' & -> & _ & Hf & _)|(? & w' & ? & new & _ & -> & _ & _ & Hf & Hv & _)].
    + exists []. cbn. by rewrite app_nil_r.
    + by exists new.
Qed.

(** A video attachment of four bytes: part_001 transcodes it and hands on the
    transcoded file; part_000 embeds the raw bytes. *)
Example video_normalizer_example :
  (@Part001.processVideo Fixture.libs "/tmp/v.mp4"
     (set_files (insert "/tmp/v.mp4" Fixture.mp4_bytes) Fixture.fresh)).1
    = Returned (Some "/tmp/v_bsky.mp4") ∧
  req_embed <$> feed
    (@Part000.main Fixture.libs
       (Fixture.online [Fixture.video_post] {[ "http://m/v.mp4" := Fixture.mp4_bytes ]})
       (boot Fixture.fresh)).2
    = [Some (EmbedVideo {| blob_data := Fixture.mp4_bytes; blob_encoding := "video/mp4" |})].
Proof. split; reflexivity. Qed.

(** ** repost.js publishes without guards (C10) *)

Lemma line120_text_is_some post : is_Some (Repost.line120_text post).
Proof.
  unfold Repost.line120_text.
  match goal with
  | |- is_Some (?v ||| Some ?s) => generalize v
  end.
  intros v. unfold JS.or. destruct (JS.truthy v) eqn:Hv; [|by eexists].
  destruct v; [by eexists|done].
Qed.



Example repost_bare_post_request :
  feed (@Repost.handle_post Fixture.libs
          (Fixture.online [Fixture.bare_post] Fixture.bare_media)
          Fixture.bare_post Fixture.fresh).2
  = [{| req_text := None; req_facets := None;
        req_embed := Some (EmbedImages
          [{| blob_data := Fixture.gif_bytes; blob_encoding := "image/jpeg" |};
           {| blob_data := Fixture.mp4_bytes; blob_encoding := "video/mp4" |}]) |}] ∧
  Repost.line120_text Fixture.bare_post = Some "bob".
Proof. split; reflexivity. Qed.

(** ** Embeds (C4, C5) *)

Section Embeds.
Context `{Libs}.
Variable env : Env.

Lemma part001b_postToBlueSky_spec rt mediaFiles w o w' :
  Part001b.postToBlueSky env rt mediaFiles w = (o, w') →
  o = Thrown ∨
  (o = Returned tt ∧
   ∃ embed, feed w' = feed w ++ [{| req_text := Some (rt_text rt);
                                    req_facets := Some (rt_facets rt);
                                    req_embed := embed |}] ∧
     match List.filter is_mp4 mediaFiles with
     | videoPath :: _ =>
         ∃ data, files w !! videoPath = Some data ∧
                 embed = Some (EmbedVideo {| blob_data := data;
                                             blob_encoding := "video/mp4" |})
     | [] =>
         ∃ blobs,
           uploads_of w image_mime
             (List.filter (λ f, negb (is_mp4 f)) mediaFiles) blobs ∧
           embed = match blobs with
                   | [] => None
                   | _ => Some (EmbedImages blobs)
                   end
     end).
Proof.
  unfold Part001b.postToBlueSky. cbv zeta. fold is_mp4.
  change (λ f, negb (JS.endsWith f ".mp4")) with (λ f, negb (is_mp4 f)).
  rewrite bind_run.
  destruct (List.filter is_mp4 mediaFiles) as [|videoPath rest].
  - destruct (List.filter (λ f, negb (is_mp4 f)) mediaFiles) as [|f fs].
    + rewrite bool_decide_eq_false_2 by (cbn; lia). cbn [ret]. unfold agent_post.
      destruct (bsky_post env _); munfold; intros [= <- <-]; [right|by left].
      split; [done|]. eexists. split; [reflexivity|].
      exists []. split; [constructor|done].
    + rewrite bool_decide_eq_true_2 by (rewrite length_cons; lia).
      rewrite bind_run.
      destruct (upload_files_loop env image_mime (f :: fs) [] w)
        as (o1 & Hr & Ho & _).
      unfold image_mime in Hr at 1. rewrite Hr.
      destruct Ho as [->|(blobs & -> & Hb)]; [intros [= <- <-]; by left|].
      cbn [ret app]. unfold agent_post.
      destruct (bsky_post env _); munfold; intros [= <- <-]; [right|by left].
      split; [done|]. eexists. split; [reflexivity|].
      exists blobs. split; [done|].
      inversion Hb; subst. done.
  - munfold. intros Hrun. repeat case_match; simplify_eq/=; try (by left).
    right. split; [done|]. eexists. split; [reflexivity|]. eauto.
Qed.

(** A loop whose body only reads the world: an invariant over the items
    done so far. *)
Lemma for_of_with_reading {X S} (body : S → X → M S) (P : list X → S → Prop) w :
  (∀ done s x, P done s →
     body s x w = (Thrown, w) ∨
     ∃ s', body s x w = (Returned s', w) ∧ P (done ++ [x]) s') →
  ∀ xs done s, P done s →
    ∃ o, for_of_with xs body s w = (o, w) ∧
         (o = Thrown ∨ ∃ s', o = Returned s' ∧ P (done ++ xs) s').
Proof.
  intros Hbody xs. induction xs as [|x xs IH]; intros done s Hs; cbn [for_of_with].
  - eexists. split; [reflexivity|]. right. exists s. by rewrite app_nil_r.
  - rewrite bind_run.
    destruct (Hbody done s x Hs) as [->|(s' & -> & Hs')].
    + eexists. split; [reflexivity|]. by left.
    + destruct (IH (done ++ [x]) s' Hs') as (o & Hr & Ho).
      exists o. split; [done|]. by rewrite <- app_assoc in Ho.
Qed.

Lemma mimeType_mp4 f : is_mp4 f = true → Part001a.mimeType f = "video/mp4".
Proof. unfold is_mp4, Part001a.mimeType. by intros ->. Qed.

Lemma mimeType_image f :
  is_mp4 f = false → JS.startsWith (Part001a.mimeType f) "image/" = true.
Proof.
  unfold is_mp4, Part001a.mimeType. intros ->.
  by destruct (JS.endsWith f ".png").
Qed.

Lemma part001a_postToBlueSky_spec text mediaFiles w o w' :
  Part001a.postToBlueSky env text mediaFiles w = (o, w') →
  o = Thrown ∨
  (o = Returned tt ∧
   ∃ embed, feed w' = feed w ++ [{| req_text := text; req_facets := None;
                                    req_embed := embed |}] ∧
     ∃ blobs,
       uploads_of w Part001a.mimeType
         (List.filter (λ f, negb (is_mp4 f)) mediaFiles) blobs ∧
       match blobs with
       | _ :: _ => embed = Some (EmbedImages blobs)
       | [] =>
           match List.filter is_mp4 mediaFiles with
           | [] => embed = None
           | _ => ∃ t, embed = Some (EmbedExternal t) ∧
                       blob_encoding t = "video/mp4"
           end
       end).
Proof.
  unfold Part001a.postToBlueSky. rewrite bind_run.
  destruct mediaFiles as [|f fs].
  { rewrite bool_decide_eq_false_2 by (cbn; lia). cbn [ret]. unfold agent_post.
    destruct (bsky_post env _); munfold; intros [= <- <-]; [right|by left].
    split; [done|]. eexists. split; [reflexivity|].
    exists []. split; [constructor|done]. }
  rewrite bool_decide_eq_true_2 by (rewrite length_cons; lia).
  rewrite bind_run.
  match goal with
  | |- context [for_of_with (f :: fs) ?body ?init w] =>
      destruct (for_of_with_reading body (part001a_loop_inv w) w) with
        (xs := f :: fs) (done := @nil string) (s := init) as (o1 & Hr & Ho)
  end.
  { intros done [uploaded embed] x [Hup Hemb]. munfold.
    destruct (files w !! x) as [data|] eqn:Hx; [|by left].
    destruct (bsky_upload env data (Part001a.mimeType x)); [|by left].
    destruct (is_mp4 x) eqn:Hmp4.
    - rewrite (mimeType_mp4 x Hmp4). cbn. right. eexists. split; [reflexivity|].
      split; cbn.
      + rewrite List.filter_app. cbn. rewrite Hmp4. cbn. by rewrite app_nil_r.
      + rewrite List.filter_app. cbn. rewrite Hmp4.
        destruct (List.filter is_mp4 done); cbn; by eexists.
    - rewrite (mimeType_image x Hmp4). right. eexists. split; [reflexivity|].
      split; cbn.
      + rewrite List.filter_app. cbn. rewrite Hmp4. cbn.
        apply Forall2_app; [done|]. by constructor.
      + rewrite List.filter_app. cbn. rewrite Hmp4. by rewrite app_nil_r. }
  { split; [constructor|done]. }
  rewrite Hr.
  destruct Ho as [->|([blobs embed] & -> & Hup & Hemb)]; [intros [= <- <-]; by left|].
  cbn [app fst snd] in Hup, Hemb.
  destruct blobs as [|b blobs].
  - rewrite bool_decide_eq_false_2 by (cbn; lia). cbn [ret]. unfold agent_post.
    destruct (bsky_post env _); munfold; intros [= <- <-]; [right|by left].
    split; [done|]. eexists. split; [reflexivity|]. by exists [].
  - rewrite bool_decide_eq_true_2 by (rewrite length_cons; lia).
    cbn [ret]. unfold agent_post.
    destruct (bsky_post env _); munfold; intros [= <- <-]; [right|by left].
    split; [done|]. eexists. split; [reflexivity|]. by exists (b :: blobs).
Qed.

End Embeds.

Lemma filter_no_mp4 (mediaFiles : list string) :
  List.filter is_mp4 mediaFiles = [] →
  List.filter (λ f, negb (is_mp4 f)) mediaFiles = mediaFiles.
Proof.
  induction mediaFiles as [|f fs IH]; [done|]. cbn.
  destruct (is_mp4 f); [discriminate|]. cbn. intros Hfs. by rewrite IH.
Qed.

(** *** Gallery cap (C5) *)

(** Six images go into the embed, all six, in part_000 and in part_001. *)
Lemma gallery_of_six_is_not_capped :
  (λ r, blob_data <$> embed_images (req_embed r)) <$>
    feed (@Part000.postToBlueSky (Fixture.online [] ∅) Fixture.hello
            Fixture.six_images None Fixture.fresh).2
  = [Fixture.six_images] ∧
  (λ r, length (embed_images (req_embed r))) <$>
    feed (@Part000.postToBlueSky (Fixture.online [] ∅) Fixture.hello
            Fixture.six_images None Fixture.fresh).2
  = [6%nat].
Proof. split; reflexivity. Qed.

(** C5, amended.  For a post whose media are images only, the images embed
    holds every one of them, in arrival order; there is no cap at 4: in
    part_000 one blob per buffer of [imageBuffers], in part_001 (lines
    246-519) one blob per file of [mediaFiles], and the embed has no video. *)
Theorem gallery_keeps_every_image `{Libs} (env : Env) (rt : RichText) :
  (∀ imgs w w',
     Part000.postToBlueSky env rt imgs None w = (Returned tt, w') →
     ∃ r, feed w' = feed w ++ [r] ∧ embed_videos (req_embed r) = [] ∧
          embed_images (req_embed r)
            = (λ b, {| blob_data := b; blob_encoding := "image/jpeg" |}) <$> imgs) ∧
  (∀ mediaFiles w w',
     List.filter is_mp4 mediaFiles = [] →
     Part001b.postToBlueSky env rt mediaFiles w = (Returned tt, w') →
     ∃ r, feed w' = feed w ++ [r] ∧ embed_videos (req_embed r) = [] ∧
          length (embed_images (req_embed r)) = length mediaFiles ∧
          uploads_of w image_mime mediaFiles (embed_images (req_embed r))).
Proof.
  split.
  - intros imgs w w' Hrun.
    destruct (part000_postToBlueSky_spec env rt imgs None w)
      as (o & w2 & Hrun' & _ & _ & _ & _ & [[-> _]|[-> Hfeed]]);
      rewrite Hrun in Hrun'; [discriminate|].
    injection Hrun' as <-. eexists. split; [exact Hfeed|].
    by destruct imgs.
  - intros mediaFiles w w' Hnone Hrun.
    apply part001b_postToBlueSky_spec in Hrun as [|(_ & embed & Hfeed & Hemb)];
      [discriminate|].
    rewrite Hnone, (filter_no_mp4 _ Hnone) in Hemb.
    destruct Hemb as (blobs & Hup & ->).
    eexists. split; [exact Hfeed|]. cbn.
    assert (Himg : embed_images match blobs with [] => None | _ :: _ => Some (EmbedImages blobs) end
                   = blobs) by (by destruct blobs).
    rewrite Himg. repeat split; [by destruct blobs | | done].
    symmetry. exact (Forall2_length _ _ _ Hup).
Qed.

Lemma gallery_keeps_every_image_witness :
  ∃ r, feed (@Part000.postToBlueSky (Fixture.online [] ∅) Fixture.hello
               Fixture.six_images None Fixture.fresh).2 = feed Fixture.fresh ++ [r] ∧
       embed_videos (req_embed r) = [] ∧
       embed_images (req_embed r)
         = (λ b, {| blob_data := b; blob_encoding := "image/jpeg" |}) <$> Fixture.six_images.
Proof.
  apply (proj1 (@gallery_keeps_every_image Fixture.libs (Fixture.online [] ∅) Fixture.hello)
           Fixture.six_images Fixture.fresh).
  reflexivity.
Defined.

(** *** Embed exclusivity (C4) *)

(** An image file and a video file: repost.js sends both as entries of an
    images embed, part_001 (lines 1-245) sends the image alone; neither sends
    a video. *)
Lemma early_drafts_publish_no_video :
  req_embed <$> feed (@Repost.postToBlueSky (Fixture.online [] ∅) (Some "t")
                        ["/tmp/1_2.jpg"; "/tmp/1_3.mp4"] Fixture.mixed_files).2
  = [Some (EmbedImages
       [{| blob_data := Fixture.jpeg_bytes; blob_encoding := "image/jpeg" |};
        {| blob_data := Fixture.mp4_bytes; blob_encoding := "video/mp4" |}])] ∧
  req_embed <$> feed (@Part001a.postToBlueSky (Fixture.online [] ∅) (Some "t")
                        ["/tmp/1_2.jpg"; "/tmp/1_3.mp4"] Fixture.mixed_files).2
  = [Some (EmbedImages
       [{| blob_data := Fixture.jpeg_bytes; blob_encoding := "image/jpeg" |}])].
Proof. split; reflexivity. Qed.

(** In repost.js every media file, video or not, is an entry of the one
    images embed. *)
Lemma repost_embed_is_every_file_as_image (env : Env) text mediaFiles w w' :
  Repost.postToBlueSky env text mediaFiles w = (Returned tt, w') →
  ∃ r, feed w' = feed w ++ [r] ∧ embed_videos (req_embed r) = [] ∧
       uploads_of w Repost.mimeType mediaFiles (embed_images (req_embed r)).
Proof.
  intros Hrun.
  destruct (repost_postToBlueSky_spec env text mediaFiles w)
    as (o & w2 & Hrun' & _ & _ & _ & [[-> _]|(-> & blobs & Hup & Hfeed)] & _);
    rewrite Hrun in Hrun'; [discriminate|].
  injection Hrun' as <-. eexists. split; [exact Hfeed|]. cbn.
  destruct mediaFiles; [|done]. inversion Hup. subst. by split; [|constructor].
Qed.

(** C4, amended.  In part_000 and in part_001 (lines 246-519) a published
    post whose media contain a video carries exactly one video and no image:
    the buffer in [videoBuffer], respectively the first [.mp4] file.  In
    part_001 (lines 1-245) images and a video never share an embed either, but
    the embed never is a video: the image files alone make it, and without an
    image file the videos leave an external-link placeholder with a video blob
    as its thumbnail. *)
Theorem video_embed_exclusive_where_built `{Libs} (env : Env) :
  (∀ rt imgs vb w w',
     Part000.postToBlueSky env rt imgs (Some vb) w = (Returned tt, w') →
     ∃ r, feed w' = feed w ++ [r] ∧
          embed_videos (req_embed r)
            = [{| blob_data := vb; blob_encoding := "video/mp4" |}] ∧
          embed_images (req_embed r) = []) ∧
  (∀ rt mediaFiles videoPath rest w w',
     List.filter is_mp4 mediaFiles = videoPath :: rest →
     Part001b.postToBlueSky env rt mediaFiles w = (Returned tt, w') →
     ∃ r data, feed w' = feed w ++ [r] ∧ files w !! videoPath = Some data ∧
          embed_videos (req_embed r)
            = [{| blob_data := data; blob_encoding := "video/mp4" |}] ∧
          embed_images (req_embed r) = []) ∧
  (∀ text mediaFiles w w',
     Part001a.postToBlueSky env text mediaFiles w = (Returned tt, w') →
     ∃ r, feed w' = feed w ++ [r] ∧ embed_videos (req_embed r) = [] ∧
          uploads_of w Part001a.mimeType
            (List.filter (λ f, negb (is_mp4 f)) mediaFiles)
            (embed_images (req_embed r)) ∧
          (List.filter (λ f, negb (is_mp4 f)) mediaFiles = [] →
           List.filter is_mp4 mediaFiles ≠ [] →
           ∃ t, req_embed r = Some (EmbedExternal t) ∧ blob_encoding t = "video/mp4")).
Proof.
  split; [|split].
  - intros rt imgs vb w w' Hrun.
    destruct (part000_postToBlueSky_spec env rt imgs (Some vb) w)
      as (o & w2 & Hrun' & _ & _ & _ & _ & [[-> _]|[-> Hfeed]]);
      rewrite Hrun in Hrun'; [discriminate|].
    injection Hrun' as <-. eexists. split; [exact Hfeed|]. done.
  - intros rt mediaFiles videoPath rest w w' Hvid Hrun.
    apply part001b_postToBlueSky_spec in Hrun as [|(_ & embed & Hfeed & Hemb)];
      [discriminate|].
    rewrite Hvid in Hemb. destruct Hemb as (data & Hdata & ->).
    by exists {| req_text := Some (rt_text rt); req_facets := Some (rt_facets rt);
                 req_embed := Some (EmbedVideo {| blob_data := data;
                                                   blob_encoding := "video/mp4" |}) |},
              data.
  - intros text mediaFiles w w' Hrun.
    apply part001a_postToBlueSky_spec in Hrun
      as [|(_ & embed & Hfeed & blobs & Hup & Hemb)]; [discriminate|].
    eexists. split; [exact Hfeed|]. cbn.
    destruct blobs as [|b blobs].
    + destruct (List.filter is_mp4 mediaFiles) as [|v vs].
      * subst embed. repeat split; [done|]. by intros _ [].
      * destruct Hemb as (t & -> & Ht). repeat split; [done|].
        intros _ _. by exists t.
    + subst embed. repeat split; [done|].
      intros Hnone. rewrite Hnone in Hup. inversion Hup.
Qed.

(** An image file and a video file: part_001 (lines 246-519) publishes the
    video alone. *)
Lemma video_embed_exclusive_where_built_witness :
  ∃ r data,
    feed (@Part001b.postToBlueSky (Fixture.online [] ∅) Fixture.hello
            ["/tmp/1_2.jpg"; "/tmp/1_3.mp4"] Fixture.mixed_files).2
      = feed Fixture.mixed_files ++ [r] ∧
    files Fixture.mixed_files !! "/tmp/1_3.mp4" = Some data ∧
    embed_videos (req_embed r)
      = [{| blob_data := data; blob_encoding := "video/mp4" |}] ∧
    embed_images (req_embed r) = [].
Proof.
  apply (proj1 (proj2 (@video_embed_exclusive_where_built Fixture.libs
                         (Fixture.online [] ∅)))
           Fixture.hello ["/tmp/1_2.jpg"; "/tmp/1_3.mp4"] "/tmp/1_3.mp4" []
           Fixture.mixed_files);
    reflexivity.
Defined.

(** * Further properties *)

(** ** String built-ins *)

Lemma string_app_cons (x : ascii) (a b : string) :
  String x a +:+ b = String x (a +:+ b).
Proof. reflexivity. Qed.

Lemma string_app_nil_l (b : string) : "" +:+ b = b.
Proof. reflexivity. Qed.

Lemma string_app_assoc (a b c : string) : (a +:+ b) +:+ c = a +:+ (b +:+ c).
Proof.
  induction a as [|x a IH]; [done|]. by rewrite !string_app_cons, IH.
Qed.

Lemma string_app_nil_r (a : string) : a +:+ "" = a.
Proof. induction a as [|x a IH]; [done|]. by rewrite string_app_cons, IH. Qed.

Lemma rev_app_spec (a c : string) : String.rev_app a c = String.rev a +:+ c.
Proof.
  unfold String.rev. revert c.
  induction a as [|x a IH]; intros c; cbn [String.rev_app]; [done|].
  rewrite (IH (String x c)), (IH (String x "")).
  by rewrite string_app_assoc.
Qed.

Lemma rev_cons (x : ascii) (a : string) :
  String.rev (String x a) = String.rev a +:+ String x "".
Proof. unfold String.rev at 1. cbn [String.rev_app]. apply rev_app_spec. Qed.

Lemma rev_append (a b : string) :
  String.rev (a +:+ b) = String.rev b +:+ String.rev a.
Proof.
  induction a as [|x a IH].
  - by rewrite string_app_nil_l, string_app_nil_r.
  - by rewrite string_app_cons, !rev_cons, IH, string_app_assoc.
Qed.

Lemma rev_rev (a : string) : String.rev (String.rev a) = a.
Proof.
  induction a as [|x a IH]; [done|].
  by rewrite rev_cons, rev_append, IH.
Qed.

Lemma prefix_app (a b : string) : String.prefix a (a +:+ b) = true.
Proof.
  induction a as [|x a IH]; [by destruct b|].
  rewrite string_app_cons. cbn [String.prefix].
  destruct (ascii_dec x x); [done|congruence].
Qed.

Lemma endsWith_app (s suffix : string) : JS.endsWith (s +:+ suffix) suffix = true.
Proof. unfold JS.endsWith. rewrite rev_append. apply prefix_app. Qed.

Lemma prefix_true_app (a : string) : ∀ s,
  String.prefix a s = true → ∃ t, s = a +:+ t.
Proof.
  induction a as [|x a IH]; intros s Hs; [by exists s|].
  destruct s as [|y s]; [discriminate|]. cbn [String.prefix] in Hs.
  destruct (ascii_dec x y) as [->|]; [|discriminate].
  destruct (IH s Hs) as [t ->]. by exists t.
Qed.

Lemma endsWith_true (s suffix : string) :
  JS.endsWith s suffix = true ↔ ∃ stem, s = stem +:+ suffix.
Proof.
  split.
  - unfold JS.endsWith. intros [t Ht]%prefix_true_app.
    exists (String.rev t).
    by rewrite <- (rev_rev s), Ht, rev_append, rev_rev.
  - intros [stem ->]. apply endsWith_app.
Qed.

Lemma plain_ext_app (a b : string) :
  plain_ext (a +:+ b) = plain_ext a && plain_ext b.
Proof.
  induction a as [|x a IH]; [done|].
  rewrite string_app_cons. cbn [plain_ext]. rewrite IH.
  by rewrite !andb_assoc.
Qed.

Lemma plain_ext_rev (s : string) : plain_ext (String.rev s) = plain_ext s.
Proof.
  induction s as [|x s IH]; [done|].
  rewrite rev_cons, plain_ext_app, IH. cbn [plain_ext].
  rewrite andb_true_r. apply andb_comm.
Qed.

Lemma dotless_app (a b : string) : dotless (a +:+ b) = dotless a && dotless b.
Proof.
  induction a as [|x a IH]; [done|].
  rewrite string_app_cons. cbn [dotless]. rewrite IH. by rewrite andb_assoc.
Qed.

Lemma dotless_rev (s : string) : dotless (String.rev s) = dotless s.
Proof.
  induction s as [|x s IH]; [done|].
  rewrite rev_cons, dotless_app, IH. cbn [dotless].
  rewrite andb_true_r. apply andb_comm.
Qed.

Lemma ext_scan_plain (r t : string) :
  plain_ext r = true →
  JS.ext_scan (r +:+ String "."%char t) = Some (String.length r, t).
Proof.
  induction r as [|x r IH]; [done|].
  rewrite string_app_cons. cbn [plain_ext JS.ext_scan String.length].
  intros [[Hd Hs]%andb_true_iff Hr]%andb_true_iff.
  apply negb_true_iff in Hd, Hs. rewrite Hd, Hs, (IH Hr). done.
Qed.

Lemma ext_scan_dotless (r : string) : dotless r = true → JS.ext_scan r = None.
Proof.
  induction r as [|x r IH]; [done|]. cbn [dotless JS.ext_scan].
  intros [Hd Hr]%andb_true_iff. apply negb_true_iff in Hd.
  rewrite Hd, (IH Hr). by destruct (Ascii.eqb x "/").
Qed.

Lemma replace_ext_cases (s repl : string) :
  JS.replace_ext s repl = s ∨ ∃ stem, JS.replace_ext s repl = stem +:+ repl.
Proof.
  unfold JS.replace_ext.
  destruct (JS.ext_scan (String.rev s)) as [[[|n] rest]|]; eauto.
Qed.

(** X1. [s.replace(/\.[^/.]+$/, repl)] on a path that ends in a dot and a
    non-empty extension without dot or slash swaps that extension, dot
    included, for [repl]. *)
Theorem replace_ext_swaps_extension (stem ext repl : string) :
  ext ≠ "" → plain_ext ext = true →
  JS.replace_ext (stem +:+ "." +:+ ext) repl = stem +:+ repl.
Proof.
  intros Hne Hplain. unfold JS.replace_ext.
  rewrite rev_append, (rev_append "." ext), string_app_assoc.
  change (String.rev "." +:+ String.rev stem) with (String "."%char (String.rev stem)).
  rewrite ext_scan_plain by (by rewrite plain_ext_rev).
  destruct (String.rev ext) as [|c r] eqn:Hrev.
  - destruct Hne. by rewrite <- (rev_rev ext), Hrev.
  - cbn [String.length]. by rewrite rev_rev.
Qed.

Lemma replace_ext_swaps_extension_witness :
  JS.replace_ext ("/tmp/mastodon_media/1_2" +:+ "." +:+ "webp") ".jpg"
  = "/tmp/mastodon_media/1_2" +:+ ".jpg".
Proof.
  apply replace_ext_swaps_extension; [discriminate | reflexivity].
Defined.

(** X2. A path without any dot is returned unchanged by the replacement, so
    [processImage] and [processVideo] then write their output over their
    input path. *)
Theorem replace_ext_without_dot (s repl : string) :
  dotless s = true → JS.replace_ext s repl = s.
Proof.
  intros Hs. unfold JS.replace_ext.
  by rewrite ext_scan_dotless by (by rewrite dotless_rev).
Qed.

Lemma replace_ext_without_dot_witness :
  JS.replace_ext "/tmp/mastodon_media/1_2" "_bsky.mp4" = "/tmp/mastodon_media/1_2".
Proof. apply replace_ext_without_dot. reflexivity. Defined.

Lemma replace_ext_mp4 (stem repl : string) :
  JS.replace_ext (stem +:+ ".mp4") repl = stem +:+ repl.
Proof.
  unfold JS.replace_ext. rewrite rev_append.
  change (String.rev ".mp4" +:+ String.rev stem)
    with ("4pm" +:+ String "."%char (String.rev stem)).
  rewrite ext_scan_plain by done. cbn [String.length]. by rewrite rev_rev.
Qed.

Lemma video_output_path_facts (inputPath : string) :
  is_mp4 inputPath = true →
  JS.replace_ext inputPath "_bsky.mp4" ≠ inputPath ∧
  is_mp4 (JS.replace_ext inputPath "_bsky.mp4") = true ∧
  Part001a.mimeType (JS.replace_ext inputPath "_bsky.mp4") = "video/mp4".
Proof.
  intros [stem ->]%endsWith_true.
  rewrite replace_ext_mp4.
  assert (Hmp4 : is_mp4 (stem +:+ "_bsky.mp4") = true).
  { change (stem +:+ "_bsky.mp4") with (stem +:+ ("_bsky" +:+ ".mp4")).
    rewrite <- string_app_assoc. apply endsWith_app. }
  split; [|split; [done|]].
  - intros Heq. by apply (inj (String.app stem)) in Heq.
  - unfold Part001a.mimeType. unfold is_mp4 in Hmp4. by rewrite Hmp4.
Qed.

(** X3. The output path [processVideo] derives from an input path ending in
    [.mp4] is another path, and it ends in [.mp4] too: the transcoded file
    never overwrites the download and [postToBlueSky] takes it for a video. *)
Theorem video_output_path_is_new_and_mp4 (inputPath : string) :
  is_mp4 inputPath = true →
  JS.replace_ext inputPath "_bsky.mp4" ≠ inputPath ∧
  is_mp4 (JS.replace_ext inputPath "_bsky.mp4") = true ∧
  Part001a.mimeType (JS.replace_ext inputPath "_bsky.mp4") = "video/mp4".
Proof. exact (video_output_path_facts inputPath). Qed.

Lemma video_output_path_is_new_and_mp4_witness :
  JS.replace_ext "/tmp/mastodon_media/1_3.mp4" "_bsky.mp4" ≠ "/tmp/mastodon_media/1_3.mp4" ∧
  is_mp4 (JS.replace_ext "/tmp/mastodon_media/1_3.mp4" "_bsky.mp4") = true ∧
  Part001a.mimeType (JS.replace_ext "/tmp/mastodon_media/1_3.mp4" "_bsky.mp4") = "video/mp4".
Proof. apply video_output_path_is_new_and_mp4. reflexivity. Defined.

(** X4. When [processImage] converts an image, that is when the replacement
    by [.jpg] changes the path, the new path is uploaded with the encoding
    [image/jpeg] by both [postToBlueSky] of part_001 and is not taken for a
    video. *)
Theorem converted_image_path_is_jpeg (inputPath : string) :
  JS.replace_ext inputPath ".jpg" ≠ inputPath →
  is_mp4 (JS.replace_ext inputPath ".jpg") = false ∧
  Part001a.mimeType (JS.replace_ext inputPath ".jpg") = "image/jpeg" ∧
  image_mime (JS.replace_ext inputPath ".jpg") = "image/jpeg".
Proof.
  intros Hne.
  destruct (replace_ext_cases inputPath ".jpg") as [|[stem ->]]; [done|].
  assert (Hmp4 : JS.endsWith (stem +:+ ".jpg") ".mp4" = false).
  { unfold JS.endsWith. by rewrite rev_append. }
  assert (Hpng : JS.endsWith (stem +:+ ".jpg") ".png" = false).
  { unfold JS.endsWith. by rewrite rev_append. }
  unfold is_mp4, Part001a.mimeType, image_mime. by rewrite Hmp4, Hpng.
Qed.

Lemma converted_image_path_is_jpeg_witness :
  is_mp4 (JS.replace_ext "/tmp/mastodon_media/1_2.gif" ".jpg") = false ∧
  Part001a.mimeType (JS.replace_ext "/tmp/mastodon_media/1_2.gif" ".jpg") = "image/jpeg" ∧
  image_mime (JS.replace_ext "/tmp/mastodon_media/1_2.gif" ".jpg") = "image/jpeg".
Proof. apply converted_image_path_is_jpeg. vm_compute. discriminate. Defined.

(** ** The image normaliser, beyond its bounds *)

(** X5. An image that already is a JPEG or a PNG within the limit passes
    through untouched: [processImageBuffer] returns the very buffer and
    [processImage] the very path, sharp's encoder is not involved, and
    nothing is written, not even to the console. *)
Theorem conforming_image_passes_untouched `{Libs} (buffer : Buffer) (format : string)
    (w : World) :
  sharp_metadata_format buffer = Some format →
  format = "jpeg" ∨ format = "png" →
  blen buffer ≤ BLUESKY_IMAGE_MAX_SIZE →
  Part000.processImageBuffer buffer w = (Returned (Some buffer), w) ∧
  ∀ inputPath, files w !! inputPath = Some buffer →
    Part001.processImage inputPath w = (Returned (Some inputPath), w).
Proof.
  intros Hfmt Hok Hsize. split.
  - unfold Part000.processImageBuffer. rewrite bind_run, Hfmt. cbn [lift ret].
    assert (Htest : negb (String.eqb format "jpeg") && negb (String.eqb format "png") = false)
      by (by destruct Hok as [-> | ->]).
    rewrite Htest, bind_ret. cbv zeta.
    rewrite bool_decide_eq_false_2 by lia. rewrite bind_ret.
    by rewrite bool_decide_eq_false_2 by lia.
  - intros inputPath Hfile. unfold Part001.processImage, readFileSync.
    rewrite bind_run, bind_get, Hfile. cbn [lift ret].
    rewrite bind_run, Hfmt. cbn [lift ret].
    assert (Htest : negb (String.eqb format "jpeg") && negb (String.eqb format "png") = false)
      by (by destruct Hok as [-> | ->]).
    rewrite Htest, bind_ret. cbv zeta.
    rewrite bool_decide_eq_false_2 by lia. rewrite bind_ret.
    unfold statSync_size, readFileSync. rewrite bind_run, bind_run, bind_get, Hfile.
    cbn [lift ret]. by rewrite bool_decide_eq_false_2 by lia.
Qed.

Lemma conforming_image_passes_untouched_witness :
  @Part000.processImageBuffer Fixture.libs Fixture.jpeg_bytes Fixture.fresh
    = (Returned (Some Fixture.jpeg_bytes), Fixture.fresh) ∧
  ∀ inputPath, files Fixture.fresh !! inputPath = Some Fixture.jpeg_bytes →
    @Part001.processImage Fixture.libs inputPath Fixture.fresh
      = (Returned (Some inputPath), Fixture.fresh).
Proof.
  apply (@conforming_image_passes_untouched Fixture.libs Fixture.jpeg_bytes "jpeg");
    [reflexivity | by left | vm_compute; discriminate].
Defined.

Lemma processImage_frame `{Libs} (inputPath : string) (w : World) :
  ledger_same w (Part001.processImage inputPath w).2 ∧
  feed (Part001.processImage inputPath w).2 = feed w ∧
  (∀ q, q ≠ inputPath → q ≠ JS.replace_ext inputPath ".jpg" →
        files (Part001.processImage inputPath w).2 !! q = files w !! q) ∧
  (∀ q, is_Some (files w !! q) →
        is_Some (files (Part001.processImage inputPath w).2 !! q)) ∧
  (∀ out, (Part001.processImage inputPath w).1 = Returned (Some out) →
          out = inputPath ∨ out = JS.replace_ext inputPath ".jpg").
Proof.
  unfold Part001.processImage. munfold.
  repeat case_match; simplify_eq/=; unfold ledger_same; cbn.
  all: repeat split; auto.
  all: try (intros q Hq1 Hq2; by rewrite ?lookup_insert_ne by done).
  all: try (intros q Hq; rewrite ?lookup_insert; repeat case_decide; by eauto).
  all: try (intros out [= <-]; by auto).
  all: try discriminate.
Qed.

(** X6. Whatever [processImage] does, returning, giving up or throwing, it
    writes to no file but its input path and that path with the extension
    [.jpg], deletes no file, and leaves ledger and feed alone; a path it
    returns is one of those two. *)
Theorem processImage_writes_only_its_output `{Libs} (inputPath : string) (w : World) :
  ledger_same w (Part001.processImage inputPath w).2 ∧
  feed (Part001.processImage inputPath w).2 = feed w ∧
  (∀ q, q ≠ inputPath → q ≠ JS.replace_ext inputPath ".jpg" →
        files (Part001.processImage inputPath w).2 !! q = files w !! q) ∧
  (∀ q, is_Some (files w !! q) →
        is_Some (files (Part001.processImage inputPath w).2 !! q)) ∧
  (∀ out, (Part001.processImage inputPath w).1 = Returned (Some out) →
          out = inputPath ∨ out = JS.replace_ext inputPath ".jpg").
Proof. exact (processImage_frame inputPath w). Qed.

(** ** Attachments: isolation and temp files *)

(** X7. In part_001, an image attachment whose download succeeded either is
    appended to [mediaFiles] or leaves [mediaFiles] as it was, and in the
    latter case (the image was given up, or sharp threw) the downloaded file
    is still in the temp directory when the turn of the loop ends: nothing
    removes the download of a skipped image. *)
Theorem skipped_image_download_is_left_behind `{Libs} (env : Env) (post : Post)
    (mediaFiles : list string) (media : Media) (w : World) (body : Buffer) :
  media_type media = "image" →
  media_body env (media_url media) = Some body →
  ∃ mediaFiles' w',
    Part001.process_media env post mediaFiles media w = (Returned mediaFiles', w') ∧
    (mediaFiles' = mediaFiles ∨ ∃ p, mediaFiles' = mediaFiles ++ [p]) ∧
    (mediaFiles' = mediaFiles →
     is_Some (files w' !! path_join Part001.TEMP_MEDIA_DIR
                            (Part001.media_filename post media))).
Proof.
  intros Hty Hbody.
  unfold Part001.process_media, Part001.downloadMedia. cbv zeta.
  rewrite Hty, Hbody. cbn [String.eqb Ascii.eqb Bool.eqb lift].
  set (filename := Part001.media_filename post media).
  set (filePath := path_join Part001.TEMP_MEDIA_DIR filename).
  pose proof (processImage_frame filePath
                (set_files (insert filePath body) w)) as (_ & _ & _ & Hkeep & _).
  assert (Hthere : is_Some (files (Part001.processImage filePath
                                     (set_files (insert filePath body) w)).2 !! filePath)).
  { apply Hkeep. cbn. rewrite lookup_insert_eq. by eexists. }
  munfold. cbn [fst snd] in Hthere.
  match goal with
  | |- context [Part001.processImage filePath ?w0] =>
      destruct (Part001.processImage filePath w0) as [[[p|]|] w1]
  end; cbn [fst snd] in Hthere.
  - destruct (JS.truthy (Some p)) eqn:Htruthy; cbn [andb].
    + destruct (bool_decide (Some p = Some filePath)) eqn:Hsame; cbn [negb].
      * eexists _, _. split; [reflexivity|]. split; [right; by eexists|].
        intros Heq. apply (f_equal length) in Heq. rewrite length_app in Heq.
        cbn in Heq. lia.
      * destruct Hthere as [b ->].
        eexists _, _. split; [reflexivity|]. split; [right; by eexists|].
        intros Heq. apply (f_equal length) in Heq. rewrite length_app in Heq.
        cbn in Heq. lia.
    + eexists _, _. split; [reflexivity|]. split; [by left|]. by intros _.
  - eexists _, _. split; [reflexivity|]. split; [by left|]. by intros _.
  - eexists _, _. split; [reflexivity|]. split; [by left|]. by intros _.
Qed.

(** An attachment declared an image that sharp cannot read: it is skipped and
    its download stays in the temp directory. *)
Lemma skipped_image_download_is_left_behind_witness :
  ∃ mediaFiles' w',
    @Part001.process_media Fixture.libs
      (Fixture.online [] {[ "http://m/x.bin" := Fixture.mp4_bytes ]})
      Fixture.video_post [] (Fixture.image "51" "http://m/x.bin") Fixture.fresh
      = (Returned mediaFiles', w') ∧
    (mediaFiles' = [] ∨ ∃ p, mediaFiles' = [] ++ [p]) ∧
    (mediaFiles' = [] →
     is_Some (files w' !! @path_join Fixture.libs (@Part001.TEMP_MEDIA_DIR Fixture.libs)
                            (@Part001.media_filename Fixture.libs Fixture.video_post
                               (Fixture.image "51" "http://m/x.bin")))).
Proof.
  apply (@skipped_image_download_is_left_behind Fixture.libs
           (Fixture.online [] {[ "http://m/x.bin" := Fixture.mp4_bytes ]})
           Fixture.video_post [] (Fixture.image "51" "http://m/x.bin") Fixture.fresh
           Fixture.mp4_bytes);
    reflexivity.
Defined.

Example skipped_image_leaves_file :
  map_to_list (files (@Part001b.handle_post Fixture.libs
                        (Fixture.online [] {[ "http://m/x.bin" := Fixture.mp4_bytes ]})
                        (Fixture.unreadable_post) Fixture.fresh).2)
  = [("/tmp/mastodon_media/6_51.bin", Fixture.mp4_bytes)].
Proof. reflexivity. Qed.

(** X8. A download that fails costs only its attachment, in every draft: the
    turn of the attachment loop returns normally with the media collected so
    far unchanged, and the world differs by one console line only (no file,
    no ledger entry, no post). *)
Theorem failed_download_drops_only_the_attachment `{Libs} (env : Env) (post : Post)
    (media : Media) (w : World) :
  media_body env (media_url media) = None →
  (media_type media = "image" ∨ media_type media = "video" →
   ∀ l, Part000.process_media env post l media w
        = (Returned l, set_console (λ c, c ++ [LogMediaError (post_id post)]) w)) ∧
  (∀ mediaFiles, Part001.process_media env post mediaFiles media w
     = (Returned mediaFiles, set_console (λ c, c ++ [LogMediaError (post_id post)]) w)) ∧
  (∀ mediaFiles, Repost.process_media env post mediaFiles media w
     = (Returned mediaFiles, set_console (λ c, c ++ [LogMediaError (post_id post)]) w)).
Proof.
  intros Hfail. split; [|split].
  - intros Hty l. unfold Part000.process_media, Part000.downloadMediaBuffer.
    rewrite Hfail. by destruct Hty as [-> | ->].
  - intros mediaFiles. unfold Part001.process_media, Part001.downloadMedia.
    by rewrite Hfail.
  - intros mediaFiles. unfold Repost.process_media, Repost.downloadMedia.
    by rewrite Hfail.
Qed.

Lemma failed_download_drops_only_the_attachment_witness :
  @Repost.process_media Fixture.libs (Fixture.online [] ∅) Fixture.video_post
    [] (Fixture.video "50" "http://m/v.mp4") Fixture.fresh
  = (Returned [], set_console (λ c, c ++ [LogMediaError "5"]) Fixture.fresh).
Proof.
  refine (proj2 (proj2 (@failed_download_drops_only_the_attachment Fixture.libs
                          (Fixture.online [] ∅) Fixture.video_post
                          (Fixture.video "50" "http://m/v.mp4") Fixture.fresh _)) []).
  reflexivity.
Defined.

(** ** The video normaliser, beyond its bound *)


(** ** The clean-up loop *)

Lemma unlink_loop_spec fs : ∀ w,
  ∃ o w', for_of fs unlinkSync w = (o, w') ∧
    (∀ q, q ∉ fs → files w' !! q = files w !! q) ∧
    (∀ q, files w' !! q = None ∨ files w' !! q = files w !! q) ∧
    (o = Returned tt ↔ NoDup fs ∧ ∀ f, f ∈ fs → is_Some (files w !! f)) ∧
    (o = Returned tt → ∀ f, f ∈ fs → files w' !! f = None).
Proof.
  induction fs as [|f fs IH]; intros w; cbn [for_of].
  - exists (Returned tt), w. split; [done|]. split_and!; auto.
    + split; [intros _|done]. split; [constructor|]. by intros f ?%elem_of_nil.
    + by intros _ f ?%elem_of_nil.
  - rewrite bind_run. unfold unlinkSync at 1. rewrite bind_get.
    destruct (files w !! f) as [b|] eqn:Hf.
    + unfold modify at 1.
      destruct (IH (set_files (delete f) w)) as (o & w' & -> & Hout & Hany & Hiff & Hgone).
      cbn in Hout, Hany, Hiff.
      exists o, w'. split; [done|]. split_and!.
      * intros q [Hqf Hq]%not_elem_of_cons. by rewrite Hout, lookup_delete_ne.
      * intros q. destruct (Hany q) as [?|Hq]; [by left|].
        destruct (decide (q = f)) as [->|?].
        -- left. by rewrite Hq, lookup_delete_eq.
        -- right. by rewrite Hq, lookup_delete_ne.
      * rewrite Hiff. split.
        -- intros [Hnd Hall]. assert (Hnf : f ∉ fs).
           { intros Hin. destruct (Hall f Hin) as [x Hx]. by rewrite lookup_delete_eq in Hx. }
           split; [by constructor|].
           intros f' [->|Hin]%elem_of_cons; [by eexists|].
           specialize (Hall f' Hin). rewrite lookup_delete_ne in Hall; [done|].
           by intros <-.
        -- intros [[Hnf Hnd]%NoDup_cons Hall]. split; [done|].
           intros f' Hin. rewrite lookup_delete_ne by (by intros <-).
           apply Hall. by right.
      * intros Ho f' [->|Hin]%elem_of_cons; [|by apply Hgone].
        apply Hiff in Ho as [_ Hall].
        rewrite Hout; [by rewrite lookup_delete_eq|].
        intros Hin. destruct (Hall f Hin) as [x Hx]. by rewrite lookup_delete_eq in Hx.
    + exists Thrown, w. split; [done|]. split_and!; auto; [|done].
      split; [done|]. intros [_ Hall]. destruct (Hall f) as [x Hx]; [by left|congruence].
Qed.

(** X10. The clean-up loop [for (const file of mediaFiles) fs.unlinkSync(file)]
    runs to its end exactly when the paths are pairwise distinct and every
    one of them is a file; the files it has removed are then exactly those,
    and no other file is touched.  Whether it throws or not it only removes
    files, and ledger, feed and console are as before. *)
Theorem cleanup_succeeds_iff_files_distinct_and_present (fs : list string) (w : World) :
  ((for_of fs unlinkSync w).1 = Returned tt ↔
   NoDup fs ∧ ∀ f, f ∈ fs → is_Some (files w !! f)) ∧
  ((for_of fs unlinkSync w).1 = Returned tt →
   ∀ q, files (for_of fs unlinkSync w).2 !! q
        = if decide (q ∈ fs) then None else files w !! q) ∧
  (∀ q, files (for_of fs unlinkSync w).2 !! q = None ∨
        files (for_of fs unlinkSync w).2 !! q = files w !! q) ∧
  ledger_same w (for_of fs unlinkSync w).2 ∧
  feed (for_of fs unlinkSync w).2 = feed w ∧
  console (for_of fs unlinkSync w).2 = console w.
Proof.
  destruct (unlink_loop_spec fs w) as (o & w' & Hrun & Hout & Hany & Hiff & Hgone).
  destruct (unlink_loop_frame fs w) as (o' & w'' & Hrun' & Hl & Hf & Hc).
  rewrite Hrun in Hrun'. injection Hrun' as <- <-. rewrite Hrun. cbn [fst snd].
  split_and!; try done.
  intros Ho q. destruct (decide (q ∈ fs)); auto.
Qed.

(** ** part_001: one attachment *)

Section Part001Facts.
Context `{Libs}.
Variable env : Env.

Lemma processImage_quietly inputPath w :
  quietly w (Part001.processImage inputPath w).2 ∧
  (∀ p, (Part001.processImage inputPath w).1 = Returned (Some p) →
        is_Some (files (Part001.processImage inputPath w).2 !! p)).
Proof.
  unfold Part001.processImage. munfold.
  repeat case_match; simplify_eq/=.
  all: split; [quiet_frame|].
  all: try (intros p [= <-]; by eauto).
  all: try discriminate.
Qed.

Lemma processVideo_quietly inputPath w :
  ∃ r w', Part001.processVideo inputPath w = (Returned r, w') ∧ quietly w w' ∧
    (∀ p, r = Some p → is_Some (files w' !! p)).
Proof.
  unfold Part001.processVideo. cbv zeta. munfold.
  destruct (files w !! inputPath ≫= ffmpeg_transcode) as [out|]; cbn.
  - rewrite lookup_insert_eq. cbn.
    destruct (bool_decide (blen out > BLUESKY_VIDEO_MAX_SIZE)); cbn.
    + rewrite lookup_insert_eq. cbn. eexists _, _. split; [reflexivity|].
      split; [quiet_frame|]. discriminate.
    + eexists _, _. split; [reflexivity|]. split; [quiet_frame|].
      intros p [= <-]. cbn. rewrite lookup_insert_eq. by eexists.
  - eexists _, _. split; [reflexivity|]. split; [quiet_frame|]. discriminate.
Qed.

Lemma part001_process_media_spec post mediaFiles media w :
  ∃ mediaFiles' w',
    Part001.process_media env post mediaFiles media w = (Returned mediaFiles', w') ∧
    quietly w w' ∧
    (mediaFiles' = mediaFiles ∨
     ∃ p, mediaFiles' = mediaFiles ++ [p] ∧ is_Some (files w' !! p)).
Proof.
  unfold Part001.process_media, Part001.downloadMedia. cbv zeta.
  set (filename := Part001.media_filename post media).
  set (filePath := path_join Part001.TEMP_MEDIA_DIR filename).
  destruct (media_body env (media_url media)) as [body|]; cbn [lift].
  2:{ munfold. eexists _, _. split; [reflexivity|]. split; [quiet_frame|by left]. }
  set (w0 := set_files (insert filePath body) w).
  assert (Hw0 : quietly w w0) by (subst w0; quiet_frame).
  assert (Hstep : ∃ o w1,
    (if String.eqb (media_type media) "image" then Part001.processImage filePath
     else if String.eqb (media_type media) "video" then Part001.processVideo filePath
     else ret None) w0 = (o, w1) ∧ quietly w0 w1 ∧
    (∀ p, o = Returned (Some p) → is_Some (files w1 !! p))).
  { destruct (String.eqb (media_type media) "image").
    - destruct (processImage_quietly filePath w0) as [Hq Hp].
      destruct (Part001.processImage filePath w0) as [o w1]. by exists o, w1.
    - destruct (String.eqb (media_type media) "video").
      + destruct (processVideo_quietly filePath w0) as (r & w1 & -> & Hq & Hp).
        eexists _, _. split; [reflexivity|]. split; [done|].
        intros p [= ->]. by apply Hp.
      + eexists _, _. split; [reflexivity|]. split; [apply quietly_refl|]. discriminate. }
  destruct Hstep as (o & w1 & Hrun & Hq1 & Hp).
  assert (Hw1 : quietly w w1) by exact (quietly_trans _ _ _ Hw0 Hq1).
  rewrite bind_run, try_catch_run, bind_run, bind_ret.
  unfold writeFileSync. rewrite bind_modify. fold w0. cbn [ret].
  rewrite bind_run, Hrun.
  destruct o as [[p|]|].
  - specialize (Hp p eq_refl).
    destruct (JS.truthy (Some p)) eqn:Htruthy; cbn [andb].
    + rewrite bind_ret.
      destruct (bool_decide (Some p = Some filePath)) eqn:Hsame; cbn [negb ret];
        bool_hyps.
      * eexists _, _. split; [reflexivity|]. split; [done|]. right. eauto.
      * assert (Hne : p ≠ filePath) by congruence.
        munfold.
        destruct (files w1 !! filePath) eqn:Hfile.
        -- eexists _, _. split; [reflexivity|].
           split; [eapply quietly_trans; [exact Hw1|quiet_frame]|].
           right. eexists. split; [done|]. cbn. by rewrite lookup_delete_ne.
        -- eexists _, _. split; [reflexivity|].
           split; [eapply quietly_trans; [exact Hw1|quiet_frame]|].
           right. eexists. split; [done|]. done.
    + munfold. eexists _, _. split; [reflexivity|].
      split; [eapply quietly_trans; [exact Hw1|quiet_frame]|]. by left.
  - munfold. eexists _, _. split; [reflexivity|].
    split; [eapply quietly_trans; [exact Hw1|quiet_frame]|]. by left.
  - munfold. eexists _, _. split; [reflexivity|].
    split; [eapply quietly_trans; [exact Hw1|quiet_frame]|]. by left.
Qed.

Lemma part001_media_loop_spec post medias : ∀ mediaFiles w,
  ∃ mediaFiles' w',
    for_of_with medias (Part001.process_media env post) mediaFiles w
      = (Returned mediaFiles', w') ∧ quietly w w'.
Proof.
  induction medias as [|m medias IH]; intros mediaFiles w; cbn [for_of_with].
  - eexists _, _. split; [reflexivity|]. apply quietly_refl.
  - destruct (part001_process_media_spec post mediaFiles m w) as (mf1 & w1 & Hrun & Hq & _).
    destruct (IH mf1 w1) as (mf2 & w2 & Hrun2 & Hq2).
    rewrite bind_run, Hrun. eexists _, _. split; [exact Hrun2|]. exact (quietly_trans _ _ _ Hq Hq2).
Qed.

End Part001Facts.


(** X12. An attachment that is neither an image nor a video (Mastodon also
    has [gifv] and [audio]) is downloaded all the same by part_001, then
    skipped, and its file stays in the temp directory: nothing is pushed, the
    download is the only change to the files, and the console gets the
    [skipped] warning. *)
Theorem unsupported_attachment_is_downloaded_and_left `{Libs} (env : Env) (post : Post)
    (mediaFiles : list string) (media : Media) (w : World) (body : Buffer) :
  media_type media ≠ "image" → media_type media ≠ "video" →
  media_body env (media_url media) = Some body →
  Part001.process_media env post mediaFiles media w
  = (Returned mediaFiles,
     set_console (λ c, c ++ [LogMediaSkipped (Part001.media_filename post media)])
       (set_files (insert (path_join Part001.TEMP_MEDIA_DIR
                             (Part001.media_filename post media)) body) w)).
Proof.
  intros Hi Hv Hbody. unfold Part001.process_media, Part001.downloadMedia.
  rewrite Hbody.
  destruct (String.eqb_spec (media_type media) "image") as [|_]; [done|].
  destruct (String.eqb_spec (media_type media) "video") as [|_]; [done|].
  reflexivity.
Qed.

Lemma unsupported_attachment_is_downloaded_and_left_witness :
  @Part001.process_media Fixture.libs
    (Fixture.online [] {[ "http://m/a.mp3" := Fixture.mp4_bytes ]}) Fixture.video_post []
    {| media_id := "52"; media_type := "audio"; media_url := "http://m/a.mp3" |}
    Fixture.fresh
  = (Returned [],
     set_console (λ c, c ++ [LogMediaSkipped "5_52.mp3"])
       (set_files (insert "/tmp/mastodon_media/5_52.mp3" Fixture.mp4_bytes) Fixture.fresh)).
Proof.
  apply (@unsupported_attachment_is_downloaded_and_left Fixture.libs
           (Fixture.online [] {[ "http://m/a.mp3" := Fixture.mp4_bytes ]}) Fixture.video_post []
           {| media_id := "52"; media_type := "audio"; media_url := "http://m/a.mp3" |}
           Fixture.fresh Fixture.mp4_bytes);
    [discriminate | discriminate | reflexivity].
Defined.

(** X13. In part_001 a converted image replaces its download.  When an image
    attachment is neither JPEG nor PNG, sharp converts it and the result is
    within the limit, the turn of the attachment loop pushes the path with
    the extension [.jpg], which holds the converted bytes, and removes the
    downloaded file; nothing is written to the console. *)
Theorem converted_image_replaces_its_download `{Libs} (env : Env) (post : Post)
    (mediaFiles : list string) (media : Media) (w : World) (body converted : Buffer)
    (format : string) :
  let filePath := path_join Part001.TEMP_MEDIA_DIR (Part001.media_filename post media) in
  let outputPath := JS.replace_ext filePath ".jpg" in
  media_type media = "image" →
  media_body env (media_url media) = Some body →
  sharp_metadata_format body = Some format → format ≠ "jpeg" → format ≠ "png" →
  sharp_jpeg None body = Some converted →
  blen converted ≤ BLUESKY_IMAGE_MAX_SIZE →
  outputPath ≠ "" → outputPath ≠ filePath →
  Part001.process_media env post mediaFiles media w
  = (Returned (mediaFiles ++ [outputPath]),
     set_files (λ f, delete filePath (<[outputPath := converted]> (<[filePath := body]> f)))
       w).
Proof.
  intros filePath outputPath Hty Hbody Hfmt Hj Hp Hconv Hsize Hne Hdiff.
  unfold Part001.process_media, Part001.downloadMedia. cbv zeta.
  fold filePath. rewrite Hty, Hbody. cbn [String.eqb Ascii.eqb Bool.eqb lift].
  assert (Hrun : Part001.processImage filePath (set_files (insert filePath body) w)
                 = (Returned (Some outputPath),
                    set_files (λ f, <[outputPath := converted]> (<[filePath := body]> f)) w)).
  { unfold Part001.processImage. fold outputPath. munfold. cbn.
    rewrite lookup_insert_eq. cbn. rewrite Hfmt. cbn.
    destruct (String.eqb_spec format "jpeg") as [|_]; [done|].
    destruct (String.eqb_spec format "png") as [|_]; [done|]. cbn.
    rewrite Hconv. cbn. rewrite bool_decide_eq_false_2 by lia. cbn.
    rewrite lookup_insert_eq. cbn. by rewrite bool_decide_eq_false_2 by lia. }
  rewrite bind_run, try_catch_run, bind_run, bind_ret.
  unfold writeFileSync. rewrite bind_modify. cbn [ret].
  rewrite bind_run, Hrun.
  assert (Htruthy : JS.truthy (Some outputPath) = true).
  { unfold JS.truthy. by destruct outputPath. }
  rewrite Htruthy, bind_ret. cbn [andb ret].
  rewrite bool_decide_eq_false_2 by congruence. cbn [negb].
  munfold. cbn. rewrite lookup_insert_ne by done. rewrite lookup_insert_eq. done.
Qed.

(** The post of the fixture with a GIF attachment. *)
Lemma converted_image_replaces_its_download_witness :
  @Part001.process_media Fixture.libs
    (Fixture.online [] Fixture.bare_media) Fixture.bare_post []
    (Fixture.image "90" "http://m/a.gif") Fixture.fresh
  = (Returned ([] ++ ["/tmp/mastodon_media/9_90.jpg"]),
     set_files (λ f, delete "/tmp/mastodon_media/9_90.gif"
                       (<["/tmp/mastodon_media/9_90.jpg" := [xff; x49; x46; x38]]>
                          (<["/tmp/mastodon_media/9_90.gif" := Fixture.gif_bytes]> f)))
       Fixture.fresh).
Proof.
  apply (@converted_image_replaces_its_download Fixture.libs
           (Fixture.online [] Fixture.bare_media) Fixture.bare_post []
           (Fixture.image "90" "http://m/a.gif") Fixture.fresh Fixture.gif_bytes
           [xff; x49; x46; x38] "gif");
    first [reflexivity | discriminate | (vm_compute; discriminate)].
Defined.

(** X14. In part_001 a transcoded video replaces its download, and an
    oversized one does not.  When ffmpeg succeeds on a downloaded video whose
    output path differs from the download's, then either the output is within
    the limit, its path is pushed and the download removed; or it is over the
    limit, the output is removed, nothing is pushed, and the download stays
    in the temp directory. *)
Theorem transcoded_video_replaces_its_download `{Libs} (env : Env) (post : Post)
    (mediaFiles : list string) (media : Media) (w : World) (body out : Buffer) :
  let filename := Part001.media_filename post media in
  let filePath := path_join Part001.TEMP_MEDIA_DIR filename in
  let outputPath := JS.replace_ext filePath "_bsky.mp4" in
  media_type media = "video" →
  media_body env (media_url media) = Some body →
  ffmpeg_transcode body = Some out →
  outputPath ≠ "" → outputPath ≠ filePath →
  Part001.process_media env post mediaFiles media w
  = if bool_decide (blen out > BLUESKY_VIDEO_MAX_SIZE) then
      (Returned mediaFiles,
       set_console (λ c, c ++ [LogVideoTooBig filePath; LogMediaSkipped filename])
         (set_files (λ f, delete outputPath (<[outputPath := out]> (<[filePath := body]> f)))
            w))
    else
      (Returned (mediaFiles ++ [outputPath]),
       set_files (λ f, delete filePath (<[outputPath := out]> (<[filePath := body]> f))) w).
Proof.
  intros filename filePath outputPath Hty Hbody Hout Hne Hdiff.
  unfold Part001.process_media, Part001.downloadMedia. cbv zeta.
  fold filename filePath. rewrite Hty, Hbody. cbn [String.eqb Ascii.eqb Bool.eqb lift].
  rewrite bind_run, try_catch_run, bind_run, bind_ret.
  unfold writeFileSync at 1. rewrite bind_modify. cbn [ret].
  rewrite bind_run.
  unfold Part001.processVideo. cbv zeta. fold outputPath.
  rewrite bind_get. cbn [files set_files]. rewrite lookup_insert_eq. cbn [mbind option_bind].
  rewrite Hout. munfold. cbn. rewrite lookup_insert_eq. cbn.
  destruct (bool_decide (blen out > BLUESKY_VIDEO_MAX_SIZE)); cbn.
  - rewrite lookup_insert_eq. cbn. by rewrite <- app_assoc.
  - assert (Htruthy : negb (String.eqb outputPath "") = true)
      by (by destruct (String.eqb_spec outputPath "")).
    rewrite Htruthy. cbn. rewrite bool_decide_eq_false_2 by congruence. cbn.
    rewrite lookup_insert_ne by done. rewrite lookup_insert_eq. done.
Qed.

Lemma transcoded_video_replaces_its_download_witness :
  @Part001.process_media Fixture.libs
    (Fixture.online [] {[ "http://m/v.mp4" := Fixture.mp4_bytes ]}) Fixture.video_post []
    (Fixture.video "50" "http://m/v.mp4") Fixture.fresh
  = if bool_decide (blen [x66; x74] > BLUESKY_VIDEO_MAX_SIZE) then
      (Returned [],
       set_console (λ c, c ++ [LogVideoTooBig "/tmp/mastodon_media/5_50.mp4";
                               LogMediaSkipped "5_50.mp4"])
         (set_files (λ f, delete "/tmp/mastodon_media/5_50_bsky.mp4"
                            (<["/tmp/mastodon_media/5_50_bsky.mp4" := [x66; x74]]>
                               (<["/tmp/mastodon_media/5_50.mp4" := Fixture.mp4_bytes]> f)))
            Fixture.fresh))
    else
      (Returned ([] ++ ["/tmp/mastodon_media/5_50_bsky.mp4"]),
       set_files (λ f, delete "/tmp/mastodon_media/5_50.mp4"
                         (<["/tmp/mastodon_media/5_50_bsky.mp4" := [x66; x74]]>
                            (<["/tmp/mastodon_media/5_50.mp4" := Fixture.mp4_bytes]> f)))
         Fixture.fresh).
Proof.
  apply (@transcoded_video_replaces_its_download Fixture.libs
           (Fixture.online [] {[ "http://m/v.mp4" := Fixture.mp4_bytes ]}) Fixture.video_post []
           (Fixture.video "50" "http://m/v.mp4") Fixture.fresh Fixture.mp4_bytes [x66; x74]);
    first [reflexivity | (vm_compute; discriminate)].
Defined.

(** ** The two image normalisers *)

(** X15. The file normaliser of part_001 computes what the buffer normaliser
    of part_000 computes.  On a file that holds [buffer], [processImage]
    throws exactly when [processImageBuffer] throws on [buffer], gives up
    exactly when it gives up, and otherwise returns a path whose file holds
    the very buffer [processImageBuffer] returns. *)
Theorem file_normaliser_agrees_with_buffer_normaliser `{Libs} (inputPath : string)
    (buffer : Buffer) (w : World) :
  files w !! inputPath = Some buffer →
  match (Part000.processImageBuffer buffer w).1 with
  | Returned (Some b) =>
      ∃ p, (Part001.processImage inputPath w).1 = Returned (Some p) ∧
           files (Part001.processImage inputPath w).2 !! p = Some b
  | Returned None => (Part001.processImage inputPath w).1 = Returned None
  | Thrown => (Part001.processImage inputPath w).1 = Thrown
  end.
Proof.
  intros Hfile.
  unfold Part000.processImageBuffer, Part001.processImage. munfold. rewrite Hfile.
  destruct (sharp_metadata_format buffer) as [format|]; [|done].
  destruct (negb (String.eqb format "jpeg") && negb (String.eqb format "png")).
  - destruct (sharp_jpeg None buffer) as [b1|]; [|done]. cbn.
    destruct (bool_decide (blen b1 > BLUESKY_IMAGE_MAX_SIZE)) eqn:Hbig.
    + destruct (quality_loop b1 (blen b1) 90).2 as [[[b2 ?] ?]|]; [|done]. cbn.
      rewrite lookup_insert_eq.
      destruct (bool_decide (blen b2 > BLUESKY_IMAGE_MAX_SIZE)); cbn; [done|].
      eexists. split; [done|]. by rewrite lookup_insert_eq.
    + cbn. rewrite lookup_insert_eq, Hbig. cbn.
      eexists. split; [done|]. by rewrite lookup_insert_eq.
  - cbn. destruct (bool_decide (blen buffer > BLUESKY_IMAGE_MAX_SIZE)) eqn:Hbig.
    + destruct (quality_loop buffer (blen buffer) 90).2 as [[[b2 ?] ?]|]; [|done]. cbn.
      rewrite lookup_insert_eq.
      destruct (bool_decide (blen b2 > BLUESKY_IMAGE_MAX_SIZE)); cbn; [done|].
      eexists. split; [done|]. by rewrite lookup_insert_eq.
    + cbn. rewrite Hfile, Hbig. cbn. eauto.
Qed.

(** A GIF in a file: both normalisers convert it to the same JPEG. *)
Lemma file_normaliser_agrees_with_buffer_normaliser_witness :
  match (@Part000.processImageBuffer Fixture.libs Fixture.gif_bytes
           (set_files (insert "/tmp/1_2.gif" Fixture.gif_bytes) Fixture.fresh)).1 with
  | Returned (Some b) =>
      ∃ p, (@Part001.processImage Fixture.libs "/tmp/1_2.gif"
              (set_files (insert "/tmp/1_2.gif" Fixture.gif_bytes) Fixture.fresh)).1
           = Returned (Some p) ∧
           files (@Part001.processImage Fixture.libs "/tmp/1_2.gif"
                    (set_files (insert "/tmp/1_2.gif" Fixture.gif_bytes) Fixture.fresh)).2
             !! p = Some b
  | Returned None =>
      (@Part001.processImage Fixture.libs "/tmp/1_2.gif"
         (set_files (insert "/tmp/1_2.gif" Fixture.gif_bytes) Fixture.fresh)).1
      = Returned None
  | Thrown =>
      (@Part001.processImage Fixture.libs "/tmp/1_2.gif"
         (set_files (insert "/tmp/1_2.gif" Fixture.gif_bytes) Fixture.fresh)).1 = Thrown
  end.
Proof.
  apply (@file_normaliser_agrees_with_buffer_normaliser Fixture.libs "/tmp/1_2.gif"
           Fixture.gif_bytes (set_files (insert "/tmp/1_2.gif" Fixture.gif_bytes) Fixture.fresh)).
  reflexivity.
Defined.

(** ** part_000: the video of a post *)

Section Part000Videos.
Context `{Libs}.
Variable env : Env.

Lemma part000_process_media_videos post l media w :
  ∃ l' w', Part000.process_media env post l media w = (Returned l', w') ∧
    quietly w w' ∧ files w' = files w ∧
    Part000.videoBuffer l'
      = from_option Some (Part000.videoBuffer l) (usable_video env media) ∧
    Part000.skipDueToVideo l'
      = Part000.skipDueToVideo l || oversized_video env media.
Proof.
  unfold usable_video, oversized_video.
  unfold Part000.process_media, Part000.downloadMediaBuffer.
  destruct (String.eqb_spec (media_type media) "image") as [Hty|_].
  - rewrite Hty. cbn [String.eqb Ascii.eqb Bool.eqb andb from_option].
    rewrite orb_false_r. unfold Part000.processImageBuffer.
    munfold. repeat case_match; simplify_eq/=.
    all: eexists _, _; split; [reflexivity|].
    all: split; [quiet_frame|]; done.
  - destruct (String.eqb (media_type media) "video"); cbn [andb from_option].
    + munfold. destruct (media_body env (media_url media)) as [b|]; cbn.
      * destruct (bool_decide (blen b > BLUESKY_VIDEO_MAX_SIZE)); cbn;
          eexists _, _; (split; [reflexivity|]); (split; [quiet_frame|]); cbn;
          rewrite ?orb_true_r, ?orb_false_r; done.
      * eexists _, _. split; [reflexivity|]. split; [quiet_frame|]. cbn.
        by rewrite orb_false_r.
    + munfold. eexists _, _. split; [reflexivity|]. split; [quiet_frame|]. cbn.
      by rewrite orb_false_r.
Qed.

Lemma part000_media_loop_videos post medias : ∀ l w,
  ∃ l' w', for_of_with medias (Part000.process_media env post) l w = (Returned l', w') ∧
    quietly w w' ∧ files w' = files w ∧
    Part000.videoBuffer l'
      = from_option Some (Part000.videoBuffer l) (last (omap (usable_video env) medias)) ∧
    Part000.skipDueToVideo l'
      = Part000.skipDueToVideo l || existsb (oversized_video env) medias.
Proof.
  induction medias as [|m medias IH]; intros l w; cbn [for_of_with].
  - exists l, w. split; [done|]. split; [apply quietly_refl|]. cbn.
    by rewrite orb_false_r.
  - destruct (part000_process_media_videos post l m w)
      as (l1 & w1 & Hrun & Hq & Hf & Hv & Hs).
    destruct (IH l1 w1) as (l2 & w2 & Hrun2 & Hq2 & Hf2 & Hv2 & Hs2).
    rewrite bind_run, Hrun. exists l2, w2. split; [done|].
    split; [exact (quietly_trans _ _ _ Hq Hq2)|]. split; [congruence|].
    split.
    + rewrite Hv2, Hv.
      change (omap (usable_video env) (m :: medias))
        with (match usable_video env m with
              | Some y => y :: omap (usable_video env) medias
              | None => omap (usable_video env) medias
              end).
      destruct (usable_video env m) as [b|]; cbn [from_option]; [|done].
      rewrite last_cons. by destruct (last (omap (usable_video env) medias)).
    + rewrite Hs2, Hs. cbn [existsb]. by rewrite orb_assoc.
Qed.

End Part000Videos.

(** X16. Of the videos of a post, part_000 keeps the last one: after the
    attachment loop [videoBuffer] is the body of the last attachment that is
    a video within the limit and whose download succeeded ([null] when there
    is none), and [skipDueToVideo] is set exactly when some video attachment
    was downloaded with more than 100MB.  The loop writes no file. *)
Theorem part000_keeps_the_last_usable_video `{Libs} (env : Env) (post : Post) (w : World) :
  ∃ l w',
    for_of_with (media_attachments post) (Part000.process_media env post)
      {| Part000.imageBuffers := []; Part000.videoBuffer := None;
         Part000.skipDueToVideo := false |} w = (Returned l, w') ∧
    Part000.videoBuffer l = last (omap (usable_video env) (media_attachments post)) ∧
    Part000.skipDueToVideo l = existsb (oversized_video env) (media_attachments post) ∧
    files w' = files w.
Proof.
  destruct (part000_media_loop_videos env post (media_attachments post)
              {| Part000.imageBuffers := []; Part000.videoBuffer := None;
                 Part000.skipDueToVideo := false |} w)
    as (l & w' & Hrun & _ & Hf & Hv & Hs).
  exists l, w'. split; [done|]. cbn in Hv, Hs.
  split; [|done]. rewrite Hv. by destruct (last _).
Qed.


Lemma huge_video_len : blen Fixture.huge_video > BLUESKY_VIDEO_MAX_SIZE.
Proof.
  unfold blen, Fixture.huge_video. rewrite repeat_length.
  unfold BLUESKY_VIDEO_MAX_SIZE. lia.
Qed.


Lemma part000_handle_post_files `{Libs} env post w :
  files (Part000.handle_post env post w).2 = files w.
Proof.
  unfold Part000.handle_post, Part000.process_post, Part000.mastodonToRichText.
  rewrite try_catch_run, bind_run.
  destruct (content post ||| spoiler_text post ||| text post ||| Some "") as [h|];
    [|done].
  destruct (JS.truthy (Some h)); [|done].
  rewrite bind_run.
  destruct (bsky_facets env _) as [facets|]; cbn [lift ret throw]; [|done].
  cbn [rt_text].
  destruct (String.eqb _ ""); [done|].
  destruct (bool_decide _); [done|].
  rewrite bind_run.
  destruct (part000_media_loop_videos env post (media_attachments post)
              {| Part000.imageBuffers := []; Part000.videoBuffer := None;
                 Part000.skipDueToVideo := false |} w)
    as (l & w1 & -> & _ & Hfiles & _).
  destruct (Part000.skipDueToVideo l); [by rewrite <- Hfiles|].
  rewrite bind_run.
  match goal with
  | |- context [Part000.postToBlueSky env ?rt ?imgs ?vid w1] =>
      destruct (part000_postToBlueSky_spec env rt imgs vid w1)
        as (o & w2 & -> & _ & _ & _ & Hf2 & [[-> _]|[-> _]])
  end.
  - cbn. congruence.
  - cbn. congruence.
Qed.

(** X18. part_000 works in memory: a run writes, overwrites or deletes no file
    (the ledger apart, which the model keeps beside the files). *)
Theorem part000_writes_no_file `{Libs} (env : Env) (w : World) :
  files (Part000.main env w).2 = files w ∧
  ∀ post, files (Part000.handle_post env post w).2 = files w.
Proof.
  split; [|intros post; apply part000_handle_post_files].
  unfold Part000.main, Part000.fetchMastodonPosts.
  rewrite try_catch_run, bind_run.
  destruct (mastodon_statuses env) as [posts|]; cbn [lift ret throw]; [|done].
  rewrite bind_get. cbv zeta.
  destruct (bool_decide _); [done|].
  rewrite bind_run. destruct (bsky_login env); cbn [lift ret throw]; [|done].
  rewrite bind_run.
  assert (Hloop : ∀ ps w0, files (for_of ps (Part000.handle_post env) w0).2 = files w0 ∧
                           (for_of ps (Part000.handle_post env) w0).1 = Returned tt).
  { induction ps as [|p ps IH]; intros w0; [done|]. cbn [for_of]. rewrite bind_run.
    pose proof (part000_handle_post_files env p w0) as Hp.
    destruct (part000_handle_post_spec env p w0) as (w1 & ? & ? & Hrun & _).
    rewrite Hrun in *. cbn in Hp. destruct (IH w1) as [Hf Hr]. split; congruence. }
  destruct (Hloop (Part000.newPosts posts (postedIds w)) w) as [Hf Hr].
  destruct (for_of _ _ w) as [o w']. cbn in Hf, Hr. subst o. done.
Qed.

(** ** part_001: one post *)

Lemma try_catch_bind_returned {A B} (m : M A) (k : A → M B) (h : M B) a w w1 :
  m w = (Returned a, w1) → try_catch (bind m k) h w = try_catch (k a) h w1.
Proof. intros Hm. by rewrite !try_catch_run, bind_run, Hm. Qed.

Lemma text_rejected_dec `{Libs} post : text_rejected post ∨ ¬ text_rejected post.
Proof.
  unfold text_rejected. destruct (plain_text post) as [t|]; [|by left].
  destruct (decide (t = "")) as [?|?]; [left; by left|].
  destruct (decide (JS.length t > BLUESKY_MAX_CHARS)) as [?|?]; [left; by right|].
  right. by intros [?|?].
Qed.

Section Part001Posts.
Context `{Libs}.
Variable env : Env.

Lemma part001a_postToBlueSky_frame text mediaFiles w :
  ∃ o w', Part001a.postToBlueSky env text mediaFiles w = (o, w') ∧
    ledger_same w w' ∧ console w' = console w ∧ files w' = files w ∧
    ((o = Thrown ∧ feed w' = feed w) ∨
     (o = Returned tt ∧ ∃ r, feed w' = feed w ++ [r] ∧ req_text r = text ∧
        req_facets r = None ∧ embed_videos (req_embed r) = [])).
Proof.
  destruct (Part001a.postToBlueSky env text mediaFiles w) as [o w'] eqn:Hrun.
  pose proof (part001a_postToBlueSky_spec env text mediaFiles w o w' Hrun) as Hspec.
  exists o, w'. split; [done|].
  assert (Hframe : ledger_same w w' ∧ console w' = console w ∧ files w' = files w ∧
                   (o = Thrown → feed w' = feed w)).
  { revert Hrun. unfold Part001a.postToBlueSky. rewrite bind_run.
    destruct (bool_decide _).
    - rewrite bind_run.
      match goal with
      | |- context [for_of_with mediaFiles ?body ?init w] =>
          destruct (for_of_with_reading body (λ _ _, True) w) with
            (xs := mediaFiles) (done := @nil string) (s := init) as (o1 & Hr & Ho)
      end.
      { intros done [uploaded embed] x _. munfold.
        repeat case_match; simplify_eq/=; eauto. }
      { done. }
      rewrite Hr. destruct Ho as [->|([blobs embed] & -> & _)].
      + intros [= <- <-]. by repeat split.
      + unfold agent_post. munfold.
        repeat case_match; simplify_eq/=; intros [= <- <-]; by repeat split.
    - unfold agent_post. munfold.
      repeat case_match; simplify_eq/=; intros [= <- <-]; by repeat split. }
  destruct Hframe as (Hl & Hc & Hf & Hd). split_and!; try done.
  destruct Hspec as [->|(-> & embed & Hfeed & blobs & Hup & Hemb)]; [left; auto|right].
  split; [done|]. eexists. split; [exact Hfeed|]. cbn. split_and!; try done.
  destruct blobs; [destruct (List.filter is_mp4 mediaFiles)|].
  - by rewrite Hemb.
  - by destruct Hemb as (t & -> & _).
  - by rewrite Hemb.
Qed.

Lemma part001b_postToBlueSky_frame rt mediaFiles w :
  ∃ o w', Part001b.postToBlueSky env rt mediaFiles w = (o, w') ∧
    ledger_same w w' ∧ console w' = console w ∧ files w' = files w ∧
    ((o = Thrown ∧ feed w' = feed w) ∨
     (o = Returned tt ∧ ∃ r, feed w' = feed w ++ [r] ∧
        req_text r = Some (rt_text rt) ∧ req_facets r = Some (rt_facets rt))).
Proof.
  destruct (Part001b.postToBlueSky env rt mediaFiles w) as [o w'] eqn:Hrun.
  pose proof (part001b_postToBlueSky_spec env rt mediaFiles w o w' Hrun) as Hspec.
  exists o, w'. split; [done|].
  assert (Hframe : ledger_same w w' ∧ console w' = console w ∧ files w' = files w ∧
                   (o = Thrown → feed w' = feed w)).
  { revert Hrun. unfold Part001b.postToBlueSky. cbv zeta. rewrite bind_run.
    destruct (List.filter (λ f, JS.endsWith f ".mp4") mediaFiles) as [|videoPath rest].
    - destruct (bool_decide _).
      + rewrite bind_run.
        match goal with
        | |- context [for_of_with ?fs ?body ?init w] =>
            destruct (for_of_with_reading body (λ _ _, True) w) with
              (xs := fs) (done := @nil string) (s := init) as (o1 & Hr & Ho)
        end.
        { intros done uploaded x _. munfold.
          repeat case_match; simplify_eq/=; eauto. }
        { done. }
        rewrite Hr. destruct Ho as [->|(blobs & -> & _)].
        * intros [= <- <-]. by repeat split.
        * unfold agent_post. munfold.
          repeat case_match; simplify_eq/=; intros [= <- <-]; by repeat split.
      + unfold agent_post. munfold.
        repeat case_match; simplify_eq/=; intros [= <- <-]; by repeat split.
    - unfold agent_post. munfold.
      repeat case_match; simplify_eq/=; intros [= <- <-]; by repeat split. }
  destruct Hframe as (Hl & Hc & Hf & Hd). split_and!; try done.
  destruct Hspec as [->|(-> & embed & Hfeed & _)]; [left; auto|right].
  split; [done|]. eexists. split; [exact Hfeed|]. done.
Qed.

Lemma part001_mark_posted_run post w :
  Part001.mark_posted post w
  = (Returned tt,
     set_posted_ids_file (Some (postedIds w ++ [post_id post]))
       (set_postedIds (λ ids, ids ++ [post_id post]) w)).
Proof. reflexivity. Qed.

(** What follows the attachment loop in both halves of part_001: publish,
    record, delete the temp files, report; under the [catch] of the post. *)
Lemma part001_publish_tail post (publish : M unit) (P : PostRequest → Prop)
    mediaFiles w :
  (∃ o w', publish w = (o, w') ∧ ledger_same w w' ∧ console w' = console w ∧
     ((o = Thrown ∧ feed w' = feed w) ∨
      (o = Returned tt ∧ ∃ r, feed w' = feed w ++ [r] ∧ P r))) →
  ∃ w' d,
    try_catch (publish >> Part001.mark_posted post >>
               for_of mediaFiles unlinkSync >>
               console_log (LogReposted (post_id post)))
              (console_log (LogPostError (post_id post))) w = (Returned tt, w') ∧
    console w' = console w ++ [d] ∧
    ((d = LogPostError (post_id post) ∧ ledger_same w w' ∧ feed w' = feed w) ∨
     ((d = LogReposted (post_id post) ∨ d = LogPostError (post_id post)) ∧
      committed (post_id post) w w' ∧ ∃ r, feed w' = feed w ++ [r] ∧ P r)).
Proof.
  intros (o & w1 & Hrun & [Hi1 Hf1] & Hc1 & Hout).
  rewrite try_catch_run, bind_run, Hrun.
  destruct Hout as [[-> Hd1]|(-> & r & Hd1 & Hr)].
  { munfold. eexists _, _. split; [reflexivity|]. cbn. rewrite Hc1.
    split; [done|]. left. unfold ledger_same. cbn. by repeat split. }
  rewrite bind_run, part001_mark_posted_run, bind_run.
  set (w2 := set_postedIds (λ ids, ids ++ [post_id post]) w1).
  set (w3 := set_posted_ids_file (Some (postedIds w1 ++ [post_id post])) w2).
  destruct (unlink_loop_frame mediaFiles w3) as (o4 & w4 & Hrun4 & [Hi4 Hf4] & Hd4 & Hc4).
  rewrite Hrun4.
  assert (Hcom : committed (post_id post) w w4).
  { unfold committed. rewrite Hi4, Hf4. subst w3 w2. cbn. by rewrite Hi1. }
  destruct o4 as [[]|].
  - munfold. eexists _, _. split; [reflexivity|]. cbn. rewrite Hc4. subst w3 w2. cbn.
    rewrite Hc1. split; [done|]. right. split; [by left|].
    split; [exact Hcom|]. exists r. by rewrite Hd4.
  - munfold. eexists _, _. split; [reflexivity|]. cbn. rewrite Hc4. subst w3 w2. cbn.
    rewrite Hc1. split; [done|]. right. split; [by right|].
    split; [exact Hcom|]. exists r. by rewrite Hd4.
Qed.

Lemma part001a_settles :
  settles false (λ _, False) part001a_request (Part001a.handle_post env).
Proof.
  intros post w. unfold Part001a.handle_post, Part001a.process_post. cbv zeta.
  destruct (part001_media_loop_spec env post (media_attachments post) [] w)
    as (mediaFiles & w1 & Hloop & (Hi1 & Hf1 & Hd1 & lines & Hc1 & Hq1)).
  rewrite (try_catch_bind_returned _ _ _ _ _ _ Hloop).
  destruct (part001_publish_tail post
              (Part001a.postToBlueSky env
                 (content post ||| spoiler_text post ||| text post ||| Some "") mediaFiles)
              (part001a_request post) mediaFiles w1) as (w' & d & Hrun & Hc & Hout).
  { destruct (part001a_postToBlueSky_frame
                (content post ||| spoiler_text post ||| text post ||| Some "") mediaFiles w1)
      as (o & w2 & Hrun & Hl & Hc & _ & Hout).
    exists o, w2. by split_and!. }
  exists w'. split; [exact Hrun|]. exists lines, d.
  split; [by rewrite Hc, Hc1, app_assoc|]. split; [done|].
  split; [|split; [|done]].
  - destruct Hout as [(-> & _)|([-> | ->] & _)]; done.
  - unfold ledger_same, committed in *.
    destruct Hout as [(-> & [Hi Hf] & Hd)|(Hd & [Hi Hf] & r & Hfeed & Hr)]; [left|right].
    + split_and!; try congruence; done.
    + split; [split; congruence|]. left. exists r. split; [congruence|done].
Qed.

Lemma part001b_settles :
  settles false text_rejected (part001b_request env) (Part001b.handle_post env).
Proof.
  intros post w.
  assert (Hrej : text_rejected post →
            ∃ w', Part001b.handle_post env post w = (Returned tt, w') ∧
                  settled false text_rejected (part001b_request env) post w w').
  { intros Hr. destruct (part001b_text_rejected env post w Hr) as (d & Hrun & Hd).
    eexists. split; [exact Hrun|]. exists [], d. cbn.
    split; [done|]. split; [constructor|].
    unfold ledger_same. cbn.
    repeat (apply elem_of_cons in Hd as [->|Hd]); [..|by apply elem_of_nil in Hd];
      (split; [done|]); (split; [|done]); left; by split_and!. }
  destruct (text_rejected_dec post) as [Hr|Hnr]; [by apply Hrej|].
  pose proof Hnr as Hnr'. revert Hnr.
  unfold Part001b.handle_post, Part001b.process_post, Part001b.mastodonToRichText,
    Part000.mastodonToRichText.
  unfold text_rejected at 1, plain_text at 1.
  destruct (content post ||| spoiler_text post ||| text post ||| Some "") as [h|] eqn:Hh;
    [|by intros []].
  destruct (JS.truthy (Some h)) eqn:Ht; [|by intros []].
  intros Hnr.
  set (t := JS.trim (jsdom_text_content (strip_twitter_urls h))) in *.
  assert (Hplain : plain_text post = Some t) by (unfold plain_text; by rewrite Hh, Ht).
  rewrite try_catch_run, bind_run, bind_run.
  destruct (bsky_facets env t) as [facets|] eqn:Hfacets; cbn [lift ret throw].
  2:{ munfold. eexists. split; [reflexivity|]. exists [], (LogPostError (post_id post)).
      cbn. unfold ledger_same. cbn. split_and!; try done; [constructor|].
      left. by split_and!. }
  cbn [rt_text].
  destruct (String.eqb_spec t "") as [He|He]; [exfalso; apply Hnr; by left|].
  destruct (bool_decide (JS.length t > BLUESKY_MAX_CHARS)) eqn:Hlen; bool_hyps;
    [exfalso; apply Hnr; by right|].
  rewrite <- try_catch_run.
  destruct (part001_media_loop_spec env post (media_attachments post) [] w)
    as (mediaFiles & w1 & Hloop & (Hi1 & Hf1 & Hd1 & lines & Hc1 & Hq1)).
  rewrite (try_catch_bind_returned _ _ _ _ _ _ Hloop).
  destruct (part001_publish_tail post
              (Part001b.postToBlueSky env {| rt_text := t; rt_facets := facets |} mediaFiles)
              (λ r, req_text r = Some t ∧ req_facets r = Some facets) mediaFiles w1)
    as (w' & d & Hrun & Hc & Hout).
  { destruct (part001b_postToBlueSky_frame {| rt_text := t; rt_facets := facets |}
                mediaFiles w1) as (o & w2 & Hrun & Hl & Hc & _ & Hout).
    exists o, w2. by split_and!. }
  exists w'. split; [exact Hrun|]. exists lines, d.
  split; [by rewrite Hc, Hc1, app_assoc|]. split; [done|].
  split; [|split; [|done]].
  - destruct Hout as [(-> & _)|([-> | ->] & _)]; done.
  - unfold ledger_same, committed in *.
    destruct Hout as [(-> & [Hi Hf] & Hd)|(Hd & [Hi Hf] & r & Hfeed & Hr1 & Hr2)];
      [left|right].
    + split_and!; try congruence; done.
    + split; [split; congruence|]. left. exists r. split; [congruence|].
      unfold part001b_request. rewrite Hplain. split; [done|]. split; [done|].
      exists t. rewrite Hfacets, Hr2. by split_and!.
Qed.

End Part001Posts.

(** ** Temp files after a post *)

Section TempFiles.
Context `{Libs}.
Variable env : Env.

Lemma rejected_post_throws {A} (m : M A) (f : A → PostRequest) w :
  (∀ r, bsky_post env r = false) →
  (∀ w0, ∃ o, m w0 = (o, w0)) →
  bind m (λ a, agent_post env (f a)) w = (Thrown, w).
Proof.
  intros Hrej Hread. rewrite bind_run. destruct (Hread w) as [[a|] ->]; [|done].
  unfold agent_post. by rewrite Hrej.
Qed.

Lemma reading_loop_reads {S} (body : S → string → M S) fs (s : S) w :
  (∀ s x, body s x w = (Thrown, w) ∨ ∃ s', body s x w = (Returned s', w)) →
  ∃ o, for_of_with fs body s w = (o, w).
Proof.
  intros Hbody.
  destruct (for_of_with_reading body (λ _ _, True) w) with
    (xs := fs) (done := @nil string) (s := s) as (o & Hr & _); [|done|by exists o].
  intros done s0 x _. destruct (Hbody s0 x) as [?|[s' ?]]; eauto.
Qed.

Lemma repost_postToBlueSky_rejected text mediaFiles w :
  (∀ r, bsky_post env r = false) →
  Repost.postToBlueSky env text mediaFiles w = (Thrown, w).
Proof.
  intros Hrej. unfold Repost.postToBlueSky. apply rejected_post_throws; [done|].
  intros w0. destruct (bool_decide _); [|by eexists].
  rewrite bind_run.
  match goal with
  | |- context [for_of_with mediaFiles ?body ?init w0] =>
      destruct (reading_loop_reads body mediaFiles init w0) as [o ->]
  end.
  - intros s x. munfold. repeat case_match; simplify_eq/=; eauto.
  - destruct o; by eexists.
Qed.

Lemma part001a_postToBlueSky_rejected text mediaFiles w :
  (∀ r, bsky_post env r = false) →
  Part001a.postToBlueSky env text mediaFiles w = (Thrown, w).
Proof.
  intros Hrej. unfold Part001a.postToBlueSky. apply rejected_post_throws; [done|].
  intros w0. destruct (bool_decide _); [|by eexists].
  rewrite bind_run.
  match goal with
  | |- context [for_of_with mediaFiles ?body ?init w0] =>
      destruct (reading_loop_reads body mediaFiles init w0) as [o ->]
  end.
  - intros [uploaded embed] x. munfold. repeat case_match; simplify_eq/=; eauto.
  - destruct o as [[uploaded embed]|]; [|by eexists].
    destruct (bool_decide _); by eexists.
Qed.

Lemma part001b_postToBlueSky_rejected rt mediaFiles w :
  (∀ r, bsky_post env r = false) →
  Part001b.postToBlueSky env rt mediaFiles w = (Thrown, w).
Proof.
  intros Hrej. unfold Part001b.postToBlueSky. cbv zeta.
  apply rejected_post_throws; [done|].
  intros w0.
  destruct (List.filter (λ f, JS.endsWith f ".mp4") mediaFiles) as [|videoPath rest].
  - destruct (bool_decide _); [|by eexists].
    rewrite bind_run.
    match goal with
    | |- context [for_of_with ?fs ?body ?init w0] =>
        destruct (reading_loop_reads body fs init w0) as [o ->]
    end.
    + intros s x. munfold. repeat case_match; simplify_eq/=; eauto.
    + destruct o; by eexists.
  - munfold. repeat case_match; simplify_eq/=; by eexists.
Qed.

Lemma repost_media_loop_files post medias : ∀ mediaFiles w,
  ∃ mediaFiles' w',
    for_of_with medias (Repost.process_media env post) mediaFiles w
      = (Returned mediaFiles', w') ∧
    quietly w w' ∧
    (∀ q, q ∉ mediaFiles' → files w' !! q = files w !! q) ∧
    (∀ q, q ∈ mediaFiles → q ∈ mediaFiles') ∧
    (∀ q, is_Some (files w !! q) → is_Some (files w' !! q)) ∧
    (∀ m, m ∈ medias → is_Some (media_body env (media_url m)) →
       is_Some (files w' !! path_join Repost.TEMP_MEDIA_DIR (Repost.media_filename post m))).
Proof.
  induction medias as [|m medias IH]; intros mediaFiles w; cbn [for_of_with].
  - exists mediaFiles, w. split; [done|]. split; [apply quietly_refl|].
    split_and!; auto. by intros m ?%elem_of_nil.
  - rewrite bind_run. unfold Repost.process_media at 1, Repost.downloadMedia.
    cbv zeta. rewrite try_catch_run, bind_run, bind_run.
    set (path := path_join Repost.TEMP_MEDIA_DIR (Repost.media_filename post m)).
    destruct (media_body env (media_url m)) as [body|] eqn:Hbody; cbn [lift ret throw].
    + unfold writeFileSync. rewrite bind_modify. cbn [ret].
      destruct (IH (mediaFiles ++ [path]) (set_files (insert path body) w))
        as (mf & w' & -> & Hq & Hout & Hin & Hkeep & Hall).
      cbn in Hout, Hkeep.
      exists mf, w'. split; [done|].
      split; [eapply quietly_trans; [|exact Hq]; quiet_frame|].
      split_and!.
      * intros q Hq'. rewrite Hout by done. apply lookup_insert_ne.
        intros <-. apply Hq', Hin, elem_of_app. right. by left.
      * intros q Hq'. apply Hin, elem_of_app. by left.
      * intros q Hq'. apply Hkeep.
        destruct (decide (q = path)) as [->|?];
          [rewrite lookup_insert_eq; by eexists | by rewrite lookup_insert_ne].
      * intros m' [->|Hm']%elem_of_cons Hsome; [|by apply Hall].
        apply Hkeep. fold path. rewrite lookup_insert_eq. by eexists.
    + munfold.
      destruct (IH mediaFiles
                  {| files := files w; postedIds := postedIds w;
                     posted_ids_file := posted_ids_file w; feed := feed w;
                     console := console w ++ [LogMediaError (post_id post)] |})
        as (mf & w' & -> & Hq & Hout & Hin & Hkeep & Hall).
      cbn in Hout, Hkeep.
      exists mf, w'. split; [done|].
      split; [eapply quietly_trans; [|exact Hq]; quiet_frame|].
      split_and!; auto.
      intros m' [->|Hm']%elem_of_cons Hsome; [|by apply Hall].
      rewrite Hbody in Hsome. by destruct Hsome.
Qed.

End TempFiles.



(** X20. repost.js leaves no temp file behind a post it reports as reposted:
    when the turn for a post ends with the line [Reposted Mastodon post ...],
    every path is either no file any more or holds what it held before the
    turn. *)
Theorem repost_reposted_post_leaves_no_temp_file `{Libs} (env : Env) (post : Post)
    (w : World) :
  last (console (Repost.handle_post env post w).2) = Some (LogReposted (post_id post)) →
  ∀ q, files (Repost.handle_post env post w).2 !! q = None ∨
       files (Repost.handle_post env post w).2 !! q = files w !! q.
Proof.
  destruct (repost_media_loop_files env post (media_attachments post) [] w)
    as (mf & w1 & Hloop & _ & Hout & _).
  destruct (Repost.handle_post env post w) as [o5 w5] eqn:Hrun. cbn [snd].
  revert Hrun. unfold Repost.handle_post, Repost.process_post. cbv zeta.
  rewrite (try_catch_bind_returned _ _ _ _ _ _ Hloop).
  rewrite try_catch_run, bind_run.
  destruct (repost_postToBlueSky_spec env
              (content post ||| spoiler_text post ||| text post) mf w1)
    as (o & w2 & -> & _ & Hc2 & Hf2 & [[-> _]|[-> _]] & _).
  { intros [= <- <-]. cbn. rewrite last_snoc. discriminate. }
  rewrite bind_modify. unfold savePostedIds. rewrite bind_run, bind_get.
  unfold modify at 1. cbv beta. rewrite bind_run.
  match goal with
  | |- context [for_of mf unlinkSync ?w3] =>
      destruct (unlink_loop_spec mf w3) as (o4 & w4 & -> & Hout4 & Hany4 & _ & Hgone4)
  end.
  cbn in Hout4, Hany4.
  destruct o4 as [[]|]; intros [= <- <-].
  - intros _ q. cbn. destruct (decide (q ∈ mf)) as [Hin|Hnin].
    + left. by apply Hgone4.
    + right. by rewrite Hout4, Hf2, Hout.
  - cbn. rewrite last_snoc. discriminate.
Qed.

Lemma repost_reposted_post_leaves_no_temp_file_witness :
  files (@Repost.handle_post Fixture.libs
           (Fixture.online [Fixture.bare_post] Fixture.bare_media)
           Fixture.bare_post Fixture.fresh).2 !! "/tmp/mastodon_media/9_90.gif" = None ∨
  files (@Repost.handle_post Fixture.libs
           (Fixture.online [Fixture.bare_post] Fixture.bare_media)
           Fixture.bare_post Fixture.fresh).2 !! "/tmp/mastodon_media/9_90.gif"
    = files Fixture.fresh !! "/tmp/mastodon_media/9_90.gif".
Proof.
  refine (@repost_reposted_post_leaves_no_temp_file Fixture.libs
            (Fixture.online [Fixture.bare_post] Fixture.bare_media)
            Fixture.bare_post Fixture.fresh _ "/tmp/mastodon_media/9_90.gif").
  reflexivity.
Defined.

(** ** Whole runs of every draft *)

Section Settling.
Variable skips : bool.
Variable rejected : Post → Prop.
Variable sent : Post → PostRequest → Prop.
Variable handle : Post → M unit.
Hypothesis Hhandle : settles skips rejected sent handle.

Lemma settled_loop ps : ∀ w,
  ∃ w' lines added published new,
    for_of ps handle w = (Returned tt, w') ∧
    console w' = console w ++ lines ∧
    omap line_post lines = post_id <$> ps ∧
    postedIds w' = postedIds w ++ added ∧
    added `sublist_of` (post_id <$> ps) ∧
    ((added = [] ∧ posted_ids_file w' = posted_ids_file w) ∨
     posted_ids_file w' = Some (postedIds w')) ∧
    feed w' = feed w ++ new ∧
    published `sublist_of` ps ∧ Forall2 sent published new ∧
    (post_id <$> published) `sublist_of` added ∧
    (skips = false → post_id <$> published = added) ∧
    omap reposted_id lines `sublist_of` (post_id <$> published) ∧
    (Forall (λ l, is_post_error l = false) lines →
     ∀ p, p ∈ ps → post_id p ∈ added ∨ rejected p) ∧
    (Forall rejected ps → added = [] ∧ new = []).
Proof.
  induction ps as [|p ps IH]; intros w; cbn [for_of].
  - exists w, [], [], [], []. rewrite !app_nil_r. cbn.
    split_and!; auto using sublist_nil.
    intros _ p Hp. by apply elem_of_nil in Hp.
  - destruct (Hhandle p w) as (w1 & Hrun & l1 & d & Hc & Hq & Hlp & Hcase & Hrej).
    destruct (IH w1) as (w2 & l2 & add2 & pub2 & new2 & Hrun2 & Hc2 & Hl2 & Hi2 & Hsub2
                         & Hfile2 & Hf2 & Hpub2 & Hsent2 & Hrec2 & Hall2 & Hrp2 & Hok2 & Hrej2).
    rewrite bind_run, Hrun.
    assert (Hrp1 : ∀ l, omap reposted_id ((l1 ++ [d]) ++ l) = omap reposted_id [d] ++ omap reposted_id l).
    { intros l. by rewrite !omap_app, quiet_reposted_id by done. }
    assert (Hlines : omap line_post ((l1 ++ [d]) ++ l2) = post_id <$> p :: ps).
    { rewrite !omap_app, Hl2, quiet_line_post by done. cbn. by rewrite Hlp. }
    destruct Hcase as [(Hsame & Hfeed & Hnorep & Hno)|(Hcom & Hout)].
    + destruct Hsame as [Hi1 Hfile1].
      exists w2, ((l1 ++ [d]) ++ l2), add2, pub2, new2.
      split_and!; auto.
      * by rewrite Hc2, Hc, !app_assoc.
      * by rewrite Hi2, Hi1.
      * cbn. by apply sublist_cons.
      * destruct Hfile2 as [[-> Hfile2]| Hfile2]; [left|right]; [split|]; congruence.
      * by rewrite Hf2, Hfeed.
      * by apply sublist_cons.
      * rewrite Hrp1. cbn. by rewrite Hnorep.
      * intros Hne q [->|Hq']%elem_of_cons.
        -- apply Forall_app in Hne as [Hne _]. apply Forall_app in Hne as [_ Hne].
           rewrite Forall_singleton in Hne. auto.
        -- apply Forall_app in Hne as [_ Hne]. auto.
      * intros [_ Hps]%Forall_cons. auto.
    + destruct Hcom as [Hi1 Hfile1].
      assert (Hfile : posted_ids_file w2 = Some (postedIds w2)).
      { destruct Hfile2 as [[-> Hfile2]| Hfile2]; [|done].
        rewrite app_nil_r in Hi2. congruence. }
      assert (Hnotrej : ¬ rejected p).
      { intros [[Hi _] _]%Hrej. rewrite Hi in Hi1.
        apply (f_equal length) in Hi1. rewrite length_app in Hi1. cbn in Hi1. lia. }
      destruct Hout as [(r & Hfeed & Hr)|(Hskip & Hfeed & Hnorep)].
      * exists w2, ((l1 ++ [d]) ++ l2), (post_id p :: add2), (p :: pub2), (r :: new2).
        split_and!; auto.
        -- by rewrite Hc2, Hc, !app_assoc.
        -- by rewrite Hi2, Hi1, <- app_assoc.
        -- cbn. by apply sublist_skip.
        -- by rewrite Hf2, Hfeed, <- app_assoc.
        -- by apply sublist_skip.
        -- cbn. by apply sublist_skip.
        -- intros Hs. cbn. by rewrite Hall2.
        -- rewrite Hrp1. cbn. destruct (reposted_id d) as [id|] eqn:Hd.
           ++ assert (id = post_id p) as -> by (destruct d; cbn in *; congruence).
              cbn. by apply sublist_skip.
           ++ cbn. by apply sublist_cons.
        -- intros Hne q [->|Hq']%elem_of_cons.
           ++ left. by left.
           ++ apply Forall_app in Hne as [_ Hne].
              destruct (Hok2 Hne q Hq') as [?|?]; [left; by right | by right].
        -- intros [? _]%Forall_cons. done.
      * exists w2, ((l1 ++ [d]) ++ l2), (post_id p :: add2), pub2, new2.
        split_and!; auto.
        -- by rewrite Hc2, Hc, !app_assoc.
        -- by rewrite Hi2, Hi1, <- app_assoc.
        -- cbn. by apply sublist_skip.
        -- by rewrite Hf2, Hfeed.
        -- by apply sublist_cons.
        -- by apply sublist_cons.
        -- intros Hs. congruence.
        -- rewrite Hrp1. cbn. by rewrite Hnorep.
        -- intros Hne q [->|Hq']%elem_of_cons.
           ++ left. by left.
           ++ apply Forall_app in Hne as [_ Hne].
              destruct (Hok2 Hne q Hq') as [?|?]; [left; by right | by right].
        -- intros [? _]%Forall_cons. done.
Qed.

End Settling.

Lemma part000_settles `{Libs} env :
  settles true text_rejected part000_request (Part000.handle_post env).
Proof.
  intros post w.
  destruct (part000_handle_post_spec env post w) as (w' & lines & d & Hrun & Hc & Hq & Hd).
  exists w'. split; [exact Hrun|]. exists lines, d.
  split; [done|]. split; [done|].
  split; [by destruct d; try done; destruct Hd as [-> _]|].
  split.
  - destruct d; try done.
    + destruct Hd as (-> & Hcom & Hnr & r & Hfeed & Hv & Ht).
      right. split; [done|]. left. exists r. split; [done|]. by split_and!.
    + destruct Hd as (-> & Hr & _ & Hl & Hfeed). left. by split_and!.
    + destruct Hd as (-> & Hr & _ & Hl & Hfeed). left. by split_and!.
    + destruct Hd as (-> & Hcom & Hfeed). right. split; [done|]. right. by split_and!.
    + destruct Hd as (-> & Hl & Hfeed). left. by split_and!.
  - intros Hr. destruct (part000_text_rejected env post w Hr) as (d' & Hrun' & _).
    rewrite Hrun' in Hrun. injection Hrun as <-. by split.
Qed.

Lemma repost_settles `{Libs} env :
  settles false (λ _, False) (repost_request env) (Repost.handle_post env).
Proof.
  intros post w.
  destruct (repost_handle_post_spec env post w)
    as (w' & lines & d & Hrun & Hc & Hq & Hd & _).
  exists w'. split; [exact Hrun|]. exists lines, d.
  split; [done|]. split; [done|].
  split; [|split; [|done]].
  - destruct Hd as [(-> & _)|([-> | ->] & _)]; done.
  - destruct Hd as [(-> & Hl & Hfeed)|(_ & Hcom & r & Hfeed & Hr)]; [left|right].
    + by split_and!.
    + split; [done|]. left. by exists r.
Qed.

Lemma newPosts_nil (posts : list Post) (ids : list string) :
  Part000.newPosts posts ids = [] ↔ Forall (λ p, post_id p ∈ ids) posts.
Proof.
  rewrite Forall_forall. split.
  - intros Hnil p Hp. destruct (decide (post_id p ∈ ids)) as [|Hn]; [done|].
    assert (Hin : p ∈ Part000.newPosts posts ids) by (by apply elem_of_newPosts).
    rewrite Hnil in Hin. by apply elem_of_nil in Hin.
  - intros Hall. destruct (Part000.newPosts posts ids) as [|p ps] eqn:Hnew; [done|].
    assert (Hin : p ∈ Part000.newPosts posts ids) by (rewrite Hnew; by left).
    apply elem_of_newPosts in Hin as [Hp Hn]. by destruct Hn; apply Hall.
Qed.

Section RunShapes.
Context `{Libs}.
Variable env : Env.

Lemma part000_main_shape w :
  Part000.main env w = run_with env (Part000.handle_post env) w.
Proof. reflexivity. Qed.

Lemma part001b_main_shape w :
  Part001b.main env w = run_with env (Part001b.handle_post env) w.
Proof. reflexivity. Qed.

Lemma rev_filter_shape (handle : Post → M unit) w :
  try_catch
    (do posts <- lift (mastodon_statuses env);
     do ids <- get postedIds;
     let newPosts := List.filter (λ post, negb (includes ids (post_id post))) posts in
     if bool_decide (length newPosts = 0%nat) then
       console_log LogNoNewPosts >> ret 0
     else
       lift (if bsky_login env then Some tt else None) >>
       for_of (rev newPosts) handle >>
       ret 0)
    (console_log LogFatal >> ret 1) w
  = run_with env handle w.
Proof.
  unfold run_with, Part000.newPosts. rewrite !try_catch_run, !bind_run.
  destruct (mastodon_statuses env) as [posts|]; cbn [lift ret throw]; [|done].
  rewrite !bind_get. cbv zeta.
  match goal with
  | |- context [bool_decide (length (rev ?l) = 0%nat)] =>
      rewrite (bool_decide_ext (length (rev l) = 0%nat) (length l = 0%nat))
        by (by rewrite List.length_rev)
  end.
  done.
Qed.

Lemma repost_main_shape w :
  Repost.main env w = run_with env (Repost.handle_post env) w.
Proof. apply rev_filter_shape. Qed.

Lemma part001a_main_shape w :
  Part001a.main env w = run_with env (Part001a.handle_post env) w.
Proof. apply rev_filter_shape. Qed.

End RunShapes.

Section RunWith.
Variable skips : bool.
Variable rejected : Post → Prop.
Variable sent : Post → PostRequest → Prop.
Variable handle : Post → M unit.
Hypothesis Hhandle : settles skips rejected sent handle.
Variable env : Env.

Lemma run_with_fatal w :
  mastodon_statuses env = None ∨
  (bsky_login env = false ∧
   ∃ posts, mastodon_statuses env = Some posts ∧
            ¬ Forall (λ p, post_id p ∈ postedIds w) posts) →
  run_with env handle w = (Returned 1, set_console (λ c, c ++ [LogFatal]) w).
Proof.
  unfold run_with. rewrite try_catch_run, bind_run.
  intros [->|(Hlogin & posts & -> & Hnew)]; [done|].
  cbn [lift ret]. rewrite bind_get. cbv zeta.
  rewrite bool_decide_eq_false_2.
  - by rewrite Hlogin.
  - intros Hlen. apply Hnew, newPosts_nil. by apply nil_length_inv.
Qed.

Lemma run_with_nothing_new w posts :
  mastodon_statuses env = Some posts →
  Forall (λ p, post_id p ∈ postedIds w) posts →
  run_with env handle w = (Returned 0, set_console (λ c, c ++ [LogNoNewPosts]) w).
Proof.
  intros Hposts Hall%newPosts_nil. unfold run_with.
  rewrite try_catch_run, bind_run, Hposts. cbn [lift ret]. rewrite bind_get. cbv zeta.
  by rewrite Hall.
Qed.

Lemma run_with_loop w posts :
  mastodon_statuses env = Some posts → bsky_login env = true →
  ¬ Forall (λ p, post_id p ∈ postedIds w) posts →
  ∃ w', for_of (Part000.newPosts posts (postedIds w)) handle w = (Returned tt, w') ∧
        run_with env handle w = (Returned 0, w').
Proof.
  intros Hposts Hlogin Hnew.
  destruct (settled_loop _ _ _ _ Hhandle (Part000.newPosts posts (postedIds w)) w)
    as (w' & _ & _ & _ & _ & Hrun & _).
  exists w'. split; [done|].
  unfold run_with. rewrite try_catch_run, bind_run, Hposts. cbn [lift ret].
  rewrite bind_get. cbv zeta.
  rewrite bool_decide_eq_false_2.
  - rewrite Hlogin. cbn [lift]. by rewrite bind_ret, bind_run, Hrun.
  - intros Hlen. apply Hnew, newPosts_nil. by apply nil_length_inv.
Qed.

(** The run as a whole: what the console, the ledger and the feed gained. *)
Lemma run_with_spec w :
  ∃ code lines added published new,
    run_with env handle w = (Returned code, (run_with env handle w).2) ∧
    (code = 0 ∨ code = 1) ∧
    console (run_with env handle w).2 = console w ++ lines ∧
    postedIds (run_with env handle w).2 = postedIds w ++ added ∧
    ((added = [] ∧ posted_ids_file (run_with env handle w).2 = posted_ids_file w) ∨
     posted_ids_file (run_with env handle w).2
       = Some (postedIds (run_with env handle w).2)) ∧
    feed (run_with env handle w).2 = feed w ++ new ∧
    Forall2 sent published new ∧
    (post_id <$> published) `sublist_of` added ∧
    (skips = false → post_id <$> published = added) ∧
    omap reposted_id lines `sublist_of` (post_id <$> published) ∧
    (∀ posts, mastodon_statuses env = Some posts →
       published `sublist_of` Part000.newPosts posts (postedIds w) ∧
       added `sublist_of` (post_id <$> Part000.newPosts posts (postedIds w)) ∧
       (bsky_login env = true →
        code = 0 ∧
        omap line_post lines = post_id <$> Part000.newPosts posts (postedIds w)) ∧
       (code = 0 → Forall (λ l, is_post_error l = false) lines →
        ∀ p, p ∈ Part000.newPosts posts (postedIds w) → post_id p ∈ added ∨ rejected p) ∧
       (Forall rejected (Part000.newPosts posts (postedIds w)) → new = [])) ∧
    (mastodon_statuses env = None → added = [] ∧ new = []).
Proof.
  destruct (mastodon_statuses env) as [posts|] eqn:Hposts.
  2:{ rewrite run_with_fatal by (by left).
      exists 1, [LogFatal], [], [], []. cbn. rewrite !app_nil_r.
      split_and!; try done; auto using sublist_nil_l; by constructor. }
  destruct (decide (Forall (λ p, post_id p ∈ postedIds w) posts)) as [Hall|Hnew].
  { rewrite (run_with_nothing_new _ posts) by done.
    exists 0, [LogNoNewPosts], [], [], []. cbn. rewrite !app_nil_r.
    apply newPosts_nil in Hall.
    split_and!; try done; auto using sublist_nil_l; try (by constructor).
    intros ? [= <-]. rewrite Hall. split_and!; try done.
    intros _ _ p Hp. by apply elem_of_nil in Hp. }
  destruct (bsky_login env) eqn:Hlogin.
  2:{ rewrite run_with_fatal by (right; eauto).
      exists 1, [LogFatal], [], [], []. cbn. rewrite !app_nil_r.
      split_and!; try done; auto using sublist_nil_l; try (by constructor).
      intros ? [= <-]. split_and!; try done; auto using sublist_nil_l. }
  destruct (settled_loop _ _ _ _ Hhandle (Part000.newPosts posts (postedIds w)) w)
    as (w' & lines & added & published & new & Hloop & Hc & Hl & Hi & Hsub & Hfile & Hf
        & Hpub & Hsent & Hrec & Hall & Hrp & Hok & Hrej).
  destruct (run_with_loop w posts) as (w'' & Hloop' & ->); [done..|].
  rewrite Hloop in Hloop'. injection Hloop' as <-.
  exists 0, lines, added, published, new. cbn [fst snd].
  split_and!; auto; [|done].
  intros ? [= <-]. split_and!; auto. intros Hr. by apply Hrej.
Qed.

End RunWith.

Lemma rev_reverse {A} (l : list A) : rev l = reverse l.
Proof. exact (List.rev_alt l). Qed.

Section RunWithFacts.
Variable skips : bool.
Variable rejected : Post → Prop.
Variable sent : Post → PostRequest → Prop.
Variable handle : Post → M unit.
Hypothesis Hhandle : settles skips rejected sent handle.
Variable env : Env.

Lemma run_with_exit w :
  match mastodon_statuses env with
  | None => run_with env handle w = (Returned 1, set_console (λ c, c ++ [LogFatal]) w)
  | Some posts =>
      if decide (Forall (λ p, post_id p ∈ postedIds w) posts) then
        run_with env handle w = (Returned 0, set_console (λ c, c ++ [LogNoNewPosts]) w)
      else if bsky_login env then (run_with env handle w).1 = Returned 0
      else run_with env handle w = (Returned 1, set_console (λ c, c ++ [LogFatal]) w)
  end.
Proof.
  destruct (mastodon_statuses env) as [posts|] eqn:Hposts.
  2:{ apply run_with_fatal. by left. }
  destruct (decide _) as [Hall|Hnew]; [by apply (run_with_nothing_new _ _ _ posts)|].
  destruct (bsky_login env) eqn:Hlogin.
  - destruct (run_with_loop _ _ _ _ Hhandle env w posts) as (w' & _ & ->); done.
  - apply run_with_fatal. right. eauto.
Qed.

Lemma run_with_order w posts :
  mastodon_statuses env = Some posts → bsky_login env = true →
  ∃ w' published new,
    run_with env handle (boot w) = (Returned 0, w') ∧
    omap line_post (console w') = post_id <$> Part000.newPosts posts (postedIds (boot w)) ∧
    published `sublist_of` Part000.newPosts posts (postedIds (boot w)) ∧
    omap reposted_id (console w') `sublist_of` (post_id <$> published) ∧
    feed w' = feed w ++ new ∧ Forall2 sent published new.
Proof.
  intros Hposts Hlogin.
  destruct (run_with_spec _ _ _ _ Hhandle env (boot w))
    as (code & lines & added & published & new & Hrun & _ & Hc & _ & _ & Hf & Hsent & _ & _
        & Hrp & Hsome & _).
  destruct (Hsome posts Hposts) as (Hpub & _ & Hord & _).
  destruct (Hord Hlogin) as [-> Hlines].
  exists (run_with env handle (boot w)).2, published, new.
  cbn in Hc. rewrite Hc. by split_and!.
Qed.

Lemma run_with_ledger w :
  ∃ added,
    postedIds (run_with env handle w).2 = postedIds w ++ added ∧
    (∀ posts, mastodon_statuses env = Some posts →
       added `sublist_of` (post_id <$> Part000.newPosts posts (postedIds w))) ∧
    (mastodon_statuses env = None → added = []) ∧
    ((added = [] ∧ posted_ids_file (run_with env handle w).2 = posted_ids_file w) ∨
     posted_ids_file (run_with env handle w).2
       = Some (postedIds (run_with env handle w).2)) ∧
    (synced w → synced (run_with env handle w).2).
Proof.
  destruct (run_with_spec _ _ _ _ Hhandle env w)
    as (code & lines & added & published & new & Hrun & _ & Hc & Hi & Hfile & Hf & Hsent
        & _ & _ & Hrp & Hsome & Hnone).
  exists added. split_and!; try done.
  - intros posts Hposts. by destruct (Hsome posts Hposts) as (_ & ? & _).
  - intros Hn. by destruct (Hnone Hn).
  - unfold synced. intros Hs.
    destruct Hfile as [[-> Hfile]| ->]; [|done].
    by rewrite Hfile, Hi, app_nil_r.
Qed.

Lemma run_with_recorded w :
  ∃ added published new,
    postedIds (run_with env handle w).2 = postedIds w ++ added ∧
    feed (run_with env handle w).2 = feed w ++ new ∧
    Forall2 sent published new ∧
    (post_id <$> published) `sublist_of` added ∧
    (skips = false → post_id <$> published = added).
Proof.
  destruct (run_with_spec _ _ _ _ Hhandle env w)
    as (code & lines & added & published & new & Hrun & _ & Hc & Hi & Hfile & Hf & Hsent
        & Hrec & Hall & _).
  exists added, published, new. by split_and!.
Qed.

Lemma run_with_nodup w posts :
  mastodon_statuses env = Some posts → NoDup (post_id <$> posts) →
  NoDup (postedIds w) → NoDup (postedIds (run_with env handle w).2).
Proof.
  intros Hposts Hnd Hw.
  destruct (run_with_ledger w) as (added & -> & Hsub & _).
  specialize (Hsub posts Hposts).
  assert (Hnew : NoDup (post_id <$> Part000.newPosts posts (postedIds w))).
  { unfold Part000.newPosts. rewrite rev_reverse.
    rewrite reverse_Permutation.
    eapply sublist_NoDup; [exact Hnd|]. apply fmap_sublist.
    clear. induction posts as [|p posts IH]; cbn; [constructor|].
    destruct (negb _); [by apply sublist_skip | by apply sublist_cons]. }
  apply NoDup_app. split; [done|]. split; [|by eapply sublist_NoDup].
  intros id Hid Hadd.
  pose proof (elem_of_sublist _ _ _ Hadd Hsub) as Hin.
  apply list_elem_of_fmap in Hin as (p & -> & Hp).
  apply elem_of_newPosts in Hp as [_ Hp]. done.
Qed.

End RunWithFacts.

Lemma run_with_rerun skips (rejected : Post → Prop) sent1 sent2 h1 h2 env1 env2 w :
  settles skips rejected sent1 h1 → settles skips rejected sent2 h2 →
  mastodon_statuses env2 = mastodon_statuses env1 →
  (run_with env1 h1 (boot w)).1 = Returned 0 →
  Forall (λ l, is_post_error l = false) (console (run_with env1 h1 (boot w)).2) →
  feed (run_with env2 h2 (boot (run_with env1 h1 (boot w)).2)).2
    = feed (run_with env1 h1 (boot w)).2 ∧
  (∀ posts p, mastodon_statuses env1 = Some posts → p ∈ posts →
     post_id p ∈ postedIds (boot (run_with env1 h1 (boot w)).2) ∨ rejected p) ∧
  ((∀ p, ¬ rejected p) →
   console (run_with env2 h2 (boot (run_with env1 h1 (boot w)).2)).2 = [LogNoNewPosts]).
Proof.
  intros Hh1 Hh2 Henv Hcode Hlines.
  destruct (run_with_spec _ _ _ _ Hh1 env1 (boot w))
    as (code & lines & added & published & new & Hrun & _ & Hc & Hi & Hfile & Hf & _
        & _ & _ & _ & Hsome & _).
  set (w1 := (run_with env1 h1 (boot w)).2) in *.
  rewrite Hrun in Hcode. cbn in Hcode. injection Hcode as ->.
  cbn in Hc. rewrite Hc in Hlines.
  destruct (mastodon_statuses env1) as [posts|] eqn:Hposts.
  2:{ rewrite (run_with_fatal h1 env1 (boot w)) in Hrun by (by left). done. }
  destruct (Hsome posts eq_refl) as (_ & _ & _ & Hok & _).
  specialize (Hok eq_refl Hlines).
  assert (Hids : postedIds (boot w1) = postedIds (boot w) ++ added).
  { cbn. destruct Hfile as [[-> Hfile]| ->]; [|done].
    rewrite Hfile. cbn. by rewrite app_nil_r. }
  assert (Hall : ∀ p, p ∈ posts → post_id p ∈ postedIds (boot w1) ∨ rejected p).
  { intros p Hp. rewrite Hids.
    destruct (decide (post_id p ∈ postedIds (boot w))) as [Hin|Hnin].
    - left. apply elem_of_app. by left.
    - destruct (Hok p) as [?|?]; [by apply elem_of_newPosts| |by right].
      left. apply elem_of_app. by right. }
  assert (Hrej : Forall rejected (Part000.newPosts posts (postedIds (boot w1)))).
  { apply Forall_forall. intros p [Hp Hn]%elem_of_newPosts.
    by destruct (Hall p Hp). }
  split; [|split].
  - destruct (run_with_spec _ _ _ _ Hh2 env2 (boot w1))
      as (code2 & lines2 & added2 & published2 & new2 & _ & _ & _ & _ & _ & Hf2 & _
          & _ & _ & _ & Hsome2 & _).
    rewrite Henv in Hsome2. destruct (Hsome2 posts eq_refl) as (_ & _ & _ & _ & Hnone).
    rewrite Hf2, (Hnone Hrej), app_nil_r. done.
  - intros ? p [= <-]. apply Hall.
  - intros Hnever.
    assert (Hnil : Forall (λ p, post_id p ∈ postedIds (boot w1)) posts).
    { apply Forall_forall. intros p Hp. destruct (Hall p Hp) as [?|?]; [done|].
      by destruct (Hnever p). }
    rewrite (run_with_nothing_new h2 env2 (boot w1) posts); [done| |done].
    by rewrite Henv.
Qed.




(** X23. The ledger only grows, in every draft: a run appends to [postedIds]
    identifiers of new posts, in the order the posts are handled, and never
    removes or reorders one; posted_ids.json is either not written at all
    (and then nothing was appended) or holds exactly [postedIds] when the run
    ends, so a file in step with memory stays in step. *)
Theorem ledger_only_grows `{Libs} :
  Forall (λ main : Env → M Z, ∀ env w, ∃ added,
    postedIds (main env w).2 = postedIds w ++ added ∧
    (∀ posts, mastodon_statuses env = Some posts →
       added `sublist_of` (post_id <$> Part000.newPosts posts (postedIds w))) ∧
    (mastodon_statuses env = None → added = []) ∧
    ((added = [] ∧ posted_ids_file (main env w).2 = posted_ids_file w) ∨
     posted_ids_file (main env w).2 = Some (postedIds (main env w).2)) ∧
    (synced w → synced (main env w).2)) mains.
Proof.
  unfold mains. repeat apply Forall_cons_2; [..|apply Forall_nil_2]; intros env w.
  - rewrite !repost_main_shape. apply (run_with_ledger _ _ _ _ (repost_settles env)).
  - rewrite !part000_main_shape. apply (run_with_ledger _ _ _ _ (part000_settles env)).
  - rewrite !part001a_main_shape. apply (run_with_ledger _ _ _ _ (part001a_settles env)).
  - rewrite !part001b_main_shape. apply (run_with_ledger _ _ _ _ (part001b_settles env)).
Qed.


(** X25. No draft records a post twice: when the fetched posts have distinct
    identifiers and the ledger has no duplicate, it has none after the run. *)
Theorem ledger_stays_duplicate_free `{Libs} (env : Env) (w : World) (posts : list Post) :
  mastodon_statuses env = Some posts → NoDup (post_id <$> posts) →
  NoDup (postedIds w) →
  Forall (λ main : Env → M Z, NoDup (postedIds (main env w).2)) mains.
Proof.
  intros Hposts Hnd Hw.
  unfold mains. repeat apply Forall_cons_2; [..|apply Forall_nil_2].
  - rewrite !repost_main_shape.
    by apply (run_with_nodup _ _ _ _ (repost_settles env) env w posts).
  - rewrite !part000_main_shape.
    by apply (run_with_nodup _ _ _ _ (part000_settles env) env w posts).
  - rewrite !part001a_main_shape.
    by apply (run_with_nodup _ _ _ _ (part001a_settles env) env w posts).
  - rewrite !part001b_main_shape.
    by apply (run_with_nodup _ _ _ _ (part001b_settles env) env w posts).
Qed.

Lemma ledger_stays_duplicate_free_witness :
  Forall (λ main : Env → M Z,
            NoDup (postedIds (main (Fixture.online Fixture.three_posts ∅) Fixture.fresh).2))
         (@mains Fixture.libs).
Proof.
  apply (@ledger_stays_duplicate_free Fixture.libs
           (Fixture.online Fixture.three_posts ∅) Fixture.fresh Fixture.three_posts).
  - reflexivity.
  - apply (bool_decide_unpack _). vm_compute. exact I.
  - apply (bool_decide_unpack _). vm_compute. exact I.
Defined.



Lemma newPosts_empty_ledger (posts : list Post) : Part000.newPosts posts [] = rev posts.
Proof.
  unfold Part000.newPosts. f_equal.
  induction posts as [|p posts IH]; [done|]. cbn. by rewrite IH.
Qed.



Lemma admissible_text `{Libs} (post : Post) (r : PostRequest) :
  req_text r = plain_text post → ¬ text_rejected post →
  ∃ t, req_text r = Some t ∧ t ≠ "" ∧ JS.length t ≤ BLUESKY_MAX_CHARS.
Proof.
  unfold text_rejected. intros -> Hnr.
  destruct (plain_text post) as [t|]; [|by destruct Hnr].
  exists t. split; [done|]. split.
  - intros ->. apply Hnr. by left.
  - destruct (decide (JS.length t > BLUESKY_MAX_CHARS)) as [Hgt|?]; [|lia].
    destruct Hnr. by right.
Qed.


(** X29. The first half of part_001 has no text guard.  With BlueSky
    accepting, a post without attachments is published with the text of
    line 195 whatever it is (the empty string when the post has no text at
    all), without facets or embed, and is recorded and reported as
    reposted. *)
Theorem part001a_publishes_without_text_guard `{Libs} (env : Env) (post : Post)
    (w : World) :
  accepting env → media_attachments post = [] →
  Part001a.handle_post env post w
  = (Returned tt,
     set_console (λ c, c ++ [LogReposted (post_id post)])
       (set_posted_ids_file (Some (postedIds w ++ [post_id post]))
          (set_postedIds (λ ids, ids ++ [post_id post])
             (set_feed (λ f, f ++ [{| req_text := content post ||| spoiler_text post
                                                   ||| text post ||| Some "";
                                      req_facets := None; req_embed := None |}]) w)))) ∧
  (content post = None → spoiler_text post = None → text post = None →
   req_text <$> feed (Part001a.handle_post env post w).2
   = (req_text <$> feed w) ++ [Some ""]).
Proof.
  intros [_ Hpost] Hnone.
  assert (Hrun : Part001a.handle_post env post w
  = (Returned tt,
     set_console (λ c, c ++ [LogReposted (post_id post)])
       (set_posted_ids_file (Some (postedIds w ++ [post_id post]))
          (set_postedIds (λ ids, ids ++ [post_id post])
             (set_feed (λ f, f ++ [{| req_text := content post ||| spoiler_text post
                                                   ||| text post ||| Some "";
                                      req_facets := None; req_embed := None |}]) w))))).
  { unfold Part001a.handle_post, Part001a.process_post, Part001a.postToBlueSky.
    cbv zeta. rewrite Hnone. cbn [for_of_with].
    rewrite try_catch_run, bind_ret, bind_run, bind_run.
    rewrite bool_decide_eq_false_2 by (cbn; lia). cbn [ret].
    unfold agent_post. rewrite Hpost. reflexivity. }
  split; [done|].
  intros Hc Hs Ht. rewrite Hrun. cbn. rewrite Hc, Hs, Ht, fmap_app. done.
Qed.

(** A post with no text at all and no attachment. *)
Lemma part001a_publishes_without_text_guard_witness :
  req_text <$> feed (@Part001a.handle_post Fixture.libs (Fixture.online [] ∅)
                       (Fixture.text_post "8" "") Fixture.fresh).2
  = [Some ""].
Proof.
  pose proof (proj1 (@part001a_publishes_without_text_guard Fixture.libs
                       (Fixture.online [] ∅) (Fixture.text_post "8" "") Fixture.fresh
                       (conj (λ _ _, eq_refl) (λ _, eq_refl)) eq_refl)) as Hrun.
  rewrite Hrun. reflexivity.
Defined.
